(** * MCP Gateway Registry CDK app: deployment modes, stacks and manifests

    A shallow embedding of the CDK application of the repository:

    - the entry point ([bin], the script that reads the context and the
      environment, validates the required parameters and instantiates one
      stack according to [deploymentMode]);
    - [McpgwCompleteInfrastructureStack] (modes [complete] and
      [infrastructure-only]);
    - [McpgwMicroservicesCdkStack] (mode [application-only]);
    - the Kubernetes manifest constructs of [lib/k8s-manifests];
    - [deploy.sh]: its argument loop, the dispatch of [main], and the
      checks of [load_config] and [validate_config].

    A stack is modelled by the sequence of construct declarations its
    constructor performs, in program order.  Each declaration carries the
    construct class, the identifier given in the source, the construct it is
    attached to and its property object.  References to attributes of other
    constructs (CDK tokens such as [this.efsFileSystem.fileSystemId]) are
    kept symbolic, so dependency edges can be read off the declarations.

    Conventions.
    - JavaScript strings are [string]; [undefined] is [None].
    - Context values are the strings given with [-c key=value].
    - [Math.random] and [Date.now] are inputs of the model ([Entropy]).
    - The text of the container start-up scripts (template literals without
      interpolation) is abbreviated; it does not depend on any input.
    - A number is [NaN], an integer-valued double or an infinity;
      [parseInt] rounds the integer it reads to the nearest double.
    - The availability zones a stack reports are an input of the model, by
      their number ([zones]).
    - Of the construct library's own checks at construction time, two are
      modelled: a scope refuses a second child of the same name, and a VPC
      that spans no availability zone has no subnet group to select.  The
      others (the syntax of a CIDR block or of an ARN, for instance) are
      outside the model.  The constructs that only group manifests
      ([EfsPvc], [AuthServerDeployment], ...) are children of the stack
      under names no other child has; they are not recorded.
    - Of [deploy.sh], the commands it runs ([cdk], [kubectl], [npm], [aws])
      and what it prints are outside the model: [main] is modelled by the
      sequence of functions it calls.  The variables are taken as they are
      once [.env] has been exported, and [cdk.context.json] is a file of
      string entries. *)

From stdpp Require Import base strings list gmap pretty.
From Stdlib Require Import ZArith Lia Ascii String.

Local Open Scope string_scope.
Local Open Scope list_scope.
Local Open Scope Z_scope.

(* ===================================================================== *)
(** ** JavaScript primitives used by the sources *)
(* ===================================================================== *)

Module Js.

(** A value that is either a string or [undefined]. *)
Abbreviation jsstring := (option string).

Definition nonempty (s : string) : bool :=
  match s with EmptyString => false | String _ _ => true end.

(** Truthiness of a string-or-undefined value: [undefined] and the empty
    string are falsy. *)
Definition truthy (v : jsstring) : bool :=
  match v with
  | Some s => nonempty s
  | None => false
  end.

(** [a || b] on string-or-undefined operands. *)
Definition or (a b : jsstring) : jsstring :=
  if truthy a then a else b.

(** [a || 'literal']: the result is a string. *)
Definition or_lit (a : jsstring) (d : string) : string :=
  match a with
  | Some s => if nonempty s then s else d
  | None => d
  end.

(** Interpolation [`${v}`] of a string-or-undefined value. *)
Definition interp (v : jsstring) : string :=
  match v with Some s => s | None => "undefined" end.

(** Numbers produced by [parseInt]: [NaN], a double whose value is an
    integer, or an infinity. *)
Inductive number :=
| NaN
| Num (z : Z)
| Infinity (negative : bool).

Definition number_truthy (n : number) : bool :=
  match n with
  | NaN => false
  | Num z => negb (z =? 0)
  | Infinity _ => true
  end.

(** The double nearest to an integer: 53 significant bits are kept, a tie
    goes to the even significand, and what is not below 2^1024 after
    rounding is an infinity. *)
Definition toDouble (z : Z) : number :=
  let a := Z.abs z in
  let shift := Z.log2 a - 52 in
  let rounded :=
    if shift <=? 0 then a
    else
      let q := Z.shiftr a shift in
      let rest := a - Z.shiftl q shift in
      let half := Z.shiftl 1 (shift - 1) in
      Z.shiftl (if (half <? rest) || (rest =? half) && Z.odd q then q + 1 else q)
               shift in
  if Z.shiftl 1 1024 <=? rounded then Infinity (z <? 0)
  else Num (Z.sgn z * rounded).

(** The length of [array.slice(0, last)] for an array of [len] elements. *)
Definition sliceLength (len : Z) (last : number) : Z :=
  match last with
  | NaN => 0
  | Num z => if z <? 0 then Z.max (len + z) 0 else Z.min z len
  | Infinity negative => if negative then 0 else len
  end.

Definition code (a : ascii) : N := N_of_ascii a.

(** [StrWhiteSpaceChar], on the UTF-8 encoding of the string: TAB, LF, VT,
    FF, CR, SP; U+00A0; U+1680; U+2000..U+200A, U+2028, U+2029, U+202F;
    U+205F; U+3000; U+FEFF. *)
Definition ws1 (a : ascii) : bool :=
  let c := code a in
  ((9 <=? c) && (c <=? 13) || (c =? 32))%N.

Definition ws2 (a b : ascii) : bool :=
  ((code a =? 194) && (code b =? 160))%N.

Definition ws3 (a b c : ascii) : bool :=
  let x := code a in let y := code b in let z := code c in
  ((x =? 225) && (y =? 154) && (z =? 128)
   || (x =? 226) && (y =? 128)
      && ((128 <=? z) && (z <=? 138) || (z =? 168) || (z =? 169) || (z =? 175))
   || (x =? 226) && (y =? 129) && (z =? 159)
   || (x =? 227) && (y =? 128) && (z =? 128)
   || (x =? 239) && (y =? 187) && (z =? 191))%N.

Fixpoint trimStart (s : string) : string :=
  match s with
  | EmptyString => s
  | String a r1 =>
      if ws1 a then trimStart r1
      else match r1 with
           | EmptyString => s
           | String b r2 =>
               if ws2 a b then trimStart r2
               else match r2 with
                    | EmptyString => s
                    | String c r3 => if ws3 a b c then trimStart r3 else s
                    end
           end
  end.

(** Value of a character as a digit (any radix up to 36). *)
Definition digit (a : ascii) : option Z :=
  let c := Z.of_N (code a) in
  if (48 <=? c) && (c <=? 57) then Some (c - 48)
  else if (97 <=? c) && (c <=? 122) then Some (c - 87)
  else if (65 <=? c) && (c <=? 90) then Some (c - 55)
  else None.

(** The longest prefix of radix-[R] digits, read as a number; [acc] is
    [None] until a digit has been read. *)
Fixpoint digits (R : Z) (s : string) (acc : option Z) : option Z :=
  match s with
  | EmptyString => acc
  | String a r =>
      match digit a with
      | Some d =>
          if d <? R then digits R r (Some (R * default 0 acc + d)) else acc
      | None => acc
      end
  end.

Definition strip_sign (s : string) : Z * string :=
  match s with
  | String a r =>
      if (code a =? 45)%N then (-1, r)
      else if (code a =? 43)%N then (1, r)
      else (1, s)
  | EmptyString => (1, s)
  end.

Definition strip_hex (s : string) : Z * string :=
  match s with
  | String a (String b r) =>
      if ((code a =? 48) && ((code b =? 120) || (code b =? 88)))%N
      then (16, r) else (10, s)
  | _ => (10, s)
  end.

(** [parseInt(s)] with no radix argument: the integer the digits read as,
    as a double. *)
Definition parseInt (s : string) : number :=
  let '(sign, s1) := strip_sign (trimStart s) in
  let '(R, s2) := strip_hex s1 in
  match digits R s2 None with
  | None => NaN
  | Some m => toDouble (sign * m)
  end.

(** [s.toLowerCase()] on ASCII letters. *)
Definition lower (a : ascii) : ascii :=
  let c := code a in
  if ((65 <=? c) && (c <=? 90))%N then ascii_of_N (c + 32) else a.

Fixpoint toLowerCase (s : string) : string :=
  match s with
  | EmptyString => EmptyString
  | String a r => String (lower a) (toLowerCase r)
  end.

(** The double quote character, for string constants that contain it. *)
Definition dq : string := String (ascii_of_nat 34) EmptyString.

End Js.

(* ===================================================================== *)
(** ** Property values and construct declarations *)
(* ===================================================================== *)

Set Warnings "-register-all".

(** Property objects handed to constructs.  [VNum] is a number written in
    the source, [VDouble] a number computed at run time; [VRef] is a
    construct passed as an object ([vpc: this.vpc]); [VAttr] is a
    deploy-time attribute of a construct ([this.userPool.userPoolId]);
    [VPseudo] is a stack pseudo-parameter; [VCat] is a template literal
    with interpolated parts; [VEnum] is a constant of the construct
    library. *)
Inductive Val :=
| VStr (s : string)
| VNum (n : Z)
| VDouble (n : Js.number)
| VBool (b : bool)
| VEnum (name : string)
| VPseudo (name : string)
| VRef (target : string)
| VAttr (target attr : string)
| VCat (parts : list Val)
| VArr (items : list Val)
| VObj (fields : list (string * Val)).

(** Construct classes instantiated by the sources. *)
Inductive Kind :=
| Vpc | FlowLog | FileSystem | AccessPoint | KubectlV28Layer | FargateCluster
| Certificate | ImportedCertificate | ImportedHostedZone | ImportedCluster
| UserPool | UserPoolClient | CfnUserPoolGroup | UserPoolResourceServer
| UserPoolDomain | CfnUserPoolUser | CfnUserPoolUserToGroupAttachment
| CfnAddon | HelmChart | ServiceAccount | FargateProfile | Role
| KubernetesManifest | CfnOutput.

#[global] Instance Kind_eq_dec : EqDecision Kind.
Proof. solve_decision. Defined.

(** One declaration: [new K(this, id, props)] has no host;
    [cluster.addManifest(id, props)] and the like are hosted by the
    cluster they are called on. *)
Record Decl := mkDecl {
  kind : Kind;
  logicalId : string;
  host : option string;
  props : Val
}.

(** Constructs referred to by a property value. *)
Fixpoint refs (v : Val) : list string :=
  match v with
  | VRef t => [t]
  | VAttr t _ => [t]
  | VCat l =>
      (fix go (l : list Val) : list string :=
         match l with [] => [] | x :: r => refs x ++ go r end) l
  | VArr l =>
      (fix go (l : list Val) : list string :=
         match l with [] => [] | x :: r => refs x ++ go r end) l
  | VObj fs =>
      (fix go (l : list (string * Val)) : list string :=
         match l with [] => [] | (_, x) :: r => refs x ++ go r end) fs
  | _ => []
  end.

(** Dependency edges of a declaration: its host and every construct its
    properties refer to. *)
Definition deps (d : Decl) : list string :=
  remove_dups (option_list (host d) ++ refs (props d)).

(** What the external engine keys a declaration on. *)
Definition skeleton (d : Decl) : Kind * string * list string :=
  (kind d, logicalId d, deps d).



(** Field access in an object; [None] when absent or not an object. *)
Fixpoint field_in (k : string) (fs : list (string * Val)) : option Val :=
  match fs with
  | [] => None
  | (k', v) :: r => if String.eqb k k' then Some v else field_in k r
  end.

Definition field (k : string) (v : Val) : option Val :=
  match v with VObj fs => field_in k fs | _ => None end.

Definition items (v : option Val) : list Val :=
  match v with Some (VArr l) => l | _ => [] end.

Definition strs (l : list (string * string)) : Val :=
  VObj (map (fun kv => (kv.1, VStr kv.2)) l).

(** Truthiness of an optional string-valued property that may be a token. *)
Definition truthyV (v : option Val) : bool :=
  match v with
  | Some (VStr s) => Js.nonempty s
  | Some _ => true
  | None => false
  end.

(** The name under which a construct becomes a child of its scope: the
    id it is given, which the methods of a cluster prefix
    ([addManifest(id)] creates the child [manifest-id], [addHelmChart(id)]
    the child [chart-id], [addFargateProfile(id)] the child
    [fargate-profile-id]; [addServiceAccount(id)] keeps [id]). *)
Definition childName (d : Decl) : string :=
  match host d, kind d with
  | Some _, KubernetesManifest => "manifest-" +:+ logicalId d
  | Some _, HelmChart => "chart-" +:+ logicalId d
  | Some _, FargateProfile => "fargate-profile-" +:+ logicalId d
  | _, _ => logicalId d
  end.

Definition sameChild (a b : Decl) : bool :=
  bool_decide (host a = host b) && String.eqb (childName a) (childName b).

(** The first declaration, in program order, whose name its scope already
    has. *)
Fixpoint firstRepeated (seen g : list Decl) : option Decl :=
  match g with
  | [] => None
  | d :: r =>
      if existsb (sameChild d) seen then Some d else firstRepeated (d :: seen) r
  end.

(** [cluster.addManifest(id, manifest)]. *)
Definition addManifest (cluster id : string) (manifest : Val) : Decl :=
  mkDecl KubernetesManifest id (Some cluster) manifest.

Definition cfnOutput (id : string) (value : Val) (description : string) : Decl :=
  mkDecl CfnOutput id None
    (VObj [("value", value); ("description", VStr description)]).

(* ===================================================================== *)
(** ** lib/k8s-manifests *)
(* ===================================================================== *)

Module Manifests.

(** Shared shapes of the manifests. *)

Definition metadata (name : string) (namespace : string)
    (labels : list (string * string)) : Val :=
  VObj [("name", VStr name); ("namespace", VStr namespace);
        ("labels", strs labels)].

Definition envVar (name : string) (value : Val) : Val :=
  VObj [("name", VStr name); ("value", value)].

Definition envFrom (name source ref key : string) (extra : list (string * Val)) : Val :=
  VObj [("name", VStr name);
        ("valueFrom",
          VObj [(source, VObj ([("name", VStr ref); ("key", VStr key)] ++ extra))])].

Definition cpuMem (cpu memory : string) : Val :=
  strs [("cpu", cpu); ("memory", memory)].

Definition resourcesOf (rc rm lc lm : string) : Val :=
  VObj [("requests", cpuMem rc rm); ("limits", cpuMem lc lm)].

Definition httpGet (port : Z) : Val :=
  VObj [("path", VStr "/health"); ("port", VNum port)].

(** Probe of the auth and registry servers. *)
Definition probe (port period failures : Z) : Val :=
  VObj [("httpGet", httpGet port); ("periodSeconds", VNum period);
        ("failureThreshold", VNum failures)].

(** Probe of the tool servers. *)
Definition probeDelay (port delay period : Z) : Val :=
  VObj [("httpGet", httpGet port); ("initialDelaySeconds", VNum delay);
        ("periodSeconds", VNum period)].

Definition claimVolume (claimName : string) : Val :=
  VObj [("name", VStr "efs-storage");
        ("persistentVolumeClaim", VObj [("claimName", VStr claimName)])].

Definition deployment (name namespace : string) (labels : list (string * string))
    (replicas : Z) (containerFields podFields : list (string * Val)) : Val :=
  VObj [("apiVersion", VStr "apps/v1");
        ("kind", VStr "Deployment");
        ("metadata", metadata name namespace labels);
        ("spec", VObj [
           ("replicas", VNum replicas);
           ("selector", VObj [("matchLabels", strs [("app", name)])]);
           ("template", VObj [
              ("metadata", VObj [("labels", strs labels)]);
              ("spec", VObj ([("containers", VArr [VObj containerFields])]
                             ++ podFields))])])].

Definition service (name namespace : string) (labels : list (string * string))
    (ports : list Val) : Val :=
  VObj [("apiVersion", VStr "v1");
        ("kind", VStr "Service");
        ("metadata", metadata name namespace labels);
        ("spec", VObj [("selector", strs [("app", name)]);
                       ("ports", VArr ports);
                       ("type", VStr "ClusterIP")])].

Definition namedPort (name : string) (port : Z) : Val :=
  VObj [("name", VStr name); ("port", VNum port); ("targetPort", VNum port)].

Definition tcpPort (port : Z) : Val :=
  VObj [("port", VNum port); ("targetPort", VNum port);
        ("protocol", VStr "TCP"); ("name", VStr "http")].

Definition hpa (name target namespace : string) : Val :=
  VObj [("apiVersion", VStr "autoscaling/v2");
        ("kind", VStr "HorizontalPodAutoscaler");
        ("metadata", VObj [("name", VStr name); ("namespace", VStr namespace)]);
        ("spec", VObj [
           ("scaleTargetRef", strs [("apiVersion", "apps/v1");
                                    ("kind", "Deployment"); ("name", target)]);
           ("minReplicas", VNum 1);
           ("maxReplicas", VNum 2);
           ("metrics", VArr [VObj [
              ("type", VStr "Resource");
              ("resource", VObj [
                 ("name", VStr "cpu");
                 ("target", VObj [("type", VStr "Utilization");
                                  ("averageUtilization", VNum 80)])])]])])].

(** The start-up scripts: constant template literals, abbreviated. *)
Definition authServerScript : string := "<auth-server start-up script>".
Definition registryScript : string := "<registry start-up script>".
Definition currentTimeScript : string := "<currenttime-server start-up script>".
Definition finInfoScript : string := "<fininfo-server start-up script>".
Definition fakeToolsScript : string := "<faketools-server start-up script>".
Definition mcpGatewayScript : string := "<mcpgw-server start-up script>".

(** *** alb-ingress.ts *)

Definition ingressPath (path service : string) (port : Z) : Val :=
  VObj [("path", VStr path);
        ("pathType", VStr "Prefix");
        ("backend", VObj [("service", VObj [
           ("name", VStr service);
           ("port", VObj [("number", VNum port)])])])].

Definition listenPorts : string :=
  "[{" +:+ Js.dq +:+ "HTTP" +:+ Js.dq +:+ ": 80}, {"
       +:+ Js.dq +:+ "HTTPS" +:+ Js.dq +:+ ": 443}]".

Definition AlbIngress (cluster namespace domainName : string)
    (certificateArn : Val) : list Decl :=
  [addManifest cluster "RegistryIngress" (VObj [
     ("apiVersion", VStr "networking.k8s.io/v1");
     ("kind", VStr "Ingress");
     ("metadata", VObj [
        ("name", VStr "registry-ingress");
        ("namespace", VStr namespace);
        ("labels", strs [("app", "registry"); ("managed-by", "cdk")]);
        ("annotations", VObj [
           ("kubernetes.io/ingress.class", VStr "alb");
           ("alb.ingress.kubernetes.io/scheme", VStr "internet-facing");
           ("alb.ingress.kubernetes.io/target-type", VStr "ip");
           ("alb.ingress.kubernetes.io/certificate-arn", certificateArn);
           ("alb.ingress.kubernetes.io/ssl-redirect", VStr "443");
           ("alb.ingress.kubernetes.io/listen-ports", VStr listenPorts);
           ("alb.ingress.kubernetes.io/healthcheck-path", VStr "/health");
           ("alb.ingress.kubernetes.io/healthcheck-interval-seconds", VStr "30");
           ("alb.ingress.kubernetes.io/healthcheck-timeout-seconds", VStr "5");
           ("alb.ingress.kubernetes.io/healthy-threshold-count", VStr "2");
           ("alb.ingress.kubernetes.io/unhealthy-threshold-count", VStr "3");
           ("alb.ingress.kubernetes.io/load-balancer-attributes",
             VStr "idle_timeout.timeout_seconds=60")])]);
     ("spec", VObj [("rules", VArr [VObj [
        ("host", VStr domainName);
        ("http", VObj [("paths", VArr [
           ingressPath "/" "registry" 7860;
           ingressPath "/auth" "auth-server" 8888;
           ingressPath "/mcp" "mcpgw-server" 8003;
           ingressPath "/api/time" "currenttime-server" 8000;
           ingressPath "/api/finance" "fininfo-server" 8001;
           ingressPath "/api/tools" "faketools-server" 8002])])]])])])].

(** *** efs-pvc.ts *)

Definition EfsPvc (cluster namespace : string) (efsFileSystemId : Val)
    : list Decl :=
  [addManifest cluster "EfsStorageClass" (VObj [
     ("apiVersion", VStr "storage.k8s.io/v1");
     ("kind", VStr "StorageClass");
     ("metadata", VObj [("name", VStr "efs-sc");
                        ("labels", strs [("managed-by", "cdk")])]);
     ("provisioner", VStr "efs.csi.aws.com");
     ("parameters", VObj [
        ("provisioningMode", VStr "efs-ap");
        ("fileSystemId", efsFileSystemId);
        ("directoryPerms", VStr "755");
        ("gidRangeStart", VStr "1000");
        ("gidRangeEnd", VStr "2000");
        ("basePath", VStr "/mcp-gateway")]);
     ("reclaimPolicy", VStr "Retain");
     ("volumeBindingMode", VStr "Immediate")]);
   addManifest cluster "EfsPvc" (VObj [
     ("apiVersion", VStr "v1");
     ("kind", VStr "PersistentVolumeClaim");
     ("metadata", metadata "efs-pvc" namespace [("managed-by", "cdk")]);
     ("spec", VObj [
        ("accessModes", VArr [VStr "ReadWriteMany"]);
        ("storageClassName", VStr "efs-sc");
        ("resources", VObj [("requests", strs [("storage", "100Gi")])])])])].

(** *** auth-server-deployment-updated.ts *)

Record AuthServerDeploymentProps := {
  as_cluster : string;
  as_namespace : string;
  as_adminUser : string;
  as_adminPassword : string;
  as_secretKey : string;
  as_registryUrl : string;
  as_authServerExternalUrl : string;
  as_cognitoClientId : Val;
  as_cognitoClientSecret : Val;
  as_cognitoUserPoolId : Val;
  as_awsRegion : Val
}.

Definition AuthServerDeployment (p : AuthServerDeploymentProps) : list Decl :=
  [addManifest (as_cluster p) "AuthServerDeployment"
     (deployment "auth-server" (as_namespace p) [("app", "auth-server")] 1
        [("name", VStr "auth-server");
         ("image", VStr "python:3.12");
         ("ports", VArr [VObj [("name", VStr "auth");
                               ("containerPort", VNum 8888)]]);
         ("env", VArr [
            envVar "HOME" (VStr "/app");
            envVar "PYTHONUNBUFFERED" (VStr "1");
            envVar "REGISTRY_URL" (VStr (as_registryUrl p));
            envVar "SECRET_KEY" (VStr (as_secretKey p));
            envVar "ADMIN_USER" (VStr (as_adminUser p));
            envVar "ADMIN_PASSWORD" (VStr (as_adminPassword p));
            envVar "AUTH_SERVER_EXTERNAL_URL" (VStr (as_authServerExternalUrl p));
            envVar "COGNITO_CLIENT_ID" (as_cognitoClientId p);
            envVar "COGNITO_CLIENT_SECRET" (as_cognitoClientSecret p);
            envVar "COGNITO_USER_POOL_ID" (as_cognitoUserPoolId p);
            envVar "AWS_REGION" (as_awsRegion p)]);
         ("command", VArr [VStr "/bin/bash"]);
         ("args", VArr [VStr "-c"; VStr authServerScript]);
         ("resources", resourcesOf "250m" "512Mi" "500m" "1Gi");
         ("volumeMounts", VArr [strs [("name", "efs-storage");
                                      ("mountPath", "/efs")]]);
         ("readinessProbe", probe 8888 30 5);
         ("startupProbe", probe 8888 30 20);
         ("livenessProbe", probe 8888 30 3)]
        [("volumes", VArr [claimVolume "efs-claim"])]);
   addManifest (as_cluster p) "AuthServerService"
     (service "auth-server" (as_namespace p) [("app", "auth-server")]
        [namedPort "auth" 8888]);
   addManifest (as_cluster p) "AuthServerHPA"
     (hpa "auth-server-hpa" "auth-server" (as_namespace p))].

(** *** registry-deployment-updated.ts *)

Record RegistryDeploymentProps := {
  rg_cluster : string;
  rg_namespace : string;
  rg_adminUser : string;
  rg_adminPassword : string;
  rg_secretKey : string;
  rg_domainName : string;
  rg_authServerUrl : string;
  rg_authServerExternalUrl : string;
  rg_registryUrl : string;
  rg_efsFileSystemId : Val;
  rg_cognitoClientId : Val;
  rg_cognitoClientSecret : Val;
  rg_cognitoUserPoolId : Val;
  rg_awsRegion : Val
}.

Definition RegistryDeployment (p : RegistryDeploymentProps) : list Decl :=
  [addManifest (rg_cluster p) "RegistryDeployment"
     (deployment "registry" (rg_namespace p) [("app", "registry")] 1
        [("name", VStr "registry");
         ("image", VStr "python:3.12-slim");
         ("ports", VArr [
            VObj [("name", VStr "http"); ("containerPort", VNum 80)];
            VObj [("name", VStr "https"); ("containerPort", VNum 443)];
            VObj [("name", VStr "registry"); ("containerPort", VNum 7860)]]);
         ("env", VArr [
            envVar "HOME" (VStr "/app");
            envVar "PYTHONUNBUFFERED" (VStr "1");
            envVar "DEBIAN_FRONTEND" (VStr "noninteractive");
            envVar "SECRET_KEY" (VStr (rg_secretKey p));
            envVar "ADMIN_USER" (VStr (rg_adminUser p));
            envVar "ADMIN_PASSWORD" (VStr (rg_adminPassword p));
            envVar "AUTH_SERVER_URL" (VStr (rg_authServerUrl p));
            envVar "AUTH_SERVER_EXTERNAL_URL" (VStr (rg_authServerExternalUrl p));
            envVar "REGISTRY_URL" (VStr (rg_registryUrl p));
            envVar "DOMAIN_NAME" (VStr (rg_domainName p));
            envVar "COGNITO_CLIENT_ID" (rg_cognitoClientId p);
            envVar "COGNITO_CLIENT_SECRET" (rg_cognitoClientSecret p);
            envVar "COGNITO_USER_POOL_ID" (rg_cognitoUserPoolId p);
            envVar "AWS_REGION" (rg_awsRegion p);
            envVar "EMBEDDINGS_MODEL_NAME" (VStr "all-MiniLM-L6-v2");
            envVar "EMBEDDINGS_MODEL_DIMENSIONS" (VStr "384")]);
         ("command", VArr [VStr "/bin/bash"]);
         ("args", VArr [VStr "-c"; VStr registryScript]);
         ("resources", resourcesOf "500m" "2Gi" "1" "4Gi");
         ("volumeMounts", VArr [strs [("name", "efs-storage");
                                      ("mountPath", "/efs")]]);
         ("readinessProbe", probe 7860 30 5);
         ("startupProbe", probe 7860 40 20);
         ("livenessProbe", probe 7860 30 3)]
        [("volumes", VArr [claimVolume "efs-claim"])]);
   addManifest (rg_cluster p) "RegistryService"
     (service "registry" (rg_namespace p) [("app", "registry")]
        [namedPort "http" 80; namedPort "https" 443; namedPort "registry" 7860]);
   addManifest (rg_cluster p) "RegistryHPA"
     (hpa "registry-hpa" "registry" (rg_namespace p))].

(** *** The tool servers

    [CurrentTimeServerDeployment], [FinInfoServerDeployment],
    [FakeToolsServerDeployment] and [McpGatewayServerDeployment] are four
    classes of one shape; [efsFileSystemId] is optional and the volume and
    its mount are spread in only when it is truthy. *)

Definition whenEfs (efsFileSystemId : option Val) (fs : list (string * Val))
    : list (string * Val) :=
  if truthyV efsFileSystemId then fs else [].

Definition toolServer (idPrefix name : string) (port : Z) (portText : string)
    (replicas : Z) (extraEnv : list Val) (res : Val) (script mountPath subPath : string)
    (cluster namespace : string) (efsFileSystemId : option Val) : list Decl :=
  let labels := [("app", name); ("managed-by", "cdk")] in
  [addManifest cluster (idPrefix +:+ "Deployment")
     (deployment name namespace labels replicas
        ([("name", VStr name);
          ("image", VStr "python:3.12-slim");
          ("ports", VArr [VObj [("containerPort", VNum port)]]);
          ("env", VArr ([envVar "PORT" (VStr portText);
                         envVar "PYTHONUNBUFFERED" (VStr "1");
                         envVar "MCP_SERVER_NAME" (VStr name)] ++ extraEnv));
          ("resources", res);
          ("command", VArr [VStr "/bin/bash"; VStr "-c"]);
          ("args", VArr [VStr script]);
          ("livenessProbe", probeDelay port 60 30);
          ("readinessProbe", probeDelay port 30 10)]
         ++ whenEfs efsFileSystemId
              [("volumeMounts", VArr [strs [("name", "efs-storage");
                                            ("mountPath", mountPath);
                                            ("subPath", subPath)]])])
        (whenEfs efsFileSystemId [("volumes", VArr [claimVolume "efs-pvc"])]));
   addManifest cluster (idPrefix +:+ "Service")
     (service name namespace labels [tcpPort port])].

Definition CurrentTimeServerDeployment :=
  toolServer "CurrentTimeServer" "currenttime-server" 8000 "8000" 1 []
    (resourcesOf "100m" "256Mi" "250m" "512Mi")
    currentTimeScript "/mcp-gateway/currenttime" "currenttime".

Definition FinInfoServerDeployment :=
  toolServer "FinInfoServer" "fininfo-server" 8001 "8001" 1
    [envFrom "POLYGON_API_KEY" "secretKeyRef" "mcp-gateway-secrets"
       "polygon-api-key" [("optional", VBool true)]]
    (resourcesOf "100m" "256Mi" "250m" "512Mi")
    finInfoScript "/mcp-gateway/fininfo" "fininfo".

Definition FakeToolsServerDeployment :=
  toolServer "FakeToolsServer" "faketools-server" 8002 "8002" 1 []
    (resourcesOf "100m" "256Mi" "250m" "512Mi")
    fakeToolsScript "/mcp-gateway/faketools" "faketools".

Definition McpGatewayServerDeployment :=
  toolServer "McpGatewayServer" "mcpgw-server" 8003 "8003" 2
    [envFrom "AUTH_SERVER_URL" "configMapKeyRef" "mcp-gateway-config"
       "AUTH_SERVER_URL" [];
     envFrom "REGISTRY_URL" "configMapKeyRef" "mcp-gateway-config"
       "REGISTRY_URL" []]
    (resourcesOf "250m" "512Mi" "500m" "1Gi")
    mcpGatewayScript "/mcp-gateway/mcpgw" "mcpgw".

End Manifests.

(* ===================================================================== *)
(** ** Stacks: shared notions *)
(* ===================================================================== *)

(** Outcome of code that may [throw]. *)
Inductive Outcome (A : Type) :=
| Thrown (message : string)
| Returned (a : A).
Arguments Thrown {A} message.
Arguments Returned {A} a.

(** Sequencing: what follows a [throw] is not run. *)
#[global] Instance Outcome_bind : MBind Outcome :=
  fun A B f o =>
    match o with
    | Thrown m => Thrown m
    | Returned a => f a
    end.

(** The error of the constructs library when a scope is given a second
    child of a name. *)
Definition alreadyExists (name scope : string) : string :=
  "There is already a Construct with name '" +:+ name +:+ "' in " +:+ scope.

(** How the error names a scope: its class and its id. *)
Definition scopeOf (stackClass stackName : string) (g : list Decl) (d : Decl)
    : string :=
  match host d with
  | None => stackClass +:+ " [" +:+ stackName +:+ "]"
  | Some h =>
      match List.find (fun x => String.eqb (logicalId x) h) g with
      | Some {| kind := FargateCluster |} => "FargateCluster"
      | Some {| kind := ImportedCluster |} => "ImportedCluster"
      | _ => "Construct"
      end +:+ " [" +:+ h +:+ "]"
  end.

(** The declarations of a constructor, added one after the other: the
    first one whose name its scope already has throws. *)
Definition addChildren (stackClass stackName : string) (g : list Decl)
    : Outcome (list Decl) :=
  match firstRepeated [] g with
  | Some d =>
      Thrown (alreadyExists (childName d) (scopeOf stackClass stackName g d))
  | None => Returned g
  end.

(** The value of [createCertificate] at run time: the context string when
    that is what [||] selected, a boolean otherwise. *)
Inductive Flag :=
| FStr (s : string)
| FBool (b : bool).

Definition flag_truthy (f : option Flag) : bool :=
  match f with
  | Some (FStr s) => Js.nonempty s
  | Some (FBool b) => b
  | None => false
  end.

(** The environment of a stack: [props.env], and the number of
    availability zones the stack reports for it ([stack.availabilityZones]:
    the zones stored in the context for the account and the region, or the
    placeholders of the library when there are none). *)
Record StackEnv := {
  account : option string;
  region : option string;
  zones : nat
}.

(** The certificate held in [this.certificate]. *)
Inductive CertRef :=
| ImportedCert (arn : string)
| CreatedCert (id : string).

Definition certificateArnOf (c : CertRef) : Val :=
  match c with
  | ImportedCert arn => VStr arn
  | CreatedCert id => VAttr id "certificateArn"
  end.

(** What the external engine receives for one stack. *)
Record Stack := {
  stackId : string;
  stackEnv : StackEnv;
  stackDescription : option string;
  certificate : CertRef;
  constructs : list Decl
}.

(** The sources of non-determinism read while a stack is composed:
    [rand1] and [rand2] are the two strings
    [Math.random().toString(36).substring(2, 15)], [now] is [Date.now()]. *)
Record Entropy := {
  rand1 : string;
  rand2 : string;
  now : Z
}.

Definition thisRegion (e : StackEnv) : Val :=
  match region e with Some r => VStr r | None => VPseudo "AWS::Region" end.

Definition thisAccount (e : StackEnv) : Val :=
  match account e with Some a => VStr a | None => VPseudo "AWS::AccountId" end.

(** A template literal: a plain string when no part is a token. *)
Fixpoint plain (parts : list Val) : option string :=
  match parts with
  | [] => Some ""
  | VStr s :: r => (fun t => s +:+ t) <$> plain r
  | _ => None
  end.

Definition template (parts : list Val) : Val :=
  match plain parts with
  | Some s => VStr s
  | None => VCat parts
  end.

(** [JSON.stringify] of a flat object of strings without special
    characters. *)
Fixpoint jsonFields (l : list (string * string)) : string :=
  match l with
  | [] => ""
  | (k, v) :: r =>
      Js.dq +:+ k +:+ Js.dq +:+ ":" +:+ Js.dq +:+ v +:+ Js.dq
      +:+ match r with [] => "" | _ => "," end +:+ jsonFields r
  end.

Definition jsonStringify (l : list (string * string)) : string :=
  "{" +:+ jsonFields l +:+ "}".

(** The ConfigMap and the Secret that both stacks declare. *)
Definition configMap (cluster namespace adminUser : string) (e : Entropy)
    (awsRegion : Val) (domainName : string) (efsFileSystemId clusterName : Val)
    : Decl :=
  addManifest cluster "McpGatewayConfigMap" (VObj [
    ("apiVersion", VStr "v1");
    ("kind", VStr "ConfigMap");
    ("metadata", Manifests.metadata "mcp-gateway-config" namespace
                   [("managed-by", "cdk")]);
    ("data", VObj [
       ("ADMIN_USER", VStr adminUser);
       ("SECRET_KEY", VStr ("auto-generated-secret-key-cdk-" +:+ pretty (now e)));
       ("AWS_REGION", awsRegion);
       ("AUTH_SERVER_URL", VStr "http://auth-server:8888");
       ("REGISTRY_URL", VStr "http://registry:7860");
       ("MCPGW_SERVER_URL", VStr "http://mcpgw-server:8003");
       ("CURRENTTIME_SERVER_URL", VStr "http://currenttime-server:8000");
       ("FININFO_SERVER_URL", VStr "http://fininfo-server:8001");
       ("FAKETOOLS_SERVER_URL", VStr "http://faketools-server:8002");
       ("DOMAIN_NAME", VStr domainName);
       ("EFS_FILE_SYSTEM_ID", efsFileSystemId);
       ("CLUSTER_NAME", clusterName)])]).

Definition secret (cluster namespace adminPassword : string) : Decl :=
  addManifest cluster "McpGatewaySecret" (VObj [
    ("apiVersion", VStr "v1");
    ("kind", VStr "Secret");
    ("metadata", Manifests.metadata "mcp-gateway-secrets" namespace
                   [("managed-by", "cdk")]);
    ("type", VStr "Opaque");
    ("stringData", strs [("admin-password", adminPassword);
                         ("polygon-api-key", "");
                         ("github-client-id", "");
                         ("github-client-secret", "")])]).

Definition namespaceManifest (cluster id name : string)
    (labels : list (string * string)) : Decl :=
  addManifest cluster id (VObj [
    ("apiVersion", VStr "v1");
    ("kind", VStr "Namespace");
    ("metadata", VObj [("name", VStr name); ("labels", strs labels)])]).

(** The secret key handed to the auth and registry servers. *)
Definition secretKeyOf (e : Entropy) : string := rand1 e +:+ rand2 e.

(* ===================================================================== *)
(** ** lib/mcpgw-microservices-cdk-stack.ts *)
(* ===================================================================== *)

Module Microservices.

Record Props := {
  clusterName : option string;
  domainName : string;
  efsFileSystemId : string;
  certificateArn : option string;
  adminPassword : string;
  adminUser : option string;
  hostedZoneId : option string;
  createCertificate : option Flag;
  cognitoClientId : option string;
  cognitoClientSecret : option string;
  cognitoUserPoolId : option string;
  env : StackEnv;
  description : option string
}.

(** [setupCertificate]: the existing certificate when [certificateArn] is
    truthy, else a new one when [createCertificate] is truthy, else an
    error. *)
Definition setupCertificate (props : Props) : Outcome (CertRef * list Decl) :=
  match certificateArn props with
  | Some (String _ _ as arn) =>
      Returned (ImportedCert arn,
                [mkDecl ImportedCertificate "ExistingCertificate" None
                   (VObj [("certificateArn", VStr arn)])])
  | _ =>
      if flag_truthy (createCertificate props) then
        let zone :=
          match hostedZoneId props with
          | Some (String _ _ as z) =>
              [mkDecl ImportedHostedZone "HostedZone" None
                 (VObj [("hostedZoneId", VStr z)])]
          | _ => []
          end in
        let validation :=
          match zone with
          | [] => VObj [("method", VEnum "CertificateValidation.fromDns")]
          | _ => VObj [("method", VEnum "CertificateValidation.fromDns");
                       ("hostedZone", VRef "HostedZone")]
          end in
        Returned (CreatedCert "McpGatewayCertificate",
                  zone ++
                  [mkDecl Certificate "McpGatewayCertificate" None
                     (VObj [("domainName", VStr (domainName props));
                            ("validation", validation)]);
                   cfnOutput "NewCertificateArn"
                     (VAttr "McpGatewayCertificate" "certificateArn")
                     "ARN of the created SSL certificate"])
      else
        Thrown "Either certificateArn or createCertificate must be provided"
  end.

Definition deployMicroservicesArchitecture (props : Props)
    (environ : gmap string string) (e : Entropy) (cert : CertRef)
    : list Decl :=
  let clusterName := Js.or_lit (clusterName props) "mcp-gateway-registry" in
  let namespace := "mcp-registry" in
  let adminUser := Js.or_lit (adminUser props) "admin" in
  let cluster := "ExistingCluster" in
  let efs := VStr (efsFileSystemId props) in
  let awsRegion := thisRegion (env props) in
  let cognito (p : option string) (var : string) : Val :=
    VStr (Js.or_lit (Js.or p (environ !! var)) "") in
  let secretKey := secretKeyOf e in
  [mkDecl ImportedCluster cluster None (VObj [
     ("clusterName", VStr clusterName);
     ("kubectlRoleArn",
       template [VStr "arn:aws:iam::"; thisAccount (env props);
                 VStr (":role/" +:+ clusterName +:+ "-kubectl-role")])]);
   namespaceManifest cluster "McpRegistryNamespace" namespace
     [("name", namespace); ("managed-by", "cdk")]]
  ++ Manifests.EfsPvc cluster namespace efs
  ++ [configMap cluster namespace adminUser e awsRegion (domainName props)
        efs (VStr clusterName);
      secret cluster namespace (adminPassword props)]
  ++ Manifests.AuthServerDeployment {|
       Manifests.as_cluster := cluster;
       Manifests.as_namespace := namespace;
       Manifests.as_adminUser := adminUser;
       Manifests.as_adminPassword := adminPassword props;
       Manifests.as_secretKey := secretKey;
       Manifests.as_registryUrl := "http://registry:7860";
       Manifests.as_authServerExternalUrl := "https://" +:+ domainName props;
       Manifests.as_cognitoClientId :=
         cognito (cognitoClientId props) "COGNITO_CLIENT_ID";
       Manifests.as_cognitoClientSecret :=
         cognito (cognitoClientSecret props) "COGNITO_CLIENT_SECRET";
       Manifests.as_cognitoUserPoolId :=
         cognito (cognitoUserPoolId props) "COGNITO_USER_POOL_ID";
       Manifests.as_awsRegion := awsRegion |}
  ++ Manifests.RegistryDeployment {|
       Manifests.rg_cluster := cluster;
       Manifests.rg_namespace := namespace;
       Manifests.rg_adminUser := adminUser;
       Manifests.rg_adminPassword := adminPassword props;
       Manifests.rg_secretKey := secretKey;
       Manifests.rg_domainName := domainName props;
       Manifests.rg_authServerUrl := "http://auth-server:8888";
       Manifests.rg_authServerExternalUrl := "https://" +:+ domainName props;
       Manifests.rg_registryUrl := "http://registry:7860";
       Manifests.rg_efsFileSystemId := efs;
       Manifests.rg_cognitoClientId :=
         cognito (cognitoClientId props) "COGNITO_CLIENT_ID";
       Manifests.rg_cognitoClientSecret :=
         cognito (cognitoClientSecret props) "COGNITO_CLIENT_SECRET";
       Manifests.rg_cognitoUserPoolId :=
         cognito (cognitoUserPoolId props) "COGNITO_USER_POOL_ID";
       Manifests.rg_awsRegion := awsRegion |}
  ++ Manifests.CurrentTimeServerDeployment cluster namespace (Some efs)
  ++ Manifests.FinInfoServerDeployment cluster namespace (Some efs)
  ++ Manifests.FakeToolsServerDeployment cluster namespace (Some efs)
  ++ Manifests.McpGatewayServerDeployment cluster namespace (Some efs)
  ++ Manifests.AlbIngress cluster namespace (domainName props)
       (certificateArnOf cert).

(** The trimmed text of the [DeploymentInstructions] output (for a
    domain name that does not end in white space). *)
Definition deploymentInstructions (domainName : string) : string :=
"1. Verify EKS cluster access: kubectl get nodes
2. Check namespace: kubectl get ns mcp-registry
3. Monitor deployment: kubectl get pods -n mcp-registry -w
4. Check services: kubectl get svc -n mcp-registry
5. View ingress: kubectl get ingress -n mcp-registry
6. Access application: https://" +:+ domainName.

Definition createOutputs (props : Props) (cert : CertRef) : list Decl :=
  [cfnOutput "ClusterName"
     (VStr (Js.or_lit (clusterName props) "mcp-gateway-registry"))
     "EKS Cluster Name";
   cfnOutput "DomainName" (VStr (domainName props)) "Domain Name";
   cfnOutput "DomainUrl" (VStr ("https://" +:+ domainName props))
     "URL to access the MCP Gateway Registry";
   cfnOutput "EfsFileSystemId" (VStr (efsFileSystemId props))
     "EFS File System ID";
   cfnOutput "CertificateArn" (certificateArnOf cert) "SSL Certificate ARN";
   cfnOutput "Namespace" (VStr "mcp-registry")
     "Kubernetes namespace for MCP Gateway services";
   cfnOutput "Services"
     (VStr (jsonStringify [
        ("auth-server", "http://auth-server:8888");
        ("registry", "http://registry:7860");
        ("mcpgw-server", "http://mcpgw-server:8003");
        ("currenttime-server", "http://currenttime-server:8000");
        ("fininfo-server", "http://fininfo-server:8001");
        ("faketools-server", "http://faketools-server:8002")]))
     "Internal service URLs";
   cfnOutput "DeploymentInstructions"
     (VStr (deploymentInstructions (domainName props)))
     "Post-deployment verification steps"].

(** The constructor: certificate, then the microservices, then the
    outputs. *)
Definition McpgwMicroservicesCdkStack (id : string) (props : Props)
    (environ : gmap string string) (e : Entropy) : Outcome Stack :=
  '(cert, certDecls) ← setupCertificate props;
  added ← addChildren "McpgwMicroservicesCdkStack" id
             (certDecls
              ++ deployMicroservicesArchitecture props environ e cert
              ++ createOutputs props cert);
  Returned {|
    stackId := id;
    stackEnv := env props;
    stackDescription := description props;
    certificate := cert;
    constructs := added |}.

End Microservices.

(* ===================================================================== *)
(** ** lib/mcpgw-complete-infrastructure-stack.ts *)
(* ===================================================================== *)

Module Complete.

Inductive KubernetesVersion := V1_27 | V1_28.

Definition versionName (v : KubernetesVersion) : string :=
  match v with
  | V1_27 => "KubernetesVersion.V1_27"
  | V1_28 => "KubernetesVersion.V1_28"
  end.

(** [McpgwCompleteInfrastructureStackProps]. *)
Module Props.
Record t := {
  domainName : string;
  adminPassword : string;
  adminUser : option string;
  hostedZoneId : option string;
  certificateArn : option string;
  createCertificate : option Flag;
  vpcCidr : option string;
  maxAzs : option Js.number;
  clusterName : option string;
  kubernetesVersion : option KubernetesVersion;
  efsPerformanceMode : option string;
  efsThroughputMode : option string;
  cognitoUserPoolName : option string;
  cognitoCallbackUrls : option (list string);
  cognitoLogoutUrls : option (list string);
  deployApplications : option bool;
  env : StackEnv;
  description : option string
}.
End Props.
Import Props.

(** [props.deployApplications !== false]. *)
Definition deploysApplications (props : Props.t) : bool :=
  match deployApplications props with
  | Some false => false
  | _ => true
  end.

Definition templateDescription (props : Props.t) : string :=
  if deploysApplications props
  then "Complete MCP Gateway Registry Infrastructure (VPC + EKS + EFS + Certificate + Cognito + Application)"
  else "MCP Gateway Registry Infrastructure Only (VPC + EKS + EFS + Certificate + Cognito)".

(** [generateUniqueServiceAccountName]; [stackName] is the stack's id. *)
Definition generateUniqueServiceAccountName (stackName baseName : string)
    : string :=
  baseName +:+ "-" +:+ Js.toLowerCase stackName.

(** [props.maxAzs || 3]. *)
Definition maxAzsOrDefault (n : option Js.number) : Js.number :=
  match n with
  | Some m => if Js.number_truthy m then m else Js.Num 3
  | None => Js.Num 3
  end.

(** The availability zones the VPC spans:
    [stack.availabilityZones.slice(0, maxAzs)]. *)
Definition vpcZones (props : Props.t) : Z :=
  Js.sliceLength (Z.of_nat (zones (env props))) (maxAzsOrDefault (maxAzs props)).

(** The error of the construct library when the subnets of a VPC that has
    none are selected. *)
Definition noPublicSubnetGroups : string :=
  "There are no 'Public' subnet groups in this VPC. Available types: ".

Definition subnet (name type : string) : Val :=
  VObj [("cidrMask", VNum 24); ("name", VStr name);
        ("subnetType", VEnum type)].

(** [createVpc].  A VPC gets its subnets in the availability zones it
    spans; when it spans none (a negative [maxAzs] that leaves no zone) it
    has no subnet and the construct library throws. *)
Definition createVpc (props : Props.t) : Outcome (list Decl) :=
  if vpcZones props =? 0 then Thrown noPublicSubnetGroups
  else Returned
  [mkDecl Vpc "McpVpc" None (VObj [
     ("ipAddresses", VObj [("cidr", VStr (Js.or_lit (vpcCidr props) "10.0.0.0/16"))]);
     ("maxAzs", VDouble (maxAzsOrDefault (maxAzs props)));
     ("enableDnsHostnames", VBool true);
     ("enableDnsSupport", VBool true);
     ("subnetConfiguration", VArr [
        subnet "PublicSubnet" "SubnetType.PUBLIC";
        subnet "PrivateSubnet" "SubnetType.PRIVATE_WITH_EGRESS"]);
     ("natGateways", VNum 1)]);
   mkDecl FlowLog "McpVpcFlowLog" None (VObj [
     ("resourceType", VObj [("fromVpc", VRef "McpVpc")]);
     ("destination", VEnum "FlowLogDestination.toCloudWatchLogs")])].

Definition createEfsFileSystem (props : Props.t) : list Decl :=
  [mkDecl FileSystem "McpEfs" None (VObj [
     ("vpc", VRef "McpVpc");
     ("performanceMode",
       VEnum (Js.or_lit (efsPerformanceMode props) "PerformanceMode.GENERAL_PURPOSE"));
     ("throughputMode",
       VEnum (Js.or_lit (efsThroughputMode props) "ThroughputMode.BURSTING"));
     ("encrypted", VBool true);
     ("lifecyclePolicy", VEnum "LifecyclePolicy.AFTER_30_DAYS");
     ("removalPolicy", VEnum "RemovalPolicy.DESTROY")]);
   mkDecl AccessPoint "McpEfsAccessPoint" None (VObj [
     ("fileSystem", VRef "McpEfs");
     ("path", VStr "/mcp-gateway");
     ("createAcl", strs [("ownerUid", "1000"); ("ownerGid", "1000");
                         ("permissions", "755")]);
     ("posixUser", strs [("uid", "1000"); ("gid", "1000")])])].

(** [createEksCluster]; the last field records
    [this.efsFileSystem.connections.allowDefaultPortFrom(cluster)]. *)
Definition createEksCluster (props : Props.t) : list Decl :=
  [mkDecl KubectlV28Layer "KubectlLayer" None (VObj []);
   mkDecl FargateCluster "McpCluster" None (VObj [
     ("version", VEnum (versionName (default V1_28 (kubernetesVersion props))));
     ("clusterName", VStr (Js.or_lit (clusterName props) "mcp-gateway-registry"));
     ("vpc", VRef "McpVpc");
     ("kubectlLayer", VRef "KubectlLayer");
     ("endpointAccess", VEnum "EndpointAccess.PUBLIC_AND_PRIVATE");
     ("clusterLogging", VArr [
        VEnum "ClusterLoggingTypes.API";
        VEnum "ClusterLoggingTypes.AUDIT";
        VEnum "ClusterLoggingTypes.AUTHENTICATOR";
        VEnum "ClusterLoggingTypes.CONTROLLER_MANAGER";
        VEnum "ClusterLoggingTypes.SCHEDULER"]);
     ("defaultProfile", VObj [
        ("fargateProfileName", VStr "default-fargate-profile");
        ("selectors", VArr [strs [("namespace", "default")];
                            strs [("namespace", "kube-system")]]);
        ("subnetSelection",
          VObj [("subnetType", VEnum "SubnetType.PRIVATE_WITH_EGRESS")])]);
     ("allowDefaultPortFrom", VRef "McpEfs")])].

(** [createCertificate]: the existing certificate when [certificateArn]
    is truthy; otherwise a new one, validated through the hosted zone
    when [hostedZoneId] is truthy.  [props.createCertificate] is not
    read. *)
Definition createCertificate (props : Props.t) : CertRef * list Decl :=
  let newCertificate (validation : Val) :=
    mkDecl Certificate "McpGatewayCertificate" None (VObj [
      ("domainName", VStr (domainName props));
      ("subjectAlternativeNames", VArr [VStr ("*." +:+ domainName props)]);
      ("validation", validation);
      ("certificateName", VStr ("mcp-gateway-" +:+ domainName props))]) in
  match certificateArn props with
  | Some (String _ _ as arn) =>
      (ImportedCert arn,
       [mkDecl ImportedCertificate "ExistingCertificate" None
          (VObj [("certificateArn", VStr arn)])])
  | _ =>
      match hostedZoneId props with
      | Some (String _ _ as z) =>
          (CreatedCert "McpGatewayCertificate",
           [mkDecl ImportedHostedZone "HostedZone" None
              (VObj [("hostedZoneId", VStr z)]);
            newCertificate
              (VObj [("method", VEnum "CertificateValidation.fromDns");
                     ("hostedZone", VRef "HostedZone")])])
      | _ =>
          (CreatedCert "McpGatewayCertificate",
           [newCertificate
              (VObj [("method", VEnum "CertificateValidation.fromDns")]);
            cfnOutput "CertificateDnsValidationRecords"
              (VStr ("Check AWS Console ACM for DNS validation records for "
                     +:+ domainName props))
              "DNS validation records for SSL certificate"])
      end
  end.

Definition createCognitoUserPool (props : Props.t) : list Decl :=
  let userPool := VRef "McpUserPool" in
  let userPoolId := VAttr "McpUserPool" "userPoolId" in
  [mkDecl UserPool "McpUserPool" None (VObj [
     ("userPoolName",
       VStr (Js.or_lit (cognitoUserPoolName props)
               ("mcp-gateway-users-" +:+ Js.interp (clusterName props))));
     ("selfSignUpEnabled", VBool true);
     ("signInAliases", VObj [("email", VBool true); ("username", VBool true)]);
     ("autoVerify", VObj [("email", VBool true)]);
     ("passwordPolicy", VObj [
        ("minLength", VNum 8);
        ("requireLowercase", VBool true);
        ("requireUppercase", VBool true);
        ("requireDigits", VBool true);
        ("requireSymbols", VBool true)]);
     ("accountRecovery", VEnum "AccountRecovery.EMAIL_ONLY");
     ("removalPolicy", VEnum "RemovalPolicy.DESTROY")]);
   mkDecl UserPoolClient "McpUserPoolClient" None (VObj [
     ("userPool", userPool);
     ("userPoolClientName", VStr "mcp-gateway-client");
     ("generateSecret", VBool true);
     ("authFlows", VObj [("userPassword", VBool true);
                         ("userSrp", VBool true);
                         ("adminUserPassword", VBool true)]);
     ("oAuth", VObj [
        ("flows", VObj [("authorizationCodeGrant", VBool true)]);
        ("scopes", VArr [
           VEnum "OAuthScope.EMAIL";
           VEnum "OAuthScope.OPENID";
           VEnum "OAuthScope.PROFILE";
           VObj [("custom", VStr "aws.cognito.signin.user.admin")]]);
        ("callbackUrls", VArr (VStr <$>
           default ["http://localhost:9090/callback";
                    "http://localhost/oauth2/callback/cognito";
                    "http://localhost:8888/oauth2/callback/cognito";
                    "https://" +:+ domainName props +:+ "/oauth2/callback/cognito"]
                   (cognitoCallbackUrls props)));
        ("logoutUrls", VArr (VStr <$>
           default ["https://" +:+ domainName props +:+ "/auth/logout";
                    "https://" +:+ domainName props +:+ "/logout"]
                   (cognitoLogoutUrls props)))])]);
   mkDecl CfnUserPoolGroup "McpAdminGroup" None (VObj [
     ("userPoolId", userPoolId);
     ("groupName", VStr "mcp-registry-admin");
     ("description", VStr "Admin group for MCP Registry users")]);
   mkDecl CfnUserPoolGroup "McpUserGroup" None (VObj [
     ("userPoolId", userPoolId);
     ("groupName", VStr "mcp-registry-user");
     ("description", VStr "Regular user group for MCP Registry")]);
   mkDecl UserPoolResourceServer "McpResourceServer" None (VObj [
     ("userPool", userPool);
     ("identifier", VStr "mcp-servers-unrestricted");
     ("userPoolResourceServerName", VStr "MCP Servers Unrestricted");
     ("scopes", VArr [
        strs [("scopeName", "read");
              ("scopeDescription", "Read access to all MCP servers")];
        strs [("scopeName", "execute");
              ("scopeDescription", "Execute access to all MCP servers")]])]);
   mkDecl UserPoolClient "McpM2MClient" None (VObj [
     ("userPool", userPool);
     ("userPoolClientName", VStr "mcp-agent-client");
     ("generateSecret", VBool true);
     ("authFlows", VObj [("userSrp", VBool false);
                         ("userPassword", VBool false);
                         ("adminUserPassword", VBool false);
                         ("custom", VBool false)]);
     ("oAuth", VObj [
        ("flows", VObj [("authorizationCodeGrant", VBool false);
                        ("implicitCodeGrant", VBool false);
                        ("clientCredentials", VBool true)]);
        ("scopes", VArr [
           VObj [("resourceServer", VRef "McpResourceServer");
                 ("scope", VStr "read")];
           VObj [("resourceServer", VRef "McpResourceServer");
                 ("scope", VStr "execute")]])]);
     ("supportedIdentityProviders",
       VArr [VEnum "UserPoolClientIdentityProvider.COGNITO"])]);
   mkDecl UserPoolDomain "McpUserPoolDomain" None (VObj [
     ("userPool", userPool);
     ("cognitoDomain", VObj [
        ("domainPrefix",
          VStr ("mcp-gateway-" +:+ Js.interp (clusterName props)))])]);
   mkDecl CfnUserPoolUser "McpAdminUser" None (VObj [
     ("userPoolId", userPoolId);
     ("username", VStr "admin");
     ("messageAction", VStr "SUPPRESS");
     ("userAttributes", VArr [
        strs [("name", "email"); ("value", "admin@" +:+ domainName props)];
        strs [("name", "email_verified"); ("value", "true")]])]);
   mkDecl CfnUserPoolUserToGroupAttachment "AdminUserGroupAttachment" None
     (VObj [("userPoolId", userPoolId);
            ("username", VStr "admin");
            ("groupName", VStr "mcp-registry-admin")])].

Definition clusterNameAttr : Val := VAttr "McpCluster" "clusterName".
Definition fileSystemId : Val := VAttr "McpEfs" "fileSystemId".

(** [cluster.addServiceAccount(id, ...)], with the policies attached to
    its role afterwards. *)
Definition addServiceAccount (id name namespace : string)
    (policies : list (string * Val)) : Decl :=
  mkDecl ServiceAccount id (Some "McpCluster")
    (VObj ([("name", VStr name); ("namespace", VStr namespace)] ++ policies)).

Definition managedPolicy (name : string) : list (string * Val) :=
  [("managedPolicies", VArr [VStr name])].

Definition addHelmChart (id : string) (options : list (string * Val)) : Decl :=
  mkDecl HelmChart id (Some "McpCluster") (VObj options).

Definition existingServiceAccount (name : Val) : Val :=
  VObj [("create", VBool false); ("name", name)].

Definition installManagedAddons : list Decl :=
  [mkDecl CfnAddon "CoreDnsAddon" None (VObj [
     ("clusterName", clusterNameAttr);
     ("addonName", VStr "coredns");
     ("addonVersion", VStr "v1.10.1-eksbuild.4");
     ("resolveConflicts", VStr "OVERWRITE")]);
   mkDecl CfnAddon "PodIdentityAddon" None (VObj [
     ("clusterName", clusterNameAttr);
     ("addonName", VStr "eks-pod-identity-agent");
     ("resolveConflicts", VStr "OVERWRITE")])].

Definition installMetricsServer : list Decl :=
  [addHelmChart "MetricsServer" [
     ("chart", VStr "metrics-server");
     ("repository", VStr "https://kubernetes-sigs.github.io/metrics-server/");
     ("namespace", VStr "kube-system");
     ("release", VStr "metrics-server");
     ("version", VStr "3.12.1")]].

Definition installExternalDns (stackName : string) : list Decl :=
  let uniqueServiceAccountName :=
    generateUniqueServiceAccountName stackName "external-dns" in
  [addServiceAccount "ExternalDns" uniqueServiceAccountName "kube-system"
     [("policyStatements", VArr [VObj [
         ("effect", VEnum "Effect.ALLOW");
         ("actions", VArr [VStr "route53:ChangeResourceRecordSets";
                           VStr "route53:ListHostedZones";
                           VStr "route53:ListResourceRecordSets"]);
         ("resources", VArr [VStr "*"])]])];
   addHelmChart "ExternalDns" [
     ("chart", VStr "external-dns");
     ("repository", VStr "https://kubernetes-sigs.github.io/external-dns/");
     ("namespace", VStr "kube-system");
     ("release", VStr "external-dns");
     ("version", VStr "1.14.3");
     ("values", VObj [
        ("provider", VStr "aws");
        ("serviceAccount",
          existingServiceAccount (VStr uniqueServiceAccountName))])]].

Definition installCoreEksAddons (stackName : string) : list Decl :=
  installManagedAddons ++ installMetricsServer ++ installExternalDns stackName.

Definition installAwsLoadBalancerController (stackName : string) : list Decl :=
  let uniqueServiceAccountName :=
    generateUniqueServiceAccountName stackName "aws-load-balancer-controller" in
  [addServiceAccount "AWSLoadBalancerController" uniqueServiceAccountName
     "kube-system" (managedPolicy "ElasticLoadBalancingFullAccess");
   addHelmChart "AWSLoadBalancerController" [
     ("chart", VStr "aws-load-balancer-controller");
     ("repository", VStr "https://aws.github.io/eks-charts");
     ("namespace", VStr "kube-system");
     ("release", VStr "aws-load-balancer-controller");
     ("values", VObj [
        ("clusterName", clusterNameAttr);
        ("serviceAccount",
          existingServiceAccount (VStr uniqueServiceAccountName))])]].

Definition installEfsCsiDriver (stackName : string) : list Decl :=
  let serviceAccountName :=
    VStr (generateUniqueServiceAccountName stackName "efs-csi-controller-sa") in
  [addServiceAccount "EfsCsiController"
     (generateUniqueServiceAccountName stackName "efs-csi-controller-sa")
     "kube-system" (managedPolicy "AmazonElasticFileSystemClientFullAccess");
   addHelmChart "AwsEfsCsiDriver" [
     ("chart", VStr "aws-efs-csi-driver");
     ("repository", VStr "https://kubernetes-sigs.github.io/aws-efs-csi-driver/");
     ("namespace", VStr "kube-system");
     ("release", VStr "aws-efs-csi-driver");
     ("values", VObj [
        ("controller",
          VObj [("serviceAccount", existingServiceAccount serviceAccountName)]);
        ("node",
          VObj [("serviceAccount", existingServiceAccount serviceAccountName)])])];
   addManifest "McpCluster" "EfsStorageClass" (VObj [
     ("apiVersion", VStr "storage.k8s.io/v1");
     ("kind", VStr "StorageClass");
     ("metadata", VObj [("name", VStr "efs-sc")]);
     ("provisioner", VStr "efs.csi.aws.com");
     ("parameters", VObj [("provisioningMode", VStr "efs-ap");
                          ("fileSystemId", fileSystemId);
                          ("directoryPerms", VStr "755")]);
     ("reclaimPolicy", VStr "Retain");
     ("volumeBindingMode", VStr "Immediate")]);
   addManifest "McpCluster" "EfsPersistentVolume" (VObj [
     ("apiVersion", VStr "v1");
     ("kind", VStr "PersistentVolume");
     ("metadata", VObj [("name", VStr "efs-pv")]);
     ("spec", VObj [
        ("capacity", strs [("storage", "5Gi")]);
        ("volumeMode", VStr "Filesystem");
        ("accessModes", VArr [VStr "ReadWriteMany"]);
        ("persistentVolumeReclaimPolicy", VStr "Retain");
        ("storageClassName", VStr "efs-sc");
        ("csi", VObj [
           ("driver", VStr "efs.csi.aws.com");
           ("volumeHandle", fileSystemId);
           ("volumeAttributes", strs [("path", "/mcp-gateway")])])])])].

Definition createRequiredNamespaces : list Decl :=
  [namespaceManifest "McpCluster" "CloudWatchNamespace" "amazon-cloudwatch"
     [("name", "amazon-cloudwatch")];
   namespaceManifest "McpCluster" "ApplicationNamespace"
     "kubeflow-user-example-com" [("name", "kubeflow-user-example-com")]].

Definition addFargateProfile (id namespace profileName : string) : Decl :=
  mkDecl FargateProfile id (Some "McpCluster") (VObj [
    ("selectors", VArr [strs [("namespace", namespace)]]);
    ("fargateProfileName", VStr profileName);
    ("subnetSelection",
      VObj [("subnetType", VEnum "SubnetType.PRIVATE_WITH_EGRESS")])]).

Definition addApplicationFargateProfiles : list Decl :=
  [addFargateProfile "MonitoringProfile" "amazon-cloudwatch" "monitoring-profile";
   addFargateProfile "ApplicationProfile" "kubeflow-user-example-com"
     "application-profile"].

Definition enableContainerInsights (stackName : string) (region : Val)
    : list Decl :=
  [addServiceAccount "CloudWatchAgent"
     (generateUniqueServiceAccountName stackName "cloudwatch-agent")
     "amazon-cloudwatch" (managedPolicy "CloudWatchAgentServerPolicy");
   addServiceAccount "FluentBit"
     (generateUniqueServiceAccountName stackName "fluent-bit")
     "amazon-cloudwatch" (managedPolicy "CloudWatchLogsFullAccess");
   addManifest "McpCluster" "FluentBitDeployment" (VObj [
     ("apiVersion", VStr "apps/v1");
     ("kind", VStr "Deployment");
     ("metadata", Manifests.metadata "fluent-bit" "amazon-cloudwatch"
                    [("app", "fluent-bit")]);
     ("spec", VObj [
        ("replicas", VNum 1);
        ("selector", VObj [("matchLabels", strs [("app", "fluent-bit")])]);
        ("template", VObj [
           ("metadata", VObj [("labels", strs [("app", "fluent-bit")])]);
           ("spec", VObj [
              ("serviceAccountName",
                VStr (generateUniqueServiceAccountName stackName "fluent-bit"));
              ("containers", VArr [VObj [
                 ("name", VStr "fluent-bit");
                 ("image",
                   VStr "public.ecr.aws/aws-observability/aws-for-fluent-bit:stable");
                 ("resources",
                   Manifests.resourcesOf "100m" "100Mi" "200m" "200Mi");
                 ("env", VArr [Manifests.envVar "AWS_REGION" region;
                               Manifests.envVar "CLUSTER_NAME" clusterNameAttr])]])])])])])].

Definition deployMcpGatewayMicroservices (props : Props.t) (e : Entropy)
    (cert : CertRef) : list Decl :=
  let namespace := "mcp-registry" in
  let cluster := "McpCluster" in
  let adminUser := Js.or_lit (adminUser props) "admin" in
  let awsRegion := thisRegion (env props) in
  let secretKey := secretKeyOf e in
  let cognitoClientId := VAttr "McpUserPoolClient" "userPoolClientId" in
  let cognitoClientSecret := VAttr "McpUserPoolClient" "userPoolClientSecret" in
  let cognitoUserPoolId := VAttr "McpUserPool" "userPoolId" in
  [namespaceManifest cluster "McpRegistryNamespace" namespace
     [("name", namespace); ("managed-by", "cdk")];
   mkDecl Role "McpClusterFargateProfile" None (VObj [
     ("assumedBy", VStr "eks-fargate-pods.amazonaws.com");
     ("managedPolicies", VArr [
        VStr "AmazonEKSFargatePodExecutionRolePolicy";
        VStr "AmazonElasticFileSystemClientFullAccess"])]);
   mkDecl FargateProfile "McpRegistryFargateProfile" None (VObj [
     ("cluster", VRef cluster);
     ("selectors", VArr [strs [("namespace", namespace)]]);
     ("podExecutionRole", VRef "McpClusterFargateProfile")])]
  ++ Manifests.EfsPvc cluster namespace fileSystemId
  ++ [configMap cluster namespace adminUser e awsRegion (domainName props)
        fileSystemId clusterNameAttr;
      secret cluster namespace (adminPassword props)]
  ++ Manifests.AuthServerDeployment {|
       Manifests.as_cluster := cluster;
       Manifests.as_namespace := namespace;
       Manifests.as_adminUser := adminUser;
       Manifests.as_adminPassword := adminPassword props;
       Manifests.as_secretKey := secretKey;
       Manifests.as_registryUrl := "http://registry:7860";
       Manifests.as_authServerExternalUrl := "https://" +:+ domainName props;
       Manifests.as_cognitoClientId := cognitoClientId;
       Manifests.as_cognitoClientSecret := cognitoClientSecret;
       Manifests.as_cognitoUserPoolId := cognitoUserPoolId;
       Manifests.as_awsRegion := awsRegion |}
  ++ Manifests.RegistryDeployment {|
       Manifests.rg_cluster := cluster;
       Manifests.rg_namespace := namespace;
       Manifests.rg_adminUser := adminUser;
       Manifests.rg_adminPassword := adminPassword props;
       Manifests.rg_secretKey := secretKey;
       Manifests.rg_domainName := domainName props;
       Manifests.rg_authServerUrl := "http://auth-server:8888";
       Manifests.rg_registryUrl := "http://registry:7860";
       Manifests.rg_efsFileSystemId := fileSystemId;
       Manifests.rg_authServerExternalUrl := "https://" +:+ domainName props;
       Manifests.rg_cognitoClientId := cognitoClientId;
       Manifests.rg_cognitoClientSecret := cognitoClientSecret;
       Manifests.rg_cognitoUserPoolId := cognitoUserPoolId;
       Manifests.rg_awsRegion := awsRegion |}
  ++ Manifests.CurrentTimeServerDeployment cluster namespace (Some fileSystemId)
  ++ Manifests.FinInfoServerDeployment cluster namespace (Some fileSystemId)
  ++ Manifests.FakeToolsServerDeployment cluster namespace (Some fileSystemId)
  ++ Manifests.McpGatewayServerDeployment cluster namespace (Some fileSystemId)
  ++ Manifests.AlbIngress cluster namespace (domainName props)
       (certificateArnOf cert).

Definition createOutputs (props : Props.t) (cert : CertRef) : list Decl :=
  [cfnOutput "VpcId" (VAttr "McpVpc" "vpcId") "VPC ID";
   cfnOutput "ClusterName" clusterNameAttr "EKS Cluster Name";
   cfnOutput "ClusterEndpoint" (VAttr "McpCluster" "clusterEndpoint")
     "EKS Cluster Endpoint";
   cfnOutput "EfsFileSystemId" fileSystemId "EFS File System ID";
   cfnOutput "CertificateArn" (certificateArnOf cert) "SSL Certificate ARN";
   cfnOutput "UserPoolId" (VAttr "McpUserPool" "userPoolId")
     "Cognito User Pool ID";
   cfnOutput "UserPoolClientId" (VAttr "McpUserPoolClient" "userPoolClientId")
     "Cognito User Pool Client ID (for user authentication)";
   cfnOutput "M2MClientId" (VAttr "McpM2MClient" "userPoolClientId")
     "Cognito M2M Client ID (for agent authentication)";
   cfnOutput "CognitoDomain"
     (template [VStr "https://"; VAttr "McpUserPoolDomain" "domainName";
                VStr ".auth."; thisRegion (env props);
                VStr ".amazoncognito.com"])
     "Cognito Hosted UI Domain";
   cfnOutput "ResourceServerIdentifier"
     (VAttr "McpResourceServer" "userPoolResourceServerId")
     "Cognito Resource Server Identifier";
   cfnOutput "DomainName" (VStr (domainName props)) "Domain Name"].

(** The declarations made after the VPC and before the
    [deployApplications] gate. *)
Definition infrastructure (id : string) (props : Props.t) : CertRef * list Decl :=
  let '(cert, certDecls) := createCertificate props in
  (cert,
   createEfsFileSystem props
   ++ createEksCluster props
   ++ certDecls
   ++ createCognitoUserPool props
   ++ installCoreEksAddons id
   ++ installAwsLoadBalancerController id
   ++ installEfsCsiDriver id).

(** The declarations made inside the [deployApplications] gate. *)
Definition applications (id : string) (props : Props.t) (e : Entropy)
    (cert : CertRef) : list Decl :=
  createRequiredNamespaces
  ++ addApplicationFargateProfiles
  ++ enableContainerInsights id (thisRegion (env props))
  ++ deployMcpGatewayMicroservices props e cert.

(** The constructor: the VPC, the rest of the infrastructure, the
    applications when they are asked for, the outputs.  It throws where
    the first of its steps throws. *)
Definition McpgwCompleteInfrastructureStack (id : string) (props : Props.t)
    (e : Entropy) : Outcome Stack :=
  vpc ← createVpc props;
  let '(cert, infra) := infrastructure id props in
  added ← addChildren "McpgwCompleteInfrastructureStack" id
             (vpc
              ++ infra
              ++ (if deploysApplications props then applications id props e cert
                  else [])
              ++ createOutputs props cert);
  Returned {|
    stackId := id;
    stackEnv := env props;
    stackDescription := Some (templateDescription props);
    certificate := cert;
    constructs := added |}.

End Complete.

(* ===================================================================== *)
(** ** bin: the entry point *)
(* ===================================================================== *)

Module Bin.

(** What the app reads: the CDK context and the process environment
    (after [dotenv.config()]), and the number of availability zones that
    the stack reports ([availabilityZones]). *)
Record RawInputs := {
  context : gmap string string;
  environ : gmap string string;
  availabilityZones : nat
}.

Definition tryGetContext (inp : RawInputs) (key : string) : Js.jsstring :=
  context inp !! key.

Definition processEnv (inp : RawInputs) (key : string) : Js.jsstring :=
  environ inp !! key.

(** [tryGetContext(key) || process.env.VAR]. *)
Definition fromContextOrEnv (inp : RawInputs) (key var : string) : Js.jsstring :=
  Js.or (tryGetContext inp key) (processEnv inp var).

Definition deploymentMode (inp : RawInputs) : string :=
  Js.or_lit (fromContextOrEnv inp "deploymentMode" "DEPLOYMENT_MODE") "complete".

Definition clusterName (inp : RawInputs) : string :=
  Js.or_lit (fromContextOrEnv inp "clusterName" "CLUSTER_NAME")
    "mcp-gateway-registry".

Definition domainName (inp : RawInputs) : Js.jsstring :=
  fromContextOrEnv inp "domainName" "DOMAIN_NAME".

Definition efsFileSystemId (inp : RawInputs) : Js.jsstring :=
  fromContextOrEnv inp "efsFileSystemId" "EFS_FILE_SYSTEM_ID".

Definition certificateArn (inp : RawInputs) : Js.jsstring :=
  fromContextOrEnv inp "certificateArn" "CERTIFICATE_ARN".

Definition adminPassword (inp : RawInputs) : Js.jsstring :=
  fromContextOrEnv inp "adminPassword" "ADMIN_PASSWORD".

Definition hostedZoneId (inp : RawInputs) : Js.jsstring :=
  fromContextOrEnv inp "hostedZoneId" "HOSTED_ZONE_ID".

(** [tryGetContext('createCertificate') ||
     process.env.CREATE_CERTIFICATE === 'true']. *)
Definition createCertificate (inp : RawInputs) : Flag :=
  match tryGetContext inp "createCertificate" with
  | Some (String _ _ as s) => FStr s
  | _ => FBool (bool_decide (processEnv inp "CREATE_CERTIFICATE" = Some "true"))
  end.

(** [createCertificate || !certificateArn], as passed to every stack. *)
Definition createCertificateProp (inp : RawInputs) : Flag :=
  if flag_truthy (Some (createCertificate inp)) then createCertificate inp
  else FBool (negb (Js.truthy (certificateArn inp))).

Definition vpcCidr (inp : RawInputs) : string :=
  Js.or_lit (fromContextOrEnv inp "vpcCidr" "VPC_CIDR") "10.0.0.0/16".

Definition maxAzsText (inp : RawInputs) : string :=
  Js.or_lit (fromContextOrEnv inp "maxAzs" "MAX_AZS") "3".

Definition maxAzs (inp : RawInputs) : Js.number :=
  Js.parseInt (maxAzsText inp).

Definition kubernetesVersion (inp : RawInputs) : string :=
  Js.or_lit (fromContextOrEnv inp "kubernetesVersion" "KUBERNETES_VERSION") "1.28".

Definition stackEnvOf (inp : RawInputs) : StackEnv :=
  {| account := processEnv inp "CDK_DEFAULT_ACCOUNT";
     region := Some (Js.or_lit (processEnv inp "CDK_DEFAULT_REGION") "us-east-1");
     zones := availabilityZones inp |}.

(** The props shared by the [complete] and [infrastructure-only]
    branches; they differ in [deployApplications] and [description]. *)
Definition completeProps (inp : RawInputs) (domainName adminPassword : string)
    (deployApplications : option bool) (description : string)
    : Complete.Props.t :=
  {| Complete.Props.domainName := domainName;
     Complete.Props.adminPassword := adminPassword;
     Complete.Props.adminUser := None;
     Complete.Props.hostedZoneId := hostedZoneId inp;
     Complete.Props.certificateArn := certificateArn inp;
     Complete.Props.createCertificate := Some (createCertificateProp inp);
     Complete.Props.vpcCidr := Some (vpcCidr inp);
     Complete.Props.maxAzs := Some (maxAzs inp);
     Complete.Props.clusterName := Some (clusterName inp);
     Complete.Props.kubernetesVersion :=
       Some (if String.eqb (kubernetesVersion inp) "1.28" then Complete.V1_28
             else if String.eqb (kubernetesVersion inp) "1.27" then Complete.V1_27
             else Complete.V1_28);
     Complete.Props.efsPerformanceMode := Some "PerformanceMode.GENERAL_PURPOSE";
     Complete.Props.efsThroughputMode := Some "ThroughputMode.BURSTING";
     Complete.Props.cognitoUserPoolName :=
       Some ("mcp-gateway-users-" +:+ clusterName inp);
     Complete.Props.cognitoCallbackUrls :=
       Some ["http://localhost:9090/callback";
             "http://localhost/oauth2/callback/cognito";
             "http://localhost:8888/oauth2/callback/cognito";
             "https://" +:+ domainName +:+ "/oauth2/callback/cognito"];
     Complete.Props.cognitoLogoutUrls :=
       Some ["https://" +:+ domainName +:+ "/auth/logout";
             "https://" +:+ domainName +:+ "/logout"];
     Complete.Props.deployApplications := deployApplications;
     Complete.Props.env := stackEnvOf inp;
     Complete.Props.description := Some description |}.

Definition microservicesProps (inp : RawInputs)
    (domainName adminPassword efsFileSystemId : string) : Microservices.Props :=
  {| Microservices.clusterName := Some (clusterName inp);
     Microservices.domainName := domainName;
     Microservices.efsFileSystemId := efsFileSystemId;
     Microservices.certificateArn := certificateArn inp;
     Microservices.adminPassword := adminPassword;
     Microservices.adminUser := None;
     Microservices.hostedZoneId := hostedZoneId inp;
     Microservices.createCertificate := Some (createCertificateProp inp);
     Microservices.cognitoClientId := None;
     Microservices.cognitoClientSecret := None;
     Microservices.cognitoUserPoolId := None;
     Microservices.env := stackEnvOf inp;
     Microservices.description :=
       Some "MCP Gateway Registry Microservices (Application Only - requires existing infrastructure)" |}.

Definition completeDescription : string :=
  "Complete MCP Gateway Registry Infrastructure (VPC + EKS + EFS + Certificate + Cognito + Application)".

Definition infrastructureOnlyDescription : string :=
  "MCP Gateway Registry Infrastructure Only (VPC + EKS + EFS + Certificate + Cognito)".

Definition domainNameRequired : string :=
  "domainName is required. Set via context or DOMAIN_NAME environment variable.".

Definition adminPasswordRequired : string :=
  "adminPassword is required. Set via context or ADMIN_PASSWORD environment variable.".

Definition efsFileSystemIdRequired : string :=
  "efsFileSystemId is required for application-only mode. Set via context or EFS_FILE_SYSTEM_ID environment variable.".

Definition invalidDeploymentMode (mode : string) : string :=
  "Invalid deployment mode: " +:+ mode
  +:+ ". Use 'complete', 'infrastructure-only', or 'application-only'.".

(** The script: read the parameters, validate [domainName] and
    [adminPassword], then branch on [deploymentMode]. *)
Definition main (inp : RawInputs) (e : Entropy) : Outcome Stack :=
  match domainName inp with
  | Some (String _ _ as domainName) =>
      match adminPassword inp with
      | Some (String _ _ as adminPassword) =>
          if String.eqb (deploymentMode inp) "complete" then
            Complete.McpgwCompleteInfrastructureStack
              "McpgwCompleteInfrastructureStack"
              (completeProps inp domainName adminPassword None
                 completeDescription)
              e
          else if String.eqb (deploymentMode inp) "infrastructure-only" then
            Complete.McpgwCompleteInfrastructureStack
              "McpgwInfrastructureStackFresh"
              (completeProps inp domainName adminPassword (Some false)
                 infrastructureOnlyDescription)
              e
          else if String.eqb (deploymentMode inp) "application-only" then
            match efsFileSystemId inp with
            | Some (String _ _ as efsFileSystemId) =>
                Microservices.McpgwMicroservicesCdkStack
                  "McpgwMicroservicesCdkStack"
                  (microservicesProps inp domainName adminPassword efsFileSystemId)
                  (environ inp) e
            | _ => Thrown efsFileSystemIdRequired
            end
          else Thrown (invalidDeploymentMode (deploymentMode inp))
      | _ => Thrown adminPasswordRequired
      end
  | _ => Thrown domainNameRequired
  end.

End Bin.

(* ===================================================================== *)
(** ** deploy.sh *)
(* ===================================================================== *)

Module DeployScript.

(** How the script, or one of its functions, ends: the shell exits with a
    status, or control goes on; [Unfinished] is a loop cut short by the
    bound on its iterations. *)
Inductive Run (A : Type) :=
| Exit (status : Z)
| Goes (a : A)
| Unfinished.
Arguments Exit {A} status.
Arguments Goes {A} a.
Arguments Unfinished {A}.

(** The positional parameters and the variables set by the argument
    loop. *)
Record Shell := {
  parameters : list string;
  COMMAND : string;
  AWS_PROFILE : string;
  CDK_PROFILE_ARG : string
}.

Definition start (argv : list string) : Shell :=
  {| parameters := argv; COMMAND := ""; AWS_PROFILE := "";
     CDK_PROFILE_ARG := "" |}.

(** [[ -z "$s" ]]. *)
Definition isEmpty (s : string) : bool :=
  match s with EmptyString => true | String _ _ => false end.

(** [$1] is [positional 0]; an unset parameter expands to nothing. *)
Definition positional (n : nat) (sh : Shell) : string :=
  default "" (parameters sh !! n).

(** [shift n]: fails, and changes nothing, when there are fewer than [n]
    parameters. *)
Definition shift (n : nat) (sh : Shell) : option Shell :=
  if (n <=? List.length (parameters sh))%nat
  then Some {| parameters := drop n (parameters sh);
               COMMAND := COMMAND sh;
               AWS_PROFILE := AWS_PROFILE sh;
               CDK_PROFILE_ARG := CDK_PROFILE_ARG sh |}
  else None.

Definition commandWords : list string :=
  ["synth"; "deploy"; "destroy"; "diff"; "status"; "monitor"; "logs"; "help"].

(** The body of the [while] loop: the [case] on [$1].  The script runs
    under [set -e], so a [shift] that fails ends it with status 1. *)
Definition parseArgument (sh : Shell) : Run Shell :=
  let word := positional 0 sh in
  let shifted :=
    if String.eqb word "--profile" then
      shift 2 {| parameters := parameters sh;
                 COMMAND := COMMAND sh;
                 AWS_PROFILE := positional 1 sh;
                 CDK_PROFILE_ARG := "--profile " +:+ positional 1 sh |}
    else if bool_decide (word ∈ commandWords) then
      shift 1 {| parameters := parameters sh;
                 COMMAND := word;
                 AWS_PROFILE := AWS_PROFILE sh;
                 CDK_PROFILE_ARG := CDK_PROFILE_ARG sh |}
    else
      shift 1 {| parameters := parameters sh;
                 COMMAND := if isEmpty (COMMAND sh) then word else COMMAND sh;
                 AWS_PROFILE := AWS_PROFILE sh;
                 CDK_PROFILE_ARG := CDK_PROFILE_ARG sh |} in
  match shifted with
  | Some sh' => Goes sh'
  | None => Exit 1
  end.

(** [while [[ $# -gt 0 ]]; do ... done], at most [fuel] times round. *)
Fixpoint parseArguments (fuel : nat) (sh : Shell) : Run Shell :=
  match parameters sh with
  | [] => Goes sh
  | _ :: _ =>
      match fuel with
      | O => Unfinished
      | S fuel' =>
          match parseArgument sh with
          | Goes sh' => parseArguments fuel' sh'
          | Exit n => Exit n
          | Unfinished => Unfinished
          end
      end
  end.

(** The functions [main] calls; what they print is left out. *)
Inductive Step :=
| check_prerequisites
| load_config_step
| validate_config_step
| install_dependencies
| synth_stack
| deploy_stack
| destroy_stack
| show_diff
| check_status
| monitor_deployment
| show_logs (args : list string)
| usage.

(** [main]: [command] is [${1:-help}]; the result is the sequence of
    functions called when none of them exits. *)
Definition main (args : list string) : list Step :=
  let command :=
    match args with
    | a :: _ => if isEmpty a then "help" else a
    | [] => "help"
    end in
  if String.eqb command "synth" then
    [check_prerequisites; load_config_step; validate_config_step;
     install_dependencies; synth_stack]
  else if String.eqb command "deploy" then
    [check_prerequisites; load_config_step; validate_config_step;
     install_dependencies; synth_stack; deploy_stack]
  else if String.eqb command "destroy" then
    [check_prerequisites; destroy_stack]
  else if String.eqb command "diff" then
    [check_prerequisites; load_config_step; validate_config_step;
     install_dependencies; show_diff]
  else if String.eqb command "status" then [check_status]
  else if String.eqb command "monitor" then [monitor_deployment]
  else if String.eqb command "logs" then [show_logs args]
  else [usage].

(** The script from top to bottom: the argument loop, the default of
    [COMMAND], then [main "$@"] on the parameters as the loop left
    them. *)
Definition script (fuel : nat) (argv : list string) : Run (Shell * list Step) :=
  match parseArguments fuel (start argv) with
  | Goes sh =>
      let sh' :=
        {| parameters := parameters sh;
           COMMAND := if isEmpty (COMMAND sh) then "help" else COMMAND sh;
           AWS_PROFILE := AWS_PROFILE sh;
           CDK_PROFILE_ARG := CDK_PROFILE_ARG sh |} in
      Goes (sh', main (parameters sh'))
  | Exit n => Exit n
  | Unfinished => Unfinished
  end.

(** ["$NAME"]: nothing when the variable is unset. *)
Definition variable (env : gmap string string) (name : string) : string :=
  default "" (env !! name).

(** [${DEPLOYMENT_MODE:-complete}]. *)
Definition mode (env : gmap string string) : string :=
  if isEmpty (variable env "DEPLOYMENT_MODE") then "complete"
  else variable env "DEPLOYMENT_MODE".

(** [load_config], on the variables as they are once [.env] has been
    exported. *)
Definition load_config (env : gmap string string) : Run unit :=
  if String.eqb (mode env) "complete" then Goes ()
  else if String.eqb (mode env) "application-only" then Goes ()
  else Exit 1.

(** Command substitution drops the trailing newlines of the output. *)
Fixpoint chomp (s : string) : string :=
  match s with
  | EmptyString => EmptyString
  | String a r =>
      if (Js.code a =? 10)%N && isEmpty (chomp r) then EmptyString
      else String a (chomp r)
  end.

(** [$(cat cdk.context.json 2>/dev/null | jq -r '.key // empty')] for a
    context file of string entries: nothing when the file or the entry is
    missing. *)
Definition contextEntry (file : gmap string string) (key : string) : string :=
  chomp (default "" (file !! key)).

Definition isMissing (env file : gmap string string) (name key : string) : bool :=
  isEmpty (variable env name) && isEmpty (contextEntry file key).

(** The array [missing_vars] of [validate_config]. *)
Definition missing_vars (env file : gmap string string) : list string :=
  (if isMissing env file "DOMAIN_NAME" "domainName" then ["DOMAIN_NAME"] else [])
  ++ (if isMissing env file "ADMIN_PASSWORD" "adminPassword"
      then ["ADMIN_PASSWORD"] else [])
  ++ (if String.eqb (mode env) "application-only"
         && isMissing env file "EFS_FILE_SYSTEM_ID" "efsFileSystemId"
      then ["EFS_FILE_SYSTEM_ID (required for application-only mode)"] else []).

(** [validate_config]: exits when a variable is missing; the notes about
    the certificate that follow only print. *)
Definition validate_config (env file : gmap string string) : Run unit :=
  match missing_vars env file with
  | [] => Goes ()
  | _ :: _ => Exit 1
  end.

(** What [check_status], [monitor_deployment] and [show_logs] ask the
    cluster for. *)
Definition inspectedNamespace : string := "kubeflow-user-example-com".
Definition inspectedIngress : string := "registry-ingress".
Definition inspectedDeployment : string := "registry".

End DeployScript.

(** The declarations of a run; none when it threw. *)
Definition declarations (o : Outcome Stack) : list Decl :=
  match o with
  | Returned s => constructs s
  | Thrown _ => []
  end.

(* ===================================================================== *)
(** ** Notions used to state the properties *)
(* ===================================================================== *)

(** *** Parameters and their sources *)

Inductive Param :=
| PDeploymentMode | PClusterName | PDomainName | PEfsFileSystemId
| PCertificateArn | PAdminPassword | PHostedZoneId | PCreateCertificate
| PVpcCidr | PMaxAzs | PKubernetesVersion.

Definition contextKey (p : Param) : string :=
  match p with
  | PDeploymentMode => "deploymentMode"
  | PClusterName => "clusterName"
  | PDomainName => "domainName"
  | PEfsFileSystemId => "efsFileSystemId"
  | PCertificateArn => "certificateArn"
  | PAdminPassword => "adminPassword"
  | PHostedZoneId => "hostedZoneId"
  | PCreateCertificate => "createCertificate"
  | PVpcCidr => "vpcCidr"
  | PMaxAzs => "maxAzs"
  | PKubernetesVersion => "kubernetesVersion"
  end.

Definition envName (p : Param) : string :=
  match p with
  | PDeploymentMode => "DEPLOYMENT_MODE"
  | PClusterName => "CLUSTER_NAME"
  | PDomainName => "DOMAIN_NAME"
  | PEfsFileSystemId => "EFS_FILE_SYSTEM_ID"
  | PCertificateArn => "CERTIFICATE_ARN"
  | PAdminPassword => "ADMIN_PASSWORD"
  | PHostedZoneId => "HOSTED_ZONE_ID"
  | PCreateCertificate => "CREATE_CERTIFICATE"
  | PVpcCidr => "VPC_CIDR"
  | PMaxAzs => "MAX_AZS"
  | PKubernetesVersion => "KUBERNETES_VERSION"
  end.

Definition declaredDefault (p : Param) : option string :=
  match p with
  | PDeploymentMode => Some "complete"
  | PClusterName => Some "mcp-gateway-registry"
  | PVpcCidr => Some "10.0.0.0/16"
  | PMaxAzs => Some "3"
  | PKubernetesVersion => Some "1.28"
  | _ => None
  end.

(** A resolved value: a string, a number, a boolean, or nothing. *)
Inductive Resolved :=
| RNone
| RStr (s : string)
| RNum (n : Js.number)
| RBool (b : bool).

(** A string-or-undefined value, the empty string counting as nothing. *)
Definition ofJs (v : Js.jsstring) : Resolved :=
  match v with
  | Some (String _ _ as s) => RStr s
  | _ => RNone
  end.

(** What the entry point holds for each parameter after the merge. *)
Definition resolved (inp : Bin.RawInputs) (p : Param) : Resolved :=
  match p with
  | PDeploymentMode => RStr (Bin.deploymentMode inp)
  | PClusterName => RStr (Bin.clusterName inp)
  | PDomainName => ofJs (Bin.domainName inp)
  | PEfsFileSystemId => ofJs (Bin.efsFileSystemId inp)
  | PCertificateArn => ofJs (Bin.certificateArn inp)
  | PAdminPassword => ofJs (Bin.adminPassword inp)
  | PHostedZoneId => ofJs (Bin.hostedZoneId inp)
  | PCreateCertificate =>
      match Bin.createCertificate inp with
      | FStr s => RStr s
      | FBool b => RBool b
      end
  | PVpcCidr => RStr (Bin.vpcCidr inp)
  | PMaxAzs => RNum (Bin.maxAzs inp)
  | PKubernetesVersion => RStr (Bin.kubernetesVersion inp)
  end.

(** The merge rule in the words of the specification: the context value
    when non-empty, otherwise the environment value when non-empty,
    otherwise the declared default. *)
Definition firstNonEmpty (ctx envv dflt : option string) : option string :=
  match ctx with
  | Some (String _ _ as c) => Some c
  | _ =>
      match envv with
      | Some (String _ _ as v) => Some v
      | _ => dflt
      end
  end.

Definition merged (inp : Bin.RawInputs) (p : Param) : option string :=
  firstNonEmpty (Bin.context inp !! contextKey p)
                (Bin.environ inp !! envName p)
                (declaredDefault p).

(** The specified value of a parameter: the merged string, read as an
    integer for the numeric parameter. *)
Definition specified (inp : Bin.RawInputs) (p : Param) : Resolved :=
  match p with
  | PMaxAzs =>
      match merged inp p with
      | Some s => RNum (Js.parseInt s)
      | None => RNone
      end
  | _ => ofJs (merged inp p)
  end.

(** *** Modes and accepted inputs *)

Definition validMode (m : string) : bool :=
  String.eqb m "complete" || String.eqb m "infrastructure-only"
  || String.eqb m "application-only".

(** The inputs that pass every check of the entry point. *)
Definition accepted (inp : Bin.RawInputs) : bool :=
  Js.truthy (Bin.domainName inp)
  && Js.truthy (Bin.adminPassword inp)
  && (String.eqb (Bin.deploymentMode inp) "complete"
      || String.eqb (Bin.deploymentMode inp) "infrastructure-only"
      || String.eqb (Bin.deploymentMode inp) "application-only"
         && Js.truthy (Bin.efsFileSystemId inp)).


(** *** Storage claims *)

Definition path (keys : list string) (v : Val) : option Val :=
  foldl (fun o k => o ≫= field k) (Some v) keys.

Definition stringOf (v : option Val) : option string :=
  match v with Some (VStr s) => Some s | _ => None end.

Definition isManifest (d : Decl) : bool :=
  bool_decide (kind d = KubernetesManifest).

(** The claim names a workload manifest mounts:
    [spec.template.spec.volumes[*].persistentVolumeClaim.claimName]. *)
Definition claimNames (d : Decl) : list string :=
  if isManifest d then
    omap (fun volume =>
            stringOf (path ["persistentVolumeClaim"; "claimName"] volume))
         (items (path ["spec"; "template"; "spec"; "volumes"] (props d)))
  else [].

(** The name a manifest declares when it is a PersistentVolumeClaim. *)
Definition pvcName (d : Decl) : option string :=
  if isManifest d then
    match stringOf (field "kind" (props d)) with
    | Some "PersistentVolumeClaim" => stringOf (path ["metadata"; "name"] (props d))
    | _ => None
    end
  else None.

Definition pvcNames (g : list Decl) : list string := omap pvcName g.

(** The claim references of [g] that no PersistentVolumeClaim of [g]
    declares, with the manifest that makes each. *)
Definition danglingClaims (g : list Decl) : list (string * string) :=
  List.filter (fun rc => negb (bool_decide (rc.2 ∈ pvcNames g)))
    (flat_map (fun d => (fun c => (logicalId d, c)) <$> claimNames d) g).

Definition claimsResolved (g : list Decl) : Prop :=
  ∀ d c, d ∈ g → c ∈ claimNames d → c ∈ pvcNames g.

(** *** Declarations up to the generated secrets *)

Definition namedSecretKey (fs : list (string * Val)) : bool :=
  match field_in "name" fs with
  | Some (VStr n) => String.eqb n "SECRET_KEY"
  | _ => false
  end.

Definition redact (v : Val) : Val :=
  match v with VStr _ => VStr "<SECRET_KEY>" | _ => v end.

(** [scrub v] is [v] with the string value of every [SECRET_KEY] entry
    (a field of that name, or the [value] of an environment variable of
    that name) replaced by a fixed text. *)
Fixpoint scrub (v : Val) : Val :=
  match v with
  | VCat l =>
      VCat ((fix go (l : list Val) : list Val :=
               match l with [] => [] | x :: r => scrub x :: go r end) l)
  | VArr l =>
      VArr ((fix go (l : list Val) : list Val :=
               match l with [] => [] | x :: r => scrub x :: go r end) l)
  | VObj fs =>
      let var := namedSecretKey fs in
      VObj ((fix go (l : list (string * Val)) : list (string * Val) :=
               match l with
               | [] => []
               | (k, x) :: r =>
                   (k, if String.eqb k "SECRET_KEY" || var && String.eqb k "value"
                       then redact x else scrub x) :: go r
               end) fs)
  | _ => v
  end.

Definition scrubDecl (d : Decl) : Decl :=
  mkDecl (kind d) (logicalId d) (host d) (scrub (props d)).

Definition scrubStack (s : Stack) : Stack :=
  {| stackId := stackId s;
     stackEnv := stackEnv s;
     stackDescription := stackDescription s;
     certificate := certificate s;
     constructs := scrubDecl <$> constructs s |}.

Definition scrubOutcome (o : Outcome Stack) : Outcome Stack :=
  match o with
  | Thrown m => Thrown m
  | Returned s => Returned (scrubStack s)
  end.

Definition skeletons (o : Outcome Stack) : list (Kind * string * list string) :=
  skeleton <$> declarations o.

(** The [SECRET_KEY] entry of the ConfigMap of a graph. *)
Definition configMapSecretKey (g : list Decl) : option string :=
  List.find (fun d => String.eqb (logicalId d) "McpGatewayConfigMap") g
  ≫= fun d => stringOf (path ["data"; "SECRET_KEY"] (props d)).

(** *** Dependency order *)

(** Every declaration of the sequence depends only on declarations that
    come before it. *)
Fixpoint orderedAfter (seen : list string)
    (l : list (Kind * string * list string)) : bool :=
  match l with
  | [] => true
  | (_, id, ds) :: r =>
      forallb (fun x => bool_decide (x ∈ seen)) ds && orderedAfter (id :: seen) r
  end.

Definition topologicallyOrdered (l : list (Kind * string * list string)) : Prop :=
  orderedAfter [] l = true.

(** *** Certificates *)

(** No declaration of the sequence creates a certificate. *)
Definition noNewCertificate (g : list Decl) : bool :=
  forallb (fun d => negb (bool_decide (kind d = Certificate))) g.

(** [d] declares a new certificate for [domain]. *)
Definition newCertificateFor (domain : string) (d : Decl) : Prop :=
  kind d = Certificate
  ∧ logicalId d = "McpGatewayCertificate"
  ∧ field "domainName" (props d) = Some (VStr domain).

Definition importedCertificate (arn : string) : Decl :=
  mkDecl ImportedCertificate "ExistingCertificate" None
    (VObj [("certificateArn", VStr arn)]).

(** *** The network *)

(** [d] declares the VPC with [n] availability zones at most. *)
Definition vpcWithMaxAzs (n : Z) (d : Decl) : Prop :=
  kind d = Vpc ∧ logicalId d = "McpVpc"
  ∧ field "maxAzs" (props d) = Some (VDouble (Js.Num n)).

(** The same input with the [maxAzs] context entry set to [text]. *)
Definition withMaxAzs (text : string) (inp : Bin.RawInputs) : Bin.RawInputs :=
  {| Bin.context := <["maxAzs" := text]> (Bin.context inp);
     Bin.environ := Bin.environ inp;
     Bin.availabilityZones := Bin.availabilityZones inp |}.

(** The two claim references of the auth and registry servers. *)
Definition efsClaimReferences : list (string * string) :=
  [("AuthServerDeployment", "efs-claim"); ("RegistryDeployment", "efs-claim")].

(** *** Sample inputs *)

Module Samples.

Definition entropyA : Entropy :=
  {| rand1 := "k3j9x0q2m1a"; rand2 := "p7w4z8c5v6b"; now := 1700000000000 |}.

Definition entropyB : Entropy :=
  {| rand1 := "k3j9x0q2m1a"; rand2 := "p7w4z8c5v6b"; now := 1700000000001 |}.

(** Inputs with no account set: the stack reports the two placeholder
    zones of the library. *)
Definition inputs (ctx envv : list (string * string)) : Bin.RawInputs :=
  {| Bin.context := list_to_map ctx; Bin.environ := list_to_map envv;
     Bin.availabilityZones := 2 |}.

(** Nothing supplied at all. *)
Definition nothing : Bin.RawInputs := inputs [] [].

(** The two required parameters, every other one left to its default. *)
Definition complete : Bin.RawInputs :=
  inputs [("domainName", "x.example.com"); ("adminPassword", "p")] [].

Definition infrastructureOnly : Bin.RawInputs :=
  inputs [("deploymentMode", "infrastructure-only");
          ("domainName", "x.example.com"); ("adminPassword", "p")] [].

Definition applicationOnly : Bin.RawInputs :=
  inputs [("deploymentMode", "application-only");
          ("domainName", "x.example.com"); ("adminPassword", "p");
          ("efsFileSystemId", "fs-0123456789abcdef0")] [].

(** The scenario of the specification: the storage id given empty. *)
Definition emptyStorage : Bin.RawInputs :=
  inputs [("deploymentMode", "application-only");
          ("domainName", "x.example.com"); ("adminPassword", "p");
          ("efsFileSystemId", "")] [].

(** A domain name and no password. *)
Definition domainOnly : Bin.RawInputs :=
  inputs [("domainName", "x.example.com")] [].

(** Application-only with neither a storage id nor a domain name. *)
Definition noStorageNoDomain : Bin.RawInputs :=
  inputs [("deploymentMode", "application-only"); ("adminPassword", "p")] [].

(** An unknown mode and nothing else. *)
Definition unknownModeOnly : Bin.RawInputs :=
  inputs [("deploymentMode", "staging")] [].

Definition unknownMode : Bin.RawInputs :=
  inputs [("deploymentMode", "staging");
          ("domainName", "x.example.com"); ("adminPassword", "p")] [].

Definition badMaxAzs : Bin.RawInputs :=
  inputs [("deploymentMode", "infrastructure-only");
          ("domainName", "x.example.com"); ("adminPassword", "p");
          ("maxAzs", "abc")] [].

(** More zones taken away than there are. *)
Definition negativeMaxAzs : Bin.RawInputs :=
  inputs [("deploymentMode", "infrastructure-only");
          ("domainName", "x.example.com"); ("adminPassword", "p");
          ("maxAzs", "-5")] [].

Definition createCertificateYes : Bin.RawInputs :=
  inputs [("domainName", "x.example.com"); ("adminPassword", "p")]
         [("CREATE_CERTIFICATE", "yes")].

Definition existingArn : string :=
  "arn:aws:acm:us-east-1:123456789012:certificate/test".

Definition withCertificate : Bin.RawInputs :=
  inputs [("deploymentMode", "application-only");
          ("domainName", "x.example.com"); ("adminPassword", "p");
          ("efsFileSystemId", "fs-0123456789abcdef0");
          ("certificateArn", existingArn); ("createCertificate", "true")] [].

End Samples.

(* ===================================================================== *)
(** ** Manifests and their cross references *)
(* ===================================================================== *)

Definition numOf (v : option Val) : option Z :=
  match v with Some (VNum n) => Some n | _ => None end.

(** The string-valued fields of an object. *)
Definition stringFields (v : option Val) : list (string * string) :=
  match v with
  | Some (VObj fs) =>
      omap (fun kv => match kv.2 with VStr s => Some (kv.1, s) | _ => None end) fs
  | _ => []
  end.

Definition fieldNames (v : option Val) : list string :=
  match v with Some (VObj fs) => fs.*1 | _ => [] end.

Definition manifestKind (d : Decl) : option string :=
  if isManifest d then stringOf (field "kind" (props d)) else None.

Definition manifestName (d : Decl) : option string :=
  stringOf (path ["metadata"; "name"] (props d)).

Definition manifestNamespace (d : Decl) : option string :=
  stringOf (path ["metadata"; "namespace"] (props d)).

Definition manifests (g : list Decl) : list Decl := List.filter isManifest g.

Definition manifestsOf (k : string) (g : list Decl) : list Decl :=
  List.filter (fun d => bool_decide (manifestKind d = Some k)) g.

(** [(port, targetPort)] of each port of a Service. *)
Definition servicePorts (d : Decl) : list (Z * Z) :=
  omap (fun p => match numOf (field "port" p), numOf (field "targetPort" p) with
                 | Some a, Some b => Some (a, b)
                 | _, _ => None
                 end)
       (items (path ["spec"; "ports"] (props d))).

Definition serviceSelector (d : Decl) : list (string * string) :=
  stringFields (path ["spec"; "selector"] (props d)).

Definition podLabels (d : Decl) : list (string * string) :=
  stringFields (path ["spec"; "template"; "metadata"; "labels"] (props d)).

Definition containers (d : Decl) : list Val :=
  items (path ["spec"; "template"; "spec"; "containers"] (props d)).

Definition containerPorts (d : Decl) : list Z :=
  flat_map (fun c => omap (fun p => numOf (field "containerPort" p))
                          (items (field "ports" c)))
           (containers d).

(** [(service name, port number)] of every backend of an Ingress. *)
Definition ingressBackends (d : Decl) : list (string * Z) :=
  flat_map
    (fun rule =>
       omap (fun p =>
               match stringOf (path ["backend"; "service"; "name"] p),
                     numOf (path ["backend"; "service"; "port"; "number"] p) with
               | Some n, Some k => Some (n, k)
               | _, _ => None
               end)
            (items (path ["http"; "paths"] rule)))
    (items (path ["spec"; "rules"] (props d))).

(** A backend resolves when a Service of the Ingress's namespace has its
    name and exposes its port. *)
Definition backendResolved (g : list Decl) (ing : Decl) (b : string * Z) : bool :=
  existsb (fun s => bool_decide (manifestNamespace s = manifestNamespace ing)
                    && bool_decide (manifestName s = Some b.1)
                    && bool_decide (b.2 ∈ (servicePorts s).*1))
          (manifestsOf "Service" g).

Definition ingressResolved (g : list Decl) : bool :=
  forallb (fun ing => forallb (backendResolved g ing) (ingressBackends ing))
          (manifestsOf "Ingress" g).

(** A Service is backed when a Deployment of its namespace carries every
    label of its selector on its pods and opens every target port. *)
Definition serviceBacked (g : list Decl) (s : Decl) : bool :=
  existsb (fun dep =>
             bool_decide (manifestNamespace dep = manifestNamespace s)
             && negb (bool_decide (serviceSelector s = []))
             && forallb (fun kv => bool_decide (kv ∈ podLabels dep)) (serviceSelector s)
             && forallb (fun pt => bool_decide (pt.2 ∈ containerPorts dep))
                        (servicePorts s))
          (manifestsOf "Deployment" g).

Definition servicesBacked (g : list Decl) : bool :=
  forallb (serviceBacked g) (manifestsOf "Service" g).

(** The [(kind, name)] an autoscaler scales. *)
Definition scaleTarget (d : Decl) : option string * option string :=
  (stringOf (path ["spec"; "scaleTargetRef"; "kind"] (props d)),
   stringOf (path ["spec"; "scaleTargetRef"; "name"] (props d))).

Definition autoscalerResolved (g : list Decl) (h : Decl) : bool :=
  existsb (fun d => bool_decide (manifestNamespace d = manifestNamespace h)
                    && bool_decide (is_Some (manifestKind d))
                    && bool_decide (manifestKind d = (scaleTarget h).1)
                    && bool_decide (manifestName d = (scaleTarget h).2))
          (manifests g).

Definition autoscalersResolved (g : list Decl) : bool :=
  forallb (autoscalerResolved g) (manifestsOf "HorizontalPodAutoscaler" g).

(** The [(source, object name, key)] of every environment variable of a
    workload that is read from a ConfigMap or a Secret. *)
Definition envReferences (d : Decl) : list (string * string * string) :=
  flat_map
    (fun c =>
       flat_map
         (fun v =>
            omap (fun source =>
                    match stringOf (path ["valueFrom"; source; "name"] v),
                          stringOf (path ["valueFrom"; source; "key"] v) with
                    | Some n, Some k => Some (source, n, k)
                    | _, _ => None
                    end)
                 ["configMapKeyRef"; "secretKeyRef"])
         (items (field "env" c)))
    (containers d).

(** The keys a ConfigMap or a Secret manifest defines. *)
Definition definedKeys (d : Decl) : list string :=
  fieldNames (field "data" (props d)) ++ fieldNames (field "stringData" (props d)).

Definition envReferenceResolved (g : list Decl) (w : Decl)
    (r : string * string * string) : bool :=
  let kindWanted :=
    if String.eqb r.1.1 "configMapKeyRef" then "ConfigMap" else "Secret" in
  existsb (fun m => bool_decide (manifestNamespace m = manifestNamespace w)
                    && bool_decide (manifestName m = Some r.1.2)
                    && bool_decide (r.2 ∈ definedKeys m))
          (manifestsOf kindWanted g).

Definition envReferencesResolved (g : list Decl) : bool :=
  forallb (fun w => forallb (envReferenceResolved g w) (envReferences w))
          (manifestsOf "Deployment" g).

Definition allEnvReferences (g : list Decl) : list (string * string * string) :=
  flat_map envReferences (manifestsOf "Deployment" g).

(** Every namespaced manifest comes after the Namespace manifest of its
    namespace; [seen] are the namespaces declared so far. *)
Fixpoint namespacesPrecede (seen : list string) (g : list Decl) : bool :=
  match g with
  | [] => true
  | d :: r =>
      (if isManifest d then
         match manifestNamespace d with
         | Some n => bool_decide (n ∈ seen)
         | None => true
         end
       else true)
      && namespacesPrecede
           (if bool_decide (manifestKind d = Some "Namespace")
            then option_list (manifestName d) ++ seen else seen) r
  end.

Definition namespacesUsed (g : list Decl) : list string :=
  remove_dups (omap manifestNamespace (manifests g)).

(** No manifest has a dependency edge to another manifest. *)
Definition noManifestEdges (g : list Decl) : bool :=
  forallb (fun d => forallb (fun t => negb (bool_decide (t ∈ logicalId <$> manifests g)))
                            (deps d))
          (manifests g).

(** The storage class a volume or a claim names. *)
Definition storageClassName (d : Decl) : option string :=
  stringOf (path ["spec"; "storageClassName"] (props d)).

Definition storageClassesResolved (g : list Decl) : bool :=
  forallb (fun d => match storageClassName d with
                    | Some c => bool_decide (c ∈ omap manifestName (manifestsOf "StorageClass" g))
                    | None => true
                    end)
          (manifests g).

Definition storageClassReferences (g : list Decl) : list string :=
  omap storageClassName (manifests g).

(** What a manifest is known by: its id on the cluster, and its kind, name
    and namespace in Kubernetes. *)
Definition census (g : list Decl)
    : list (string * option string * option string * option string) :=
  (fun d => (logicalId d, manifestKind d, manifestName d, manifestNamespace d))
    <$> manifests g.

Definition identities (g : list Decl) : list (Kind * string) :=
  (fun d => (kind d, logicalId d)) <$> g.

(** No two declarations of one class share an id. *)
Definition uniquelyNamed (g : list Decl) : bool :=
  bool_decide (NoDup (identities g)).

(** *** Workloads *)

Definition matchLabels (d : Decl) : list (string * string) :=
  stringFields (path ["spec"; "selector"; "matchLabels"] (props d)).

(** The selector of every Deployment is not empty and selects its own
    pods. *)
Definition selectorsMatchPods (g : list Decl) : bool :=
  forallb (fun d => negb (bool_decide (matchLabels d = []))
                    && forallb (fun kv => bool_decide (kv ∈ podLabels d))
                               (matchLabels d))
          (manifestsOf "Deployment" g).

Definition portsOf (c : Val) : list Z :=
  omap (fun p => numOf (field "containerPort" p)) (items (field "ports" c)).

Definition probePorts (c : Val) : list Z :=
  omap (fun k => numOf (path [k; "httpGet"; "port"] c))
       ["readinessProbe"; "startupProbe"; "livenessProbe"].

(** Every probe of every container asks a port the container opens. *)
Definition probesResolved (g : list Decl) : bool :=
  forallb (fun d => forallb (fun c => forallb (fun p => bool_decide (p ∈ portsOf c))
                                              (probePorts c))
                            (containers d))
          (manifestsOf "Deployment" g).

Definition allProbePorts (g : list Decl) : list Z :=
  flat_map (fun d => flat_map probePorts (containers d))
           (manifestsOf "Deployment" g).

Definition volumeNames (d : Decl) : list string :=
  omap (fun v => stringOf (field "name" v))
       (items (path ["spec"; "template"; "spec"; "volumes"] (props d))).

Definition mountNames (c : Val) : list string :=
  omap (fun m => stringOf (field "name" m)) (items (field "volumeMounts" c)).

(** Every volume a container mounts is a volume of its pod. *)
Definition mountsResolved (g : list Decl) : bool :=
  forallb (fun d => forallb (fun c => forallb (fun m => bool_decide (m ∈ volumeNames d))
                                              (mountNames c))
                            (containers d))
          (manifestsOf "Deployment" g).

(** The literal value of an environment variable of a container. *)
Definition envValue (name : string) (c : Val) : option string :=
  head (omap (fun v => if bool_decide (stringOf (field "name" v) = Some name)
                       then stringOf (field "value" v) else None)
             (items (field "env" c))).

(** A container that is given [PORT] opens the port it reads. *)
Definition portVariableAgrees (c : Val) : bool :=
  match envValue "PORT" c with
  | Some t =>
      match Js.parseInt t with
      | Js.Num n => bool_decide (portsOf c = [n])
      | _ => false
      end
  | None => true
  end.

Definition portVariablesAgree (g : list Decl) : bool :=
  forallb (fun d => forallb portVariableAgrees (containers d))
          (manifestsOf "Deployment" g).

Definition portVariables (g : list Decl) : list string :=
  flat_map (fun d => omap (envValue "PORT") (containers d))
           (manifestsOf "Deployment" g).

(** *** Addresses handed to the workloads *)

Definition serviceUrls (g : list Decl) : list string :=
  flat_map (fun s => match manifestName s with
                     | Some n => (fun pt => "http://" +:+ n +:+ ":" +:+ pretty pt.1)
                                   <$> servicePorts s
                     | None => []
                     end)
           (manifestsOf "Service" g).

Definition endsWith (suffix s : string) : bool :=
  String.eqb suffix
    (String.substring (String.length s - String.length suffix)
       (String.length suffix) s).

(** The addresses a ConfigMap holds: the values of its [..._URL] keys. *)
Definition configuredUrls (g : list Decl) : list string :=
  flat_map (fun m => omap (fun kv => if endsWith "_URL" kv.1 then Some kv.2 else None)
                          (stringFields (field "data" (props m))))
           (manifestsOf "ConfigMap" g).

Definition urlsResolved (g : list Decl) : bool :=
  forallb (fun u => bool_decide (u ∈ serviceUrls g)) (configuredUrls g).

(** *** Service accounts *)

Definition ofKind (k : Kind) (g : list Decl) : list Decl :=
  List.filter (fun d => bool_decide (kind d = k)) g.






Definition upper (a : ascii) : bool :=
  let c := Js.code a in ((65 <=? c) && (c <=? 90))%N.

Fixpoint noUpperCase (s : string) : bool :=
  match s with
  | EmptyString => true
  | String a r => negb (upper a) && noUpperCase r
  end.

(** *** Fargate *)

Definition selectedNamespaces (selectors : option Val) : list string :=
  omap (fun s => stringOf (field "namespace" s)) (items selectors).

(** The namespaces whose pods the cluster runs: those selected by its
    default profile and by the profiles added to it. *)
Definition fargateNamespaces (g : list Decl) : list string :=
  flat_map (fun d => selectedNamespaces (path ["defaultProfile"; "selectors"] (props d)))
           (ofKind FargateCluster g)
  ++ flat_map (fun d => selectedNamespaces (field "selectors" (props d)))
              (ofKind FargateProfile g).

(** The namespaces pods are asked for in: those of the Deployments and of
    the charts. *)
Definition workloadNamespaces (g : list Decl) : list string :=
  remove_dups
    (omap manifestNamespace (manifestsOf "Deployment" g)
     ++ omap (fun d => stringOf (field "namespace" (props d))) (ofKind HelmChart g)).

Definition workloadsScheduled (g : list Decl) : bool :=
  forallb (fun n => bool_decide (n ∈ fargateNamespaces g)) (workloadNamespaces g).

(** *** Secrets *)

(** The keys of Secrets that some workload reads. *)
Definition secretKeysRead (g : list Decl) : list string :=
  omap (fun r => if String.eqb r.1.1 "secretKeyRef" then Some r.2 else None)
       (allEnvReferences g).

(** The Deployments whose first container is handed the variable [name] as
    a literal, with that literal. *)
Definition literalValues (name : string) (g : list Decl) : list (string * string) :=
  omap (fun d => (fun v => (logicalId d, v))
                   <$> head (omap (envValue name) (containers d)))
       (manifestsOf "Deployment" g).

(** *** The cluster *)

Definition clusterVersion (g : list Decl) : list Val :=
  omap (fun d => field "version" (props d)) (ofKind FargateCluster g).

Definition vpcMaxAzs (g : list Decl) : list Val :=
  omap (fun d => field "maxAzs" (props d)) (ofKind Vpc g).

(** *** Identities *)

(** The [(class, id, host)] that more than one declaration has. *)
Definition repeated (g : list Decl) : list (Kind * string * option string) :=
  let l := (fun d => (kind d, logicalId d, host d)) <$> g in
  remove_dups
    (List.filter
       (fun i => (1 <? List.length (List.filter (fun j => bool_decide (j = i)) l))%nat)
       l).

(** A sample input of each mode. *)
Definition sampleOf (mode : string) : Bin.RawInputs :=
  if String.eqb mode "application-only" then Samples.applicationOnly
  else if String.eqb mode "infrastructure-only" then Samples.infrastructureOnly
  else Samples.complete.

(** *** Variations of an input *)

(** The same input with the [createCertificate] context entry replaced by
    [c] and the [CREATE_CERTIFICATE] variable by [v] ([None]: unset). *)
Definition withCreateCertificate (c v : option string) (inp : Bin.RawInputs)
    : Bin.RawInputs :=
  {| Bin.context := partial_alter (fun _ => c) "createCertificate" (Bin.context inp);
     Bin.environ := partial_alter (fun _ => v) "CREATE_CERTIFICATE" (Bin.environ inp);
     Bin.availabilityZones := Bin.availabilityZones inp |}.

(** The same props with every setting for which the stack has a default
    of its own left out. *)
Definition withStackDefaults (p : Complete.Props.t) : Complete.Props.t :=
  {| Complete.Props.domainName := Complete.Props.domainName p;
     Complete.Props.adminPassword := Complete.Props.adminPassword p;
     Complete.Props.adminUser := Complete.Props.adminUser p;
     Complete.Props.hostedZoneId := Complete.Props.hostedZoneId p;
     Complete.Props.certificateArn := Complete.Props.certificateArn p;
     Complete.Props.createCertificate := None;
     Complete.Props.vpcCidr := Complete.Props.vpcCidr p;
     Complete.Props.maxAzs := Complete.Props.maxAzs p;
     Complete.Props.clusterName := Complete.Props.clusterName p;
     Complete.Props.kubernetesVersion := Complete.Props.kubernetesVersion p;
     Complete.Props.efsPerformanceMode := None;
     Complete.Props.efsThroughputMode := None;
     Complete.Props.cognitoUserPoolName := None;
     Complete.Props.cognitoCallbackUrls := None;
     Complete.Props.cognitoLogoutUrls := None;
     Complete.Props.deployApplications := Complete.Props.deployApplications p;
     Complete.Props.env := Complete.Props.env p;
     Complete.Props.description := Complete.Props.description p |}.

Definition certificateRequired : string :=
  "Either certificateArn or createCertificate must be provided".

(** The props of the application-only branch with [createCertificate]
    given as [true]. *)
Definition microservicesPropsCreating (inp : Bin.RawInputs)
    (domainName adminPassword efsFileSystemId : string) : Microservices.Props :=
  {| Microservices.clusterName := Some (Bin.clusterName inp);
     Microservices.domainName := domainName;
     Microservices.efsFileSystemId := efsFileSystemId;
     Microservices.certificateArn := Bin.certificateArn inp;
     Microservices.adminPassword := adminPassword;
     Microservices.adminUser := None;
     Microservices.hostedZoneId := Bin.hostedZoneId inp;
     Microservices.createCertificate := Some (FBool true);
     Microservices.cognitoClientId := None;
     Microservices.cognitoClientSecret := None;
     Microservices.cognitoUserPoolId := None;
     Microservices.env := Bin.stackEnvOf inp;
     Microservices.description :=
       Some "MCP Gateway Registry Microservices (Application Only - requires existing infrastructure)" |}.

(** *** Where the manifests are placed *)

(** The [(kind, name)] of the manifests placed in a namespace. *)
Definition placedIn (namespace : string) (g : list Decl)
    : list (option string * option string) :=
  (fun d => (manifestKind d, manifestName d))
    <$> List.filter (fun d => bool_decide (manifestNamespace d = Some namespace))
                    (manifests g).

(** The namespaces of the manifests of a kind and a name. *)
Definition namespacesOf (k name : string) (g : list Decl) : list string :=
  omap manifestNamespace
    (List.filter (fun d => bool_decide (manifestName d = Some name))
                 (manifestsOf k g)).

(** *** The script *)

(** [a] has fewer positional parameters left than [b]. *)
Definition parameters_shorter (a b : DeployScript.Shell) : Prop :=
  (List.length (DeployScript.parameters a)
   < List.length (DeployScript.parameters b))%nat.

(** *** Characters *)

Definition decimalDigit (a : ascii) : bool :=
  let c := Js.code a in ((48 <=? c) && (c <=? 57))%N.

(** *** Errors of the constructors *)

(** The error raised when the storage class manifest is added to the
    cluster of the complete stack a second time. *)
Definition duplicateStorageClass : string :=
  alreadyExists "manifest-EfsStorageClass" "FargateCluster [McpCluster]".

(** The four errors of the entry point. *)
Definition entryPointErrors (inp : Bin.RawInputs) : list string :=
  [Bin.domainNameRequired; Bin.adminPasswordRequired;
   Bin.efsFileSystemIdRequired;
   Bin.invalidDeploymentMode (Bin.deploymentMode inp)].

(** The availability zones the VPC of an input spans. *)
Definition spannedZones (inp : Bin.RawInputs) : Z :=
  Js.sliceLength (Z.of_nat (Bin.availabilityZones inp))
    (Complete.maxAzsOrDefault (Some (Bin.maxAzs inp))).

(* ===================================================================== *)
(** ** The entry point, case by case *)
(* ===================================================================== *)

Ltac case_js v :=
  let E := fresh "E" in
  destruct v as [[|? ?]|] eqn:E; simpl in *; try discriminate.

Lemma truthy_inv (v : Js.jsstring) :
  Js.truthy v = true → ∃ a s, v = Some (String a s).
Proof. case_js v. eauto. Qed.

Lemma main_no_domainName inp e :
  Js.truthy (Bin.domainName inp) = false →
  Bin.main inp e = Thrown Bin.domainNameRequired.
Proof. intros H. unfold Bin.main. case_js (Bin.domainName inp); reflexivity. Qed.

Lemma main_no_adminPassword inp e :
  Js.truthy (Bin.domainName inp) = true →
  Js.truthy (Bin.adminPassword inp) = false →
  Bin.main inp e = Thrown Bin.adminPasswordRequired.
Proof.
  intros Hd Hp. unfold Bin.main.
  case_js (Bin.domainName inp). case_js (Bin.adminPassword inp); reflexivity.
Qed.

Lemma main_invalid_mode inp e :
  Js.truthy (Bin.domainName inp) = true →
  Js.truthy (Bin.adminPassword inp) = true →
  validMode (Bin.deploymentMode inp) = false →
  Bin.main inp e = Thrown (Bin.invalidDeploymentMode (Bin.deploymentMode inp)).
Proof.
  intros Hd Hp Hm. unfold Bin.main, validMode in *.
  case_js (Bin.domainName inp). case_js (Bin.adminPassword inp).
  apply orb_false_iff in Hm as [Hm Ha]. apply orb_false_iff in Hm as [Hc Hi].
  rewrite Hc, Hi, Ha. reflexivity.
Qed.

Lemma main_no_storage inp e :
  Js.truthy (Bin.domainName inp) = true →
  Js.truthy (Bin.adminPassword inp) = true →
  Bin.deploymentMode inp = "application-only" →
  Js.truthy (Bin.efsFileSystemId inp) = false →
  Bin.main inp e = Thrown Bin.efsFileSystemIdRequired.
Proof.
  intros Hd Hp Hm He. unfold Bin.main. rewrite Hm.
  case_js (Bin.domainName inp). case_js (Bin.adminPassword inp).
  case_js (Bin.efsFileSystemId inp); reflexivity.
Qed.

Lemma main_complete inp e d p :
  Bin.domainName inp = Some d → Js.nonempty d = true →
  Bin.adminPassword inp = Some p → Js.nonempty p = true →
  Bin.deploymentMode inp = "complete" →
  Bin.main inp e =
    Complete.McpgwCompleteInfrastructureStack
      "McpgwCompleteInfrastructureStack"
      (Bin.completeProps inp d p None Bin.completeDescription) e.
Proof.
  intros Hd Hdn Hp Hpn Hm. unfold Bin.main. rewrite Hd, Hp, Hm.
  destruct d; [discriminate|]. destruct p; [discriminate|]. reflexivity.
Qed.

Lemma main_infrastructure_only inp e d p :
  Bin.domainName inp = Some d → Js.nonempty d = true →
  Bin.adminPassword inp = Some p → Js.nonempty p = true →
  Bin.deploymentMode inp = "infrastructure-only" →
  Bin.main inp e =
    Complete.McpgwCompleteInfrastructureStack
      "McpgwInfrastructureStackFresh"
      (Bin.completeProps inp d p (Some false)
         Bin.infrastructureOnlyDescription) e.
Proof.
  intros Hd Hdn Hp Hpn Hm. unfold Bin.main. rewrite Hd, Hp, Hm.
  destruct d; [discriminate|]. destruct p; [discriminate|]. reflexivity.
Qed.

Lemma main_application_only inp e d p f :
  Bin.domainName inp = Some d → Js.nonempty d = true →
  Bin.adminPassword inp = Some p → Js.nonempty p = true →
  Bin.deploymentMode inp = "application-only" →
  Bin.efsFileSystemId inp = Some f → Js.nonempty f = true →
  Bin.main inp e =
    Microservices.McpgwMicroservicesCdkStack "McpgwMicroservicesCdkStack"
      (Bin.microservicesProps inp d p f) (Bin.environ inp) e.
Proof.
  intros Hd Hdn Hp Hpn Hm Hf Hfn. unfold Bin.main. rewrite Hd, Hp, Hm, Hf.
  destruct d; [discriminate|]. destruct p; [discriminate|].
  destruct f; [discriminate|]. reflexivity.
Qed.

(** Whatever else is wrong, a run that throws declares nothing. *)
Lemma thrown_declares_nothing (o : Outcome Stack) m :
  o = Thrown m → declarations o = [].
Proof. intros ->. reflexivity. Qed.

(** An input that fails a check of the entry point gets the error of the
    first check it fails. *)
Lemma not_accepted_throws inp e :
  accepted inp = false →
  ∃ m, Bin.main inp e = Thrown m ∧ m ∈ entryPointErrors inp.
Proof.
  intros Hacc. unfold accepted in Hacc. unfold entryPointErrors.
  destruct (Js.truthy (Bin.domainName inp)) eqn:Hd;
    [| eexists; split; [by apply main_no_domainName | set_solver]].
  destruct (Js.truthy (Bin.adminPassword inp)) eqn:Hp;
    [| eexists; split; [by apply main_no_adminPassword | set_solver]].
  cbn [andb] in Hacc.
  destruct (String.eqb (Bin.deploymentMode inp) "complete") eqn:Hc;
    [discriminate Hacc|].
  destruct (String.eqb (Bin.deploymentMode inp) "infrastructure-only") eqn:Hi;
    [discriminate Hacc|].
  cbn [orb] in Hacc.
  destruct (String.eqb (Bin.deploymentMode inp) "application-only") eqn:Ha.
  - apply String.eqb_eq in Ha. cbn [andb] in Hacc.
    eexists. split; [by apply main_no_storage | set_solver].
  - eexists. split.
    + apply main_invalid_mode; [done | done |].
      unfold validMode. by rewrite Hc, Hi, Ha.
    + set_solver.
Qed.

Lemma returned_accepted inp e s :
  Bin.main inp e = Returned s → accepted inp = true.
Proof.
  intros Hs. destruct (accepted inp) eqn:Hacc; [reflexivity|].
  destruct (not_accepted_throws inp e Hacc) as (m & Hm & _). congruence.
Qed.

(** ** Sequencing *)

Lemma bind_returned {A B} (o : Outcome A) (f : A → Outcome B) b :
  o ≫= f = Returned b → ∃ a, o = Returned a ∧ f a = Returned b.
Proof. destruct o as [m|a]; [discriminate|]. intros H. by exists a. Qed.

Lemma addChildren_returned stackClass stackName g g' :
  addChildren stackClass stackName g = Returned g' →
  g' = g ∧ firstRepeated [] g = None.
Proof.
  unfold addChildren. destruct (firstRepeated [] g); [discriminate|].
  by intros [= <-].
Qed.

(** A property of the declarations of a run that returns is settled on
    the outcome of the run. *)
Lemma when_returned (o : Outcome Stack) (Q : list Decl → Prop) :
  match o with Returned s => Q (constructs s) | Thrown _ => True end →
  ∀ s, o = Returned s → Q (constructs s).
Proof. intros H s ->. exact H. Qed.

(** What a run of the complete constructor that returns has declared. *)
Lemma complete_returned id props e s :
  Complete.McpgwCompleteInfrastructureStack id props e = Returned s →
  ∃ vpc,
    Complete.createVpc props = Returned vpc
    ∧ certificate s = (Complete.createCertificate props).1
    ∧ constructs s
      = vpc
        ++ (Complete.infrastructure id props).2
        ++ (if Complete.deploysApplications props
            then Complete.applications id props e (Complete.infrastructure id props).1
            else [])
        ++ Complete.createOutputs props (Complete.infrastructure id props).1.
Proof.
  unfold Complete.McpgwCompleteInfrastructureStack. intros H.
  apply bind_returned in H as (vpc & Hvpc & H). exists vpc. split; [exact Hvpc|].
  unfold Complete.infrastructure in *.
  destruct (Complete.createCertificate props) as [c l]. cbn [fst snd] in *.
  apply bind_returned in H as (g & Hg & H).
  apply addChildren_returned in Hg as [-> _].
  by injection H as <-.
Qed.

Lemma createVpc_returned props vpc :
  Complete.createVpc props = Returned vpc →
  Complete.vpcZones props ≠ 0
  ∧ vpc = [mkDecl Vpc "McpVpc" None (VObj [
             ("ipAddresses",
               VObj [("cidr", VStr (Js.or_lit (Complete.Props.vpcCidr props)
                                      "10.0.0.0/16"))]);
             ("maxAzs", VDouble (Complete.maxAzsOrDefault
                                   (Complete.Props.maxAzs props)));
             ("enableDnsHostnames", VBool true);
             ("enableDnsSupport", VBool true);
             ("subnetConfiguration", VArr [
                Complete.subnet "PublicSubnet" "SubnetType.PUBLIC";
                Complete.subnet "PrivateSubnet" "SubnetType.PRIVATE_WITH_EGRESS"]);
             ("natGateways", VNum 1)]);
           mkDecl FlowLog "McpVpcFlowLog" None (VObj [
             ("resourceType", VObj [("fromVpc", VRef "McpVpc")]);
             ("destination", VEnum "FlowLogDestination.toCloudWatchLogs")])].
Proof.
  unfold Complete.createVpc.
  destruct (Z.eqb_spec (Complete.vpcZones props) 0) as [|Hz]; [discriminate|].
  intros [= <-]. by split.
Qed.
(* ===================================================================== *)
(** ** Required parameters and modes (C4, C5, C8) *)
(* ===================================================================== *)

(** C4, as stated, fails: in application-only mode with no storage id and
    no domain name, the run fails on the domain name and the error does
    not identify the storage reference. *)
Lemma missing_storage_reported_after_domain :
  Bin.deploymentMode Samples.noStorageNoDomain = "application-only"
  ∧ Js.truthy (Bin.efsFileSystemId Samples.noStorageNoDomain) = false
  ∧ Bin.main Samples.noStorageNoDomain Samples.entropyA
    = Thrown Bin.domainNameRequired
  ∧ Bin.main Samples.noStorageNoDomain Samples.entropyA
    ≠ Thrown Bin.efsFileSystemIdRequired.
Proof. repeat split; try reflexivity. vm_compute. discriminate. Qed.

(** C4 (amended): in application-only mode, when [efsFileSystemId] resolves
    to an empty or absent value the run throws and declares nothing; when
    moreover [domainName] and [adminPassword] are present, the error is the
    one that names [efsFileSystemId]. *)
Theorem application_only_requires_storage inp e :
  Bin.deploymentMode inp = "application-only" →
  Js.truthy (Bin.efsFileSystemId inp) = false →
  (∃ m, Bin.main inp e = Thrown m)
  ∧ declarations (Bin.main inp e) = []
  ∧ (Js.truthy (Bin.domainName inp) = true →
     Js.truthy (Bin.adminPassword inp) = true →
     Bin.main inp e = Thrown Bin.efsFileSystemIdRequired
     ∧ String.prefix "efsFileSystemId is required" Bin.efsFileSystemIdRequired = true).
Proof.
  intros Hm He.
  assert (Hthrown : ∃ m, Bin.main inp e = Thrown m).
  { destruct (Js.truthy (Bin.domainName inp)) eqn:Hd.
    - destruct (Js.truthy (Bin.adminPassword inp)) eqn:Hp.
      + eexists. by apply main_no_storage.
      + eexists. by apply main_no_adminPassword.
    - eexists. by apply main_no_domainName. }
  split; [exact Hthrown|]. split.
  - destruct Hthrown as [m Hthrown]. by eapply thrown_declares_nothing.
  - intros Hd Hp. split; [by apply main_no_storage | reflexivity].
Qed.

Lemma application_only_requires_storage_witness :
  (∃ m, Bin.main Samples.emptyStorage Samples.entropyA = Thrown m)
  ∧ declarations (Bin.main Samples.emptyStorage Samples.entropyA) = []
  ∧ (Js.truthy (Bin.domainName Samples.emptyStorage) = true →
     Js.truthy (Bin.adminPassword Samples.emptyStorage) = true →
     Bin.main Samples.emptyStorage Samples.entropyA
     = Thrown Bin.efsFileSystemIdRequired
     ∧ String.prefix "efsFileSystemId is required" Bin.efsFileSystemIdRequired = true).
Proof.
  apply (application_only_requires_storage Samples.emptyStorage Samples.entropyA);
    reflexivity.
Defined.

(** C5, as stated, fails for [adminPassword]: in complete mode with neither
    parameter supplied the error names [domainName], not [adminPassword]. *)
Lemma missing_password_reported_after_domain :
  Bin.deploymentMode Samples.nothing = "complete"
  ∧ Js.truthy (Bin.adminPassword Samples.nothing) = false
  ∧ Bin.main Samples.nothing Samples.entropyA = Thrown Bin.domainNameRequired
  ∧ Bin.main Samples.nothing Samples.entropyA ≠ Thrown Bin.adminPasswordRequired.
Proof. repeat split; try reflexivity. vm_compute. discriminate. Qed.

(** C5 (amended): in complete mode, a [domainName] that resolves to no
    non-empty value makes the run throw the error naming [domainName] and
    declare nothing; an [adminPassword] that resolves to no non-empty value
    does the same with the error naming [adminPassword], provided
    [domainName] is present. *)
Theorem complete_requires_domain_and_password inp e :
  Bin.deploymentMode inp = "complete" →
  (Js.truthy (Bin.domainName inp) = false →
     Bin.main inp e = Thrown Bin.domainNameRequired
     ∧ declarations (Bin.main inp e) = []
     ∧ String.prefix "domainName is required" Bin.domainNameRequired = true)
  ∧ (Js.truthy (Bin.domainName inp) = true →
     Js.truthy (Bin.adminPassword inp) = false →
     Bin.main inp e = Thrown Bin.adminPasswordRequired
     ∧ declarations (Bin.main inp e) = []
     ∧ String.prefix "adminPassword is required" Bin.adminPasswordRequired = true).
Proof.
  intros _. split.
  - intros Hd. rewrite (main_no_domainName inp e Hd). by repeat split.
  - intros Hd Hp. rewrite (main_no_adminPassword inp e Hd Hp). by repeat split.
Qed.

Lemma complete_requires_domain_and_password_witness :
  (Bin.main Samples.nothing Samples.entropyA = Thrown Bin.domainNameRequired
   ∧ declarations (Bin.main Samples.nothing Samples.entropyA) = []
   ∧ String.prefix "domainName is required" Bin.domainNameRequired = true)
  ∧ (Bin.main Samples.domainOnly Samples.entropyA = Thrown Bin.adminPasswordRequired
     ∧ declarations (Bin.main Samples.domainOnly Samples.entropyA) = []
     ∧ String.prefix "adminPassword is required" Bin.adminPasswordRequired = true).
Proof.
  split.
  - apply (complete_requires_domain_and_password Samples.nothing Samples.entropyA);
      reflexivity.
  - apply (complete_requires_domain_and_password Samples.domainOnly Samples.entropyA);
      reflexivity.
Defined.

(** C8, as stated, fails: with an unknown mode and no domain name the error
    is the one about the domain name, which does not name the mode. *)
Lemma unknown_mode_reported_after_domain :
  validMode (Bin.deploymentMode Samples.unknownModeOnly) = false
  ∧ Bin.main Samples.unknownModeOnly Samples.entropyA
    = Thrown Bin.domainNameRequired
  ∧ Bin.main Samples.unknownModeOnly Samples.entropyA
    ≠ Thrown (Bin.invalidDeploymentMode "staging").
Proof. repeat split; try reflexivity. vm_compute. discriminate. Qed.

(** C8 (amended): when the resolved deployment mode is none of [complete],
    [infrastructure-only], [application-only], the run throws and no stack
    is constructed; when moreover [domainName] and [adminPassword] are
    present, the error is the one that quotes the invalid mode. *)
Theorem unknown_mode_fails inp e :
  validMode (Bin.deploymentMode inp) = false →
  (∃ m, Bin.main inp e = Thrown m)
  ∧ declarations (Bin.main inp e) = []
  ∧ (Js.truthy (Bin.domainName inp) = true →
     Js.truthy (Bin.adminPassword inp) = true →
     Bin.main inp e
     = Thrown ("Invalid deployment mode: " +:+ Bin.deploymentMode inp
               +:+ ". Use 'complete', 'infrastructure-only', or 'application-only'.")).
Proof.
  intros Hm.
  assert (Hthrown : ∃ m, Bin.main inp e = Thrown m).
  { destruct (Js.truthy (Bin.domainName inp)) eqn:Hd.
    - destruct (Js.truthy (Bin.adminPassword inp)) eqn:Hp.
      + eexists. by apply main_invalid_mode.
      + eexists. by apply main_no_adminPassword.
    - eexists. by apply main_no_domainName. }
  split; [exact Hthrown|]. split.
  - destruct Hthrown as [m Hthrown]. by eapply thrown_declares_nothing.
  - intros Hd Hp. by apply main_invalid_mode.
Qed.

Lemma unknown_mode_fails_witness :
  Bin.main Samples.unknownMode Samples.entropyA
  = Thrown "Invalid deployment mode: staging. Use 'complete', 'infrastructure-only', or 'application-only'.".
Proof.
  apply (unknown_mode_fails Samples.unknownMode Samples.entropyA); reflexivity.
Defined.

(* ===================================================================== *)
(** ** What the constructors throw *)
(* ===================================================================== *)

(** The names the microservices stack gives to its constructs are
    distinct. *)
Lemma microservices_names_are_distinct props envv e c l :
  Microservices.setupCertificate props = Returned (c, l) →
  firstRepeated []
    (l ++ Microservices.deployMicroservicesArchitecture props envv e c
       ++ Microservices.createOutputs props c) = None.
Proof.
  unfold Microservices.setupCertificate.
  destruct (Microservices.certificateArn props) as [[|? ?]|];
    destruct (flag_truthy (Microservices.createCertificate props));
    try discriminate;
    destruct (Microservices.hostedZoneId props) as [[|? ?]|];
    intros [= <- <-]; vm_compute; reflexivity.
Qed.

Lemma microservices_stack_of_certificate id props envv e c l :
  Microservices.setupCertificate props = Returned (c, l) →
  ∃ s, Microservices.McpgwMicroservicesCdkStack id props envv e = Returned s
       ∧ certificate s = c
       ∧ constructs s
         = l ++ Microservices.deployMicroservicesArchitecture props envv e c
             ++ Microservices.createOutputs props c.
Proof.
  intros H. unfold Microservices.McpgwMicroservicesCdkStack, addChildren.
  rewrite H. unfold mbind, Outcome_bind.
  rewrite (microservices_names_are_distinct props envv e c l H).
  eexists. repeat split.
Qed.

Lemma microservices_thrown id props envv e m :
  Microservices.McpgwMicroservicesCdkStack id props envv e = Thrown m →
  Microservices.setupCertificate props = Thrown m.
Proof.
  intros H.
  destruct (Microservices.setupCertificate props) as [m' | [c l]] eqn:Hset.
  - unfold Microservices.McpgwMicroservicesCdkStack in H. rewrite Hset in H.
    unfold mbind, Outcome_bind in H. by injection H as <-.
  - destruct (microservices_stack_of_certificate id props envv e c l Hset)
      as (s & Hs & _).
    congruence.
Qed.

(** The complete stack with its applications adds the storage class
    manifest to the cluster twice, once in [installEfsCsiDriver] and once
    in [EfsPvc]: the second addition throws. *)
Lemma complete_with_applications_throws id props e :
  Complete.deploysApplications props = true →
  Complete.McpgwCompleteInfrastructureStack id props e
  = if Complete.vpcZones props =? 0 then Thrown Complete.noPublicSubnetGroups
    else Thrown duplicateStorageClass.
Proof.
  intros H.
  unfold Complete.McpgwCompleteInfrastructureStack, Complete.createVpc,
    Complete.infrastructure, Complete.createCertificate.
  rewrite H.
  destruct (Complete.vpcZones props =? 0); [reflexivity|].
  destruct (Complete.Props.certificateArn props) as [[|? ?]|];
    destruct (Complete.Props.hostedZoneId props) as [[|? ?]|];
    vm_compute; reflexivity.
Qed.

(** Without its applications it throws only when the VPC spans no
    zone. *)
Lemma complete_infrastructure_returns id props e :
  Complete.deploysApplications props = false →
  Complete.vpcZones props ≠ 0 →
  ∃ s, Complete.McpgwCompleteInfrastructureStack id props e = Returned s.
Proof.
  intros H Hz.
  assert (Hr : match Complete.McpgwCompleteInfrastructureStack id props e with
               | Returned _ => True
               | Thrown _ => False
               end).
  { unfold Complete.McpgwCompleteInfrastructureStack, Complete.createVpc,
      Complete.infrastructure, Complete.createCertificate.
    rewrite H.
    destruct (Z.eqb_spec (Complete.vpcZones props) 0) as [|_]; [done|].
    destruct (Complete.Props.certificateArn props) as [[|? ?]|];
      destruct (Complete.Props.hostedZoneId props) as [[|? ?]|];
      vm_compute; exact I. }
  destruct (Complete.McpgwCompleteInfrastructureStack id props e);
    [done | by eexists].
Qed.

Lemma complete_no_zone id props e :
  Complete.vpcZones props = 0 →
  Complete.McpgwCompleteInfrastructureStack id props e
  = Thrown Complete.noPublicSubnetGroups.
Proof.
  intros Hz. unfold Complete.McpgwCompleteInfrastructureStack, Complete.createVpc.
  by rewrite Hz.
Qed.

Lemma complete_thrown id props e m :
  Complete.McpgwCompleteInfrastructureStack id props e = Thrown m →
  (Complete.vpcZones props = 0 ∧ m = Complete.noPublicSubnetGroups)
  ∨ (Complete.vpcZones props ≠ 0 ∧ Complete.deploysApplications props = true
     ∧ m = duplicateStorageClass).
Proof.
  intros Hm.
  destruct (Z.eqb_spec (Complete.vpcZones props) 0) as [Hz | Hz].
  - left. rewrite (complete_no_zone id props e Hz) in Hm. by injection Hm as <-.
  - right. destruct (Complete.deploysApplications props) eqn:Hd.
    + rewrite (complete_with_applications_throws id props e Hd) in Hm.
      destruct (Z.eqb_spec (Complete.vpcZones props) 0); [done|].
      by injection Hm as <-.
    + destruct (complete_infrastructure_returns id props e Hd Hz) as [s Hs].
      congruence.
Qed.
(* ===================================================================== *)
(** ** Accepted inputs, mode by mode *)
(* ===================================================================== *)

(** What an accepted input runs: one of the three constructors, on props
    built from the input. *)
Lemma accepted_cases inp e :
  accepted inp = true →
  ∃ a d b p,
    Bin.domainName inp = Some (String a d)
    ∧ Bin.adminPassword inp = Some (String b p)
    ∧ ((Bin.deploymentMode inp = "complete"
        ∧ Bin.main inp e
          = Complete.McpgwCompleteInfrastructureStack
              "McpgwCompleteInfrastructureStack"
              (Bin.completeProps inp (String a d) (String b p) None
                 Bin.completeDescription) e)
       ∨ (Bin.deploymentMode inp = "infrastructure-only"
          ∧ Bin.main inp e
            = Complete.McpgwCompleteInfrastructureStack
                "McpgwInfrastructureStackFresh"
                (Bin.completeProps inp (String a d) (String b p) (Some false)
                   Bin.infrastructureOnlyDescription) e)
       ∨ (Bin.deploymentMode inp = "application-only"
          ∧ ∃ c f, Bin.efsFileSystemId inp = Some (String c f)
                   ∧ Bin.main inp e
                     = Microservices.McpgwMicroservicesCdkStack
                         "McpgwMicroservicesCdkStack"
                         (Bin.microservicesProps inp (String a d) (String b p)
                            (String c f))
                         (Bin.environ inp) e)).
Proof.
  intros Hacc. unfold accepted in Hacc.
  apply andb_true_iff in Hacc as [Hacc Hmode].
  apply andb_true_iff in Hacc as [Hd Hp].
  destruct (truthy_inv _ Hd) as (a & d & Ed).
  destruct (truthy_inv _ Hp) as (b & p & Ep).
  exists a, d, b, p. split; [exact Ed|]. split; [exact Ep|].
  apply orb_true_iff in Hmode as [Hmode | Hmode];
    [apply orb_true_iff in Hmode as [Hmode | Hmode] |].
  - apply String.eqb_eq in Hmode. left. split; [exact Hmode|].
    by apply main_complete.
  - apply String.eqb_eq in Hmode. right; left. split; [exact Hmode|].
    by apply main_infrastructure_only.
  - apply andb_true_iff in Hmode as [Hmode Hf].
    apply String.eqb_eq in Hmode.
    destruct (truthy_inv _ Hf) as (c & f & Ef).
    right; right. split; [exact Hmode|]. exists c, f. split; [exact Ef|].
    by apply main_application_only.
Qed.

Lemma createCertificateProp_forced inp :
  Js.truthy (Bin.certificateArn inp) = false →
  flag_truthy (Some (Bin.createCertificateProp inp)) = true.
Proof.
  intros H. unfold Bin.createCertificateProp.
  destruct (flag_truthy (Some (Bin.createCertificate inp))) eqn:Hf; [done|].
  rewrite H. reflexivity.
Qed.

(** In the application-only branch [createCertificate] is as good as
    [true]: it is read only when [certificateArn] is falsy, and is truthy
    then. *)
Lemma microservices_props_creating inp d p f id e :
  Microservices.McpgwMicroservicesCdkStack id (Bin.microservicesProps inp d p f)
    (Bin.environ inp) e
  = Microservices.McpgwMicroservicesCdkStack id
      (microservicesPropsCreating inp d p f) (Bin.environ inp) e.
Proof.
  pose proof (createCertificateProp_forced inp) as Hf.
  unfold Microservices.McpgwMicroservicesCdkStack, Microservices.setupCertificate,
    Bin.microservicesProps, microservicesPropsCreating.
  cbn [Microservices.certificateArn Microservices.createCertificate
       Microservices.hostedZoneId Microservices.domainName].
  destruct (Bin.certificateArn inp) as [[|? ?]|];
    [ rewrite Hf by reflexivity | | rewrite Hf by reflexivity ]; reflexivity.
Qed.

(** The complete mode: the constructor throws, on its VPC when that spans
    no zone and on the storage class manifest otherwise. *)
Lemma complete_mode_throws inp e :
  accepted inp = true →
  Bin.deploymentMode inp = "complete" →
  Bin.main inp e
  = Thrown (if spannedZones inp =? 0 then Complete.noPublicSubnetGroups
            else duplicateStorageClass).
Proof.
  intros Hacc Hmode.
  destruct (accepted_cases inp e Hacc)
    as (a & d & b & p & _ & _ & [[_ H] | [[? _] | (? & _)]]); [| congruence..].
  rewrite H, complete_with_applications_throws by reflexivity.
  change (Complete.vpcZones _) with (spannedZones inp).
  by destruct (spannedZones inp =? 0).
Qed.

Lemma accepted_modes inp e :
  accepted inp = true →
  ∃ a d b p,
    Bin.adminPassword inp = Some (String b p)
    ∧ ((Bin.deploymentMode inp = "complete" ∧ ∃ m, Bin.main inp e = Thrown m)
       ∨ (Bin.deploymentMode inp = "infrastructure-only"
          ∧ Bin.main inp e
            = Complete.McpgwCompleteInfrastructureStack
                "McpgwInfrastructureStackFresh"
                (Bin.completeProps inp (String a d) (String b p)
                   (Some false) Bin.infrastructureOnlyDescription) e)
       ∨ (Bin.deploymentMode inp = "application-only"
          ∧ ∃ c f,
              Bin.main inp e
              = Microservices.McpgwMicroservicesCdkStack
                  "McpgwMicroservicesCdkStack"
                  (microservicesPropsCreating inp (String a d) (String b p)
                     (String c f))
                  (Bin.environ inp) e)).
Proof.
  intros Hacc.
  destruct (accepted_cases inp e Hacc)
    as (a & d & b & p & _ & Hp & [[Hm H] | [[? H] | (? & c & f & _ & H)]]);
    exists a, d, b, p; (split; [exact Hp|]).
  - left. split; [exact Hm|]. eexists. by apply complete_mode_throws.
  - right; left. by split.
  - right; right. split; [assumption|]. exists c, f.
    by rewrite H, microservices_props_creating.
Qed.

(** Evaluation of a check on the graph of a constructor, by cases on the
    certificate parameters. *)
Ltac certificate_cases inp :=
  destruct (Bin.certificateArn inp) as [[|? ?]|];
    [ destruct (Bin.hostedZoneId inp) as [[|? ?]|]
    |
    | destruct (Bin.hostedZoneId inp) as [[|? ?]|] ].

Lemma not_nil_by_evaluation {A} (l : list A) :
  match l with [] => false | _ => true end = true → l ≠ [].
Proof. by destruct l. Qed.

(** Once the graph is determined, each part of the statement is settled by
    evaluation; a part that is conditional on the mode is settled by the
    mode where the condition fails. *)
Ltac settle :=
  repeat match goal with
         | |- _ ∧ _ => split
         | |- _ ≠ [] => apply not_nil_by_evaluation
         | |- _ → _ => intros ?; try (exfalso; congruence)
         end;
  first [ solve [vm_compute; reflexivity] | congruence ].

(** The same for a statement about the run as a whole: the outcome is
    evaluated first. *)
Ltac settle_outcome :=
  vm_compute;
  repeat match goal with
         | |- _ ∧ _ => split
         | |- _ → False => let H := fresh in intros H; discriminate H
         end;
  first [ reflexivity | exact I ].

(** The constructor of the complete stack: on a VPC without a zone it
    throws, otherwise its graph is determined by the certificate
    parameters. *)
Ltac evaluate_complete_by tac inp :=
  unfold Complete.McpgwCompleteInfrastructureStack, Complete.createVpc;
  destruct (Complete.vpcZones _ =? 0);
    [ tac
    | unfold Bin.completeProps;
      generalize (Bin.maxAzs inp); intros ?;
      certificate_cases inp; tac ].

Ltac evaluate_microservices_by tac inp :=
  unfold microservicesPropsCreating, Bin.stackEnvOf;
  destruct (Bin.processEnv inp "CDK_DEFAULT_ACCOUNT");
  certificate_cases inp; tac.

(** The three modes of an accepted input, with the entry point replaced by
    what it runs. *)
Ltac by_mode Hacc inp e :=
  let H := fresh "Hmain" in
  destruct (accepted_modes inp e Hacc)
    as (? & ? & ? & ? & ? & [[? [? H]] | [[? H] | (? & ? & ? & H)]]);
  rewrite ?H.

Ltac evaluate_in_mode_by tac inp :=
  lazymatch goal with
  | |- context [Complete.McpgwCompleteInfrastructureStack] =>
      evaluate_complete_by tac inp
  | |- context [Microservices.McpgwMicroservicesCdkStack] =>
      evaluate_microservices_by tac inp
  | |- _ => tac
  end.

Ltac evaluate_in_mode inp := evaluate_in_mode_by settle inp.

Ltac evaluate_graph Hacc inp e := by_mode Hacc inp e; evaluate_in_mode inp.

(** A statement about the declarations of a run that returns [s], turned
    into one about the outcome of the run. *)
Ltac of_the_outcome Hs :=
  lazymatch type of Hs with
  | ?o = Returned ?s =>
      pattern (constructs s);
      lazymatch goal with
      | |- ?Q (constructs s) => revert s Hs; refine (when_returned o Q _)
      end
  end.

Ltac evaluate_returned Hs inp e :=
  let Hacc := fresh "Hacc" in
  pose proof (returned_accepted _ _ _ Hs) as Hacc;
  of_the_outcome Hs;
  by_mode Hacc inp e; try (exfalso; congruence);
  evaluate_in_mode_by settle_outcome inp.

(** X1. Whatever the mode, every declaration refers only to constructs declared
    before it: no dependency edge dangles and none points forward. *)
Theorem every_graph_is_in_dependency_order inp e :
  accepted inp = true →
  topologicallyOrdered (skeletons (Bin.main inp e)).
Proof.
  intros Hacc. unfold topologicallyOrdered, skeletons.
  evaluate_graph Hacc inp e.
Qed.

Lemma every_graph_is_in_dependency_order_witness :
  topologicallyOrdered (skeletons (Bin.main Samples.withCertificate Samples.entropyA)).
Proof.
  apply (every_graph_is_in_dependency_order Samples.withCertificate Samples.entropyA).
  reflexivity.
Defined.

(* ===================================================================== *)
(** ** Certificates (C9, C10) *)
(* ===================================================================== *)

Lemma complete_certificate_declared id props d :
  d ∈ (Complete.createCertificate props).2 →
  d ∈ (Complete.infrastructure id props).2.
Proof.
  unfold Complete.infrastructure.
  destruct (Complete.createCertificate props) as [c l].
  cbn [snd]. rewrite !elem_of_app. tauto.
Qed.

Lemma complete_certificate id props :
  (Complete.infrastructure id props).1 = (Complete.createCertificate props).1.
Proof.
  unfold Complete.infrastructure. by destruct (Complete.createCertificate props).
Qed.

(** Without a certificate ARN the complete stack creates a certificate,
    whatever the flag. *)
Lemma complete_creates_certificate props :
  Js.truthy (Complete.Props.certificateArn props) = false →
  (Complete.createCertificate props).1 = CreatedCert "McpGatewayCertificate"
  ∧ ∃ d, d ∈ (Complete.createCertificate props).2
         ∧ newCertificateFor (Complete.Props.domainName props) d.
Proof.
  intros H. unfold Complete.createCertificate.
  case_js (Complete.Props.certificateArn props);
    case_js (Complete.Props.hostedZoneId props);
    (split; [reflexivity|]);
    first [ by (eexists; split; [apply list_elem_of_here | repeat split])
          | by (eexists; split;
                [apply list_elem_of_further, list_elem_of_here | repeat split]) ].
Qed.

(** Without a certificate ARN and with a truthy flag the microservices
    stack creates a certificate and does not throw. *)
Lemma microservices_creates_certificate props :
  Js.truthy (Microservices.certificateArn props) = false →
  flag_truthy (Microservices.createCertificate props) = true →
  ∃ l d, Microservices.setupCertificate props
         = Returned (CreatedCert "McpGatewayCertificate", l)
         ∧ d ∈ l ∧ newCertificateFor (Microservices.domainName props) d.
Proof.
  intros H Hf. unfold Microservices.setupCertificate. rewrite Hf.
  case_js (Microservices.certificateArn props);
    case_js (Microservices.hostedZoneId props);
    first [ by (do 2 eexists; split; [reflexivity|];
                split; [apply list_elem_of_here | repeat split])
          | by (do 2 eexists; split; [reflexivity|];
                split; [apply list_elem_of_further, list_elem_of_here
                       | repeat split]) ].
Qed.

Lemma microservices_returns id props envv e :
  Js.truthy (Microservices.certificateArn props) = true
  ∨ flag_truthy (Microservices.createCertificate props) = true →
  ∃ s, Microservices.McpgwMicroservicesCdkStack id props envv e = Returned s.
Proof.
  intros H.
  destruct (Microservices.McpgwMicroservicesCdkStack id props envv e)
    as [m|s] eqn:Hs; [| by exists s].
  apply microservices_thrown in Hs. unfold Microservices.setupCertificate in Hs.
  destruct (Microservices.certificateArn props) as [[|? ?]|];
    destruct (flag_truthy (Microservices.createCertificate props));
    try discriminate Hs; destruct H as [H | H]; discriminate H.
Qed.

(** An accepted input in application-only mode composes its stack. *)
Lemma application_only_returns inp e :
  accepted inp = true →
  Bin.deploymentMode inp = "application-only" →
  ∃ s, Bin.main inp e = Returned s.
Proof.
  intros Hacc Hmode.
  destruct (accepted_cases inp e Hacc)
    as (a & d & b & p & _ & _ & [[? _] | [[? _] | (_ & c & f & _ & H)]]);
    [congruence.. |].
  rewrite H. apply microservices_returns.
  destruct (Js.truthy (Bin.certificateArn inp)) eqn:Harn; [by left | right].
  by apply createCertificateProp_forced.
Qed.

(** What an accepted input throws, when it throws: the error of the VPC or
    the error of the repeated manifest, and the latter in complete mode
    only. *)
Lemma accepted_thrown inp e m :
  accepted inp = true →
  Bin.main inp e = Thrown m →
  (Bin.deploymentMode inp = "complete"
   ∨ Bin.deploymentMode inp = "infrastructure-only")
  ∧ (m = Complete.noPublicSubnetGroups ∧ spannedZones inp = 0
     ∨ m = duplicateStorageClass ∧ spannedZones inp ≠ 0
       ∧ Bin.deploymentMode inp = "complete").
Proof.
  intros Hacc Hm.
  destruct (accepted_cases inp e Hacc)
    as (a & d & b & p & _ & _ & [[Hc H] | [[Hi H] | (Ha & _)]]).
  - split; [by left|].
    rewrite (complete_mode_throws inp e Hacc Hc) in Hm. injection Hm as <-.
    destruct (Z.eqb_spec (spannedZones inp) 0); [by left | by right].
  - split; [by right|].
    rewrite H in Hm. apply complete_thrown in Hm as [[Hz ->] | (_ & Hd & _)].
    + by left.
    + discriminate Hd.
  - destruct (application_only_returns inp e Hacc Ha) as [s Hs]. congruence.
Qed.

(** C9, as stated, fails.  In complete mode, with no certificate ARN and
    [createCertificate] unset, an error is raised and no certificate is
    declared.  And the flag is not why the complete stack creates its
    certificate: constructed without any [createCertificate], it creates
    one all the same. *)
Lemma absent_certificate_in_complete_mode :
  accepted Samples.complete = true
  ∧ Js.truthy (Bin.certificateArn Samples.complete) = false
  ∧ Bin.createCertificate Samples.complete = FBool false
  ∧ Bin.main Samples.complete Samples.entropyA = Thrown duplicateStorageClass
  ∧ declarations (Bin.main Samples.complete Samples.entropyA) = []
  ∧ Complete.Props.createCertificate
      (withStackDefaults
         (Bin.completeProps Samples.infrastructureOnly "x.example.com" "p"
            (Some false) Bin.infrastructureOnlyDescription)) = None
  ∧ match Complete.McpgwCompleteInfrastructureStack
            "McpgwInfrastructureStackFresh"
            (withStackDefaults
               (Bin.completeProps Samples.infrastructureOnly
                  "x.example.com" "p" (Some false)
                  Bin.infrastructureOnlyDescription))
            Samples.entropyA with
    | Returned s => certificate s = CreatedCert "McpGatewayCertificate"
    | Thrown _ => False
    end.
Proof. repeat split; vm_compute; reflexivity. Qed.

(** C9 (amended): for every accepted input in which [certificateArn]
    resolves to no value and [createCertificate] is unset, the flag passed
    to the stack is [true], the error of the certificate check is not
    raised, and a run that composes its stack holds and declares a new
    certificate for the resolved domain name: in application-only mode by
    the create branch of [setupCertificate]; in the complete stack by
    [createCertificate], which creates a certificate whenever
    [certificateArn] is falsy, without reading the flag. *)
Theorem absent_certificate_is_created inp e :
  accepted inp = true →
  Js.truthy (Bin.certificateArn inp) = false →
  Bin.createCertificate inp = FBool false →
  Bin.createCertificateProp inp = FBool true
  ∧ Bin.main inp e ≠ Thrown certificateRequired
  ∧ (∀ s, Bin.main inp e = Returned s →
       ∃ d domain,
         Bin.domainName inp = Some domain
         ∧ certificate s = CreatedCert "McpGatewayCertificate"
         ∧ d ∈ constructs s
         ∧ newCertificateFor domain d)
  ∧ (∀ props, Js.truthy (Complete.Props.certificateArn props) = false →
       (Complete.createCertificate props).1
       = CreatedCert "McpGatewayCertificate").
Proof.
  intros Hacc Harn Hflag. split.
  { unfold Bin.createCertificateProp. by rewrite Hflag, Harn. }
  split.
  { intros Hm. apply (accepted_thrown inp e _ Hacc) in Hm as (_ & [[Hm _] | (Hm & _)]);
      discriminate Hm. }
  split; [| intros props H; by apply complete_creates_certificate].
  intros s Hs.
  destruct (accepted_cases inp e Hacc)
    as (a & d & b & p & Ed & Ep & [[Hc H] | [[Hi H] | (Ha & c & f & Ef & H)]]).
  - rewrite (complete_mode_throws inp e Hacc Hc) in Hs. discriminate Hs.
  - rewrite H in Hs.
    destruct (complete_returned _ _ _ _ Hs) as (vpc & _ & Hcert & Hcons).
    destruct (complete_creates_certificate
                (Bin.completeProps inp (String a d) (String b p) (Some false)
                   Bin.infrastructureOnlyDescription) Harn) as (Hc & x & Hin & Hx).
    exists x, (String a d). split; [exact Ed|].
    split; [by rewrite Hcert|]. split; [| exact Hx].
    rewrite Hcons, !elem_of_app. right; left.
    by apply complete_certificate_declared.
  - rewrite H in Hs.
    destruct (microservices_creates_certificate
                (Bin.microservicesProps inp (String a d) (String b p) (String c f))
                Harn (createCertificateProp_forced inp Harn))
      as (l & x & Hset & Hin & Hx).
    destruct (microservices_stack_of_certificate "McpgwMicroservicesCdkStack"
                _ (Bin.environ inp) e _ _ Hset) as (s' & Hs' & Hc & Hl).
    rewrite Hs' in Hs. injection Hs as <-.
    exists x, (String a d). split; [exact Ed|].
    split; [exact Hc|]. split; [| exact Hx].
    rewrite Hl, elem_of_app. by left.
Qed.

Lemma absent_certificate_is_created_witness :
  Bin.createCertificateProp Samples.applicationOnly = FBool true
  ∧ ∃ s d domain,
      Bin.main Samples.applicationOnly Samples.entropyA = Returned s
      ∧ Bin.domainName Samples.applicationOnly = Some domain
      ∧ certificate s = CreatedCert "McpGatewayCertificate"
      ∧ d ∈ constructs s
      ∧ newCertificateFor domain d.
Proof.
  destruct (absent_certificate_is_created Samples.applicationOnly Samples.entropyA
              eq_refl eq_refl eq_refl) as (Hflag & _ & Hcertificate & _).
  split; [exact Hflag|].
  destruct (application_only_returns Samples.applicationOnly Samples.entropyA
              eq_refl eq_refl) as [s Hs].
  destruct (Hcertificate s Hs) as (d & domain & H).
  exists s, d, domain. split; [exact Hs | exact H].
Defined.

Lemma complete_imports_certificate id props e arn :
  Complete.Props.certificateArn props = Some arn → Js.nonempty arn = true →
  Complete.createCertificate props = (ImportedCert arn, [importedCertificate arn])
  ∧ ∀ s, Complete.McpgwCompleteInfrastructureStack id props e = Returned s →
         certificate s = ImportedCert arn
         ∧ noNewCertificate (constructs s) = true.
Proof.
  intros H Hn. destruct arn as [|a arn]; [discriminate|].
  assert (Hc : Complete.createCertificate props
               = (ImportedCert (String a arn), [importedCertificate (String a arn)])).
  { unfold Complete.createCertificate. by rewrite H. }
  split; [exact Hc|]. intros s Hs.
  destruct (complete_returned _ _ _ _ Hs) as (vpc & Hvpc & Hcert & Hcons).
  destruct (createVpc_returned _ _ Hvpc) as (_ & ->).
  rewrite Hcert, Hcons. unfold Complete.infrastructure. rewrite Hc.
  split; [reflexivity|].
  cbn [fst snd]. unfold Complete.applications.
  destruct (Complete.deploysApplications props); reflexivity.
Qed.

Lemma microservices_imports_certificate id props envv e arn :
  Microservices.certificateArn props = Some arn → Js.nonempty arn = true →
  Microservices.setupCertificate props
  = Returned (ImportedCert arn, [importedCertificate arn])
  ∧ ∃ s, Microservices.McpgwMicroservicesCdkStack id props envv e = Returned s
         ∧ certificate s = ImportedCert arn
         ∧ noNewCertificate (constructs s) = true.
Proof.
  intros H Hn. destruct arn as [|a arn]; [discriminate|].
  assert (Hc : Microservices.setupCertificate props
               = Returned (ImportedCert (String a arn),
                           [importedCertificate (String a arn)])).
  { unfold Microservices.setupCertificate. by rewrite H. }
  split; [exact Hc|].
  destruct (microservices_stack_of_certificate id props envv e _ _ Hc)
    as (s & Hs & Hcert & Hl).
  exists s. split; [exact Hs|]. split; [exact Hcert|].
  rewrite Hl. reflexivity.
Qed.

(** C10: when [certificateArn] is supplied (non-empty), both stacks import
    that certificate whatever [createCertificate] is: the certificate held
    by the stack is the imported one, the only certificate declaration is
    the import, and no new certificate is declared by a run of the entry
    point. *)
Theorem existing_certificate_wins arn :
  Js.nonempty arn = true →
  (∀ props, Microservices.certificateArn props = Some arn →
     Microservices.setupCertificate props
     = Returned (ImportedCert arn, [importedCertificate arn]))
  ∧ (∀ props, Complete.Props.certificateArn props = Some arn →
       Complete.createCertificate props
       = (ImportedCert arn, [importedCertificate arn]))
  ∧ (∀ inp e s, Bin.certificateArn inp = Some arn →
       Bin.main inp e = Returned s →
       certificate s = ImportedCert arn
       ∧ noNewCertificate (constructs s) = true).
Proof.
  intros Hn. split; [| split].
  - intros props H.
    by destruct (microservices_imports_certificate "" props ∅
                   Samples.entropyA arn H Hn).
  - intros props H.
    by destruct (complete_imports_certificate "" props Samples.entropyA arn H Hn).
  - intros inp e s Harn Hs.
    pose proof (returned_accepted _ _ _ Hs) as Hacc.
    destruct (accepted_cases inp e Hacc)
      as (a & d & b & p & _ & _ & [[_ H] | [[_ H] | (_ & c & f & _ & H)]]);
      rewrite H in Hs.
    + destruct (complete_imports_certificate "McpgwCompleteInfrastructureStack"
                  (Bin.completeProps inp (String a d) (String b p) None
                     Bin.completeDescription) e arn Harn Hn) as [_ Hi].
      exact (Hi s Hs).
    + destruct (complete_imports_certificate "McpgwInfrastructureStackFresh"
                  (Bin.completeProps inp (String a d) (String b p) (Some false)
                     Bin.infrastructureOnlyDescription) e arn Harn Hn) as [_ Hi].
      exact (Hi s Hs).
    + destruct (microservices_imports_certificate "McpgwMicroservicesCdkStack"
                  (Bin.microservicesProps inp (String a d) (String b p) (String c f))
                  (Bin.environ inp) e arn Harn Hn) as (_ & s' & Hs' & ? & ?).
      rewrite Hs' in Hs. by injection Hs as <-.
Qed.

Lemma existing_certificate_wins_witness :
  ∃ s, Bin.main Samples.withCertificate Samples.entropyA = Returned s
       ∧ certificate s = ImportedCert Samples.existingArn
       ∧ noNewCertificate (constructs s) = true.
Proof.
  destruct (application_only_returns Samples.withCertificate Samples.entropyA
              eq_refl eq_refl) as [s Hs].
  exists s. split; [exact Hs|].
  exact (proj2 (proj2 (existing_certificate_wins Samples.existingArn eq_refl))
           Samples.withCertificate Samples.entropyA s eq_refl Hs).
Defined.
(* ===================================================================== *)
(** ** Parameter resolution (C6, C7) *)
(* ===================================================================== *)

(** C6, as stated, fails for [createCertificate]: a non-empty environment
    value other than [true] is not what the parameter resolves to. *)
Lemma createCertificate_not_the_environment_value :
  Bin.context Samples.createCertificateYes !! contextKey PCreateCertificate = None
  ∧ Bin.environ Samples.createCertificateYes !! envName PCreateCertificate
    = Some "yes"
  ∧ specified Samples.createCertificateYes PCreateCertificate = RStr "yes"
  ∧ resolved Samples.createCertificateYes PCreateCertificate = RBool false
  ∧ resolved Samples.createCertificateYes PCreateCertificate
    ≠ specified Samples.createCertificateYes PCreateCertificate.
Proof. repeat split; try reflexivity. vm_compute. discriminate. Qed.

(** C6 (amended): every parameter other than [createCertificate] resolves
    to the context value when that is non-empty, otherwise to the
    environment value when that is non-empty, otherwise to its declared
    default ([maxAzs] being that string read by [parseInt]); the defaults
    are [complete], [mcp-gateway-registry], [10.0.0.0/16], [3] and [1.28].
    [createCertificate] resolves to the context value when that is
    non-empty and otherwise to the boolean "the environment value is the
    string [true]". *)
Theorem parameters_resolve_by_precedence inp :
  (∀ p, p ≠ PCreateCertificate → resolved inp p = specified inp p)
  ∧ (∀ p, Js.truthy (Bin.context inp !! contextKey p) = false →
          Js.truthy (Bin.environ inp !! envName p) = false →
          resolved inp p =
            match p with
            | PDeploymentMode => RStr "complete"
            | PClusterName => RStr "mcp-gateway-registry"
            | PVpcCidr => RStr "10.0.0.0/16"
            | PMaxAzs => RNum (Js.Num 3)
            | PKubernetesVersion => RStr "1.28"
            | PCreateCertificate => RBool false
            | _ => RNone
            end)
  ∧ resolved inp PCreateCertificate =
      match Bin.context inp !! "createCertificate" with
      | Some (String _ _ as c) => RStr c
      | _ => RBool (bool_decide (Bin.environ inp !! "CREATE_CERTIFICATE" = Some "true"))
      end.
Proof.
  split; [| split].
  - intros p Hp.
    destruct p; try done;
      unfold resolved, specified, merged, firstNonEmpty, contextKey, envName,
        declaredDefault, Bin.deploymentMode, Bin.clusterName, Bin.domainName,
        Bin.efsFileSystemId, Bin.certificateArn, Bin.adminPassword,
        Bin.hostedZoneId, Bin.vpcCidr, Bin.maxAzs, Bin.maxAzsText,
        Bin.kubernetesVersion, Bin.fromContextOrEnv, Bin.tryGetContext,
        Bin.processEnv, Js.or, Js.or_lit, Js.truthy, Js.nonempty, ofJs;
      repeat match goal with
             | |- context [@lookup _ _ _ _ ?k ?m] =>
                 destruct (@lookup _ _ _ _ k m) as [[|? ?]|]
             end; reflexivity.
  - intros p Hc He.
    destruct p;
      unfold resolved, contextKey, envName,
        Bin.deploymentMode, Bin.clusterName, Bin.domainName,
        Bin.efsFileSystemId, Bin.certificateArn, Bin.adminPassword,
        Bin.hostedZoneId, Bin.vpcCidr, Bin.maxAzs, Bin.maxAzsText,
        Bin.kubernetesVersion, Bin.createCertificate, Bin.fromContextOrEnv,
        Bin.tryGetContext, Bin.processEnv, Js.or, Js.or_lit, ofJs in *;
      cbn [contextKey envName] in Hc, He;
      repeat match goal with
             | H : context [@lookup _ _ _ _ ?k ?m] |- _ =>
                 destruct (@lookup _ _ _ _ k m) as [[|? ?]|]; try discriminate H
             end; reflexivity.
  - unfold resolved, Bin.createCertificate, Bin.tryGetContext, Bin.processEnv.
    by destruct (Bin.context inp !! "createCertificate") as [[|? ?]|].
Qed.

(** A run that returns, found by evaluating the entry point. *)
Lemma returned_by_evaluation (o : Outcome Stack) (Q : Stack → Prop) :
  match o with Returned s => Q s | Thrown _ => False end →
  ∃ s, o = Returned s ∧ Q s.
Proof. destruct o as [m|s]; [done | by exists s]. Qed.

(** An accepted input in infrastructure-only mode composes its stack,
    unless its VPC spans no zone. *)
Lemma infrastructure_only_returns inp e :
  accepted inp = true →
  Bin.deploymentMode inp = "infrastructure-only" →
  spannedZones inp ≠ 0 →
  ∃ s, Bin.main inp e = Returned s.
Proof.
  intros Hacc Hmode Hz.
  destruct (accepted_cases inp e Hacc)
    as (a & d & b & p & _ & _ & [[? _] | [[_ H] | (? & _)]]); [congruence | | congruence].
  rewrite H. by apply complete_infrastructure_returns.
Qed.

(** What the complete stack declares first is its VPC. *)
Lemma complete_declares_vpc id props e s :
  Complete.McpgwCompleteInfrastructureStack id props e = Returned s →
  ∃ rest,
    constructs s
    = mkDecl Vpc "McpVpc" None (VObj [
        ("ipAddresses",
          VObj [("cidr", VStr (Js.or_lit (Complete.Props.vpcCidr props) "10.0.0.0/16"))]);
        ("maxAzs", VDouble (Complete.maxAzsOrDefault (Complete.Props.maxAzs props)));
        ("enableDnsHostnames", VBool true);
        ("enableDnsSupport", VBool true);
        ("subnetConfiguration", VArr [
           Complete.subnet "PublicSubnet" "SubnetType.PUBLIC";
           Complete.subnet "PrivateSubnet" "SubnetType.PRIVATE_WITH_EGRESS"]);
        ("natGateways", VNum 1)]) :: rest.
Proof.
  intros Hs.
  destruct (complete_returned _ _ _ _ Hs) as (vpc & Hvpc & _ & ->).
  destruct (createVpc_returned _ _ Hvpc) as (_ & ->).
  eexists. reflexivity.
Qed.

(** Setting [maxAzs] in the context leaves every other parameter alone. *)
Lemma tryGetContext_withMaxAzs t inp k :
  k ≠ "maxAzs" →
  Bin.tryGetContext (withMaxAzs t inp) k = Bin.tryGetContext inp k.
Proof. intros H. unfold Bin.tryGetContext, withMaxAzs. cbn. by apply lookup_insert_ne. Qed.

Ltac other_than_maxAzs :=
  unfold Bin.createCertificateProp, Bin.createCertificate, Bin.domainName,
    Bin.adminPassword, Bin.hostedZoneId, Bin.certificateArn, Bin.vpcCidr,
    Bin.deploymentMode, Bin.efsFileSystemId, Bin.clusterName,
    Bin.kubernetesVersion, Bin.stackEnvOf, Bin.fromContextOrEnv;
  rewrite ?tryGetContext_withMaxAzs by done; reflexivity.

Lemma maxAzs_withMaxAzs_3 inp : Bin.maxAzs (withMaxAzs "3" inp) = Js.Num 3.
Proof.
  unfold Bin.maxAzs, Bin.maxAzsText, Bin.fromContextOrEnv, Bin.tryGetContext,
    withMaxAzs.
  cbn [Bin.context]. rewrite lookup_insert_eq. reflexivity.
Qed.

(** The complete stack reads [maxAzs] through [props.maxAzs || 3] only. *)
Lemma complete_with_unparsable_maxAzs id inp d p da desc e :
  Bin.maxAzs inp = Js.NaN →
  Complete.McpgwCompleteInfrastructureStack id
    (Bin.completeProps (withMaxAzs "3" inp) d p da desc) e
  = Complete.McpgwCompleteInfrastructureStack id
      (Bin.completeProps inp d p da desc) e.
Proof.
  intros Hnan. unfold Bin.completeProps.
  rewrite maxAzs_withMaxAzs_3, Hnan.
  replace (Bin.hostedZoneId (withMaxAzs "3" inp))
    with (Bin.hostedZoneId inp) by other_than_maxAzs.
  replace (Bin.certificateArn (withMaxAzs "3" inp))
    with (Bin.certificateArn inp) by other_than_maxAzs.
  replace (Bin.createCertificateProp (withMaxAzs "3" inp))
    with (Bin.createCertificateProp inp) by other_than_maxAzs.
  replace (Bin.vpcCidr (withMaxAzs "3" inp))
    with (Bin.vpcCidr inp) by other_than_maxAzs.
  replace (Bin.clusterName (withMaxAzs "3" inp))
    with (Bin.clusterName inp) by other_than_maxAzs.
  replace (Bin.kubernetesVersion (withMaxAzs "3" inp))
    with (Bin.kubernetesVersion inp) by other_than_maxAzs.
  replace (Bin.stackEnvOf (withMaxAzs "3" inp))
    with (Bin.stackEnvOf inp) by other_than_maxAzs.
  unfold Complete.McpgwCompleteInfrastructureStack, Complete.createVpc,
    Complete.vpcZones.
  cbn [Complete.Props.maxAzs Complete.Props.env].
  change (Complete.maxAzsOrDefault (Some (Js.Num 3))) with (Js.Num 3).
  change (Complete.maxAzsOrDefault (Some Js.NaN)) with (Js.Num 3).
  reflexivity.
Qed.

Lemma microservices_withMaxAzs t inp d p f :
  Bin.microservicesProps (withMaxAzs t inp) d p f = Bin.microservicesProps inp d p f.
Proof. unfold Bin.microservicesProps. f_equal; other_than_maxAzs. Qed.

(** C7, as stated, fails: in infrastructure-only mode with [maxAzs] given
    as [abc] nothing is thrown; the stack is composed and its VPC gets the
    default of 3. *)
Lemma unparsable_maxAzs_is_accepted :
  Bin.deploymentMode Samples.badMaxAzs = "infrastructure-only"
  ∧ Bin.maxAzsText Samples.badMaxAzs = "abc"
  ∧ Bin.maxAzs Samples.badMaxAzs = Js.NaN
  ∧ ∃ s, Bin.main Samples.badMaxAzs Samples.entropyA = Returned s
         ∧ ∃ vpc rest, constructs s = vpc :: rest ∧ vpcWithMaxAzs 3 vpc.
Proof.
  split; [reflexivity|]. split; [reflexivity|]. split; [reflexivity|].
  apply returned_by_evaluation. vm_compute.
  do 2 eexists. split; [reflexivity|]. by repeat split.
Qed.

(** C7 (amended): when [maxAzs] does not parse as an integer ([parseInt]
    gives [NaN]), no error is raised on that account: the stack reads the
    parameter as [props.maxAzs || 3], so the run has the outcome it has
    with [maxAzs] set to 3, its default; a run that composes the stack in
    the complete or infrastructure-only mode declares the VPC with the
    default of 3 availability zones. *)
Theorem unparsable_maxAzs_falls_back inp e :
  Js.parseInt (Bin.maxAzsText inp) = Js.NaN →
  Bin.main inp e = Bin.main (withMaxAzs "3" inp) e
  ∧ (∀ s, Bin.main inp e = Returned s →
       Bin.deploymentMode inp ≠ "application-only" →
       ∃ vpc rest, constructs s = vpc :: rest ∧ vpcWithMaxAzs 3 vpc).
Proof.
  intros Hnan. split.
  - unfold Bin.main.
    replace (Bin.domainName (withMaxAzs "3" inp))
      with (Bin.domainName inp) by other_than_maxAzs.
    replace (Bin.adminPassword (withMaxAzs "3" inp))
      with (Bin.adminPassword inp) by other_than_maxAzs.
    replace (Bin.deploymentMode (withMaxAzs "3" inp))
      with (Bin.deploymentMode inp) by other_than_maxAzs.
    replace (Bin.efsFileSystemId (withMaxAzs "3" inp))
      with (Bin.efsFileSystemId inp) by other_than_maxAzs.
    destruct (Bin.domainName inp) as [[|a d]|]; try reflexivity.
    destruct (Bin.adminPassword inp) as [[|b p]|]; try reflexivity.
    destruct (String.eqb (Bin.deploymentMode inp) "complete");
      [ by rewrite complete_with_unparsable_maxAzs |].
    destruct (String.eqb (Bin.deploymentMode inp) "infrastructure-only");
      [ by rewrite complete_with_unparsable_maxAzs |].
    destruct (String.eqb (Bin.deploymentMode inp) "application-only");
      [| reflexivity].
    destruct (Bin.efsFileSystemId inp) as [[|c f]|]; try reflexivity.
    by rewrite microservices_withMaxAzs.
  - intros s Hs Hmode.
    pose proof (returned_accepted _ _ _ Hs) as Hacc.
    assert (Hvpc : ∀ id da desc a d b p,
              Complete.McpgwCompleteInfrastructureStack id
                (Bin.completeProps inp (String a d) (String b p) da desc) e
              = Returned s →
              ∃ vpc rest, constructs s = vpc :: rest ∧ vpcWithMaxAzs 3 vpc).
    { intros id da desc a d b p H.
      destruct (complete_declares_vpc _ _ _ _ H) as [rest Hrest].
      cbn [Bin.completeProps Complete.Props.maxAzs] in Hrest.
      unfold Bin.maxAzs in Hrest. rewrite Hnan in Hrest.
      do 2 eexists. split; [exact Hrest|]. by repeat split. }
    destruct (accepted_cases inp e Hacc)
      as (a & d & b & p & _ & _ & [[_ H] | [[_ H] | (? & _)]]);
      [| | congruence]; rewrite H in Hs; by eapply Hvpc.
Qed.

Lemma unparsable_maxAzs_falls_back_witness :
  ∃ s vpc rest,
    Bin.main Samples.badMaxAzs Samples.entropyA = Returned s
    ∧ Bin.main (withMaxAzs "3" Samples.badMaxAzs) Samples.entropyA = Returned s
    ∧ constructs s = vpc :: rest
    ∧ vpcWithMaxAzs 3 vpc.
Proof.
  destruct (unparsable_maxAzs_falls_back Samples.badMaxAzs Samples.entropyA
              eq_refl) as [Hsame Hvpc].
  destruct (infrastructure_only_returns Samples.badMaxAzs Samples.entropyA
              eq_refl eq_refl) as [s Hs]; [by vm_compute|].
  destruct (Hvpc s Hs) as (vpc & rest & Hrest & Hthree); [discriminate|].
  exists s, vpc, rest. split; [exact Hs|]. split; [by rewrite <- Hsame|].
  split; [exact Hrest | exact Hthree].
Defined.

(* ===================================================================== *)
(** ** Storage claims (C3) *)
(* ===================================================================== *)

Lemma dangling_not_resolved g id c :
  (id, c) ∈ danglingClaims g → ¬ claimsResolved g.
Proof.
  unfold danglingClaims, claimsResolved. intros Hin Hres.
  apply list_elem_of_In, filter_In in Hin as [Hin Hnot].
  apply in_flat_map in Hin as (d & Hd & Hc).
  apply list_elem_of_In, list_elem_of_fmap in Hc as (c' & Heq & Hc').
  injection Heq as -> ->.
  apply list_elem_of_In in Hd.
  specialize (Hres d c' Hd Hc').
  cbn in Hnot. by rewrite bool_decide_eq_true_2 in Hnot.
Qed.

(** C3 fails on the code (a defect of the code): in application-only mode
    the auth-server and registry workloads mount the claim [efs-claim],
    while the only PersistentVolumeClaim declared is [efs-pvc], the name
    the four other workloads use. *)
Theorem storage_claim_of_auth_and_registry_dangles :
  pvcNames (declarations (Bin.main Samples.applicationOnly Samples.entropyA))
  = ["efs-pvc"]
  ∧ danglingClaims (declarations (Bin.main Samples.applicationOnly Samples.entropyA))
    = efsClaimReferences
  ∧ ¬ claimsResolved (declarations (Bin.main Samples.applicationOnly Samples.entropyA)).
Proof.
  assert (Ha : danglingClaims
                 (declarations (Bin.main Samples.applicationOnly Samples.entropyA))
               = efsClaimReferences) by (vm_compute; reflexivity).
  split; [vm_compute; reflexivity|]. split; [exact Ha|].
  apply (dangling_not_resolved _ "AuthServerDeployment" "efs-claim").
  rewrite Ha. apply list_elem_of_here.
Qed.

(** In infrastructure-only mode no workload is declared, so no claim is
    referenced at all. *)
Remark infrastructure_only_mounts_nothing :
  flat_map claimNames
    (declarations (Bin.main Samples.infrastructureOnly Samples.entropyA)) = [].
Proof. vm_compute. reflexivity. Qed.

(* ===================================================================== *)
(** ** Repeated runs (C1) *)
(* ===================================================================== *)

(** The entry point reads the clock and the random generator only through
    the stack it constructs. *)
Lemma main_cases inp :
  (∃ m, ∀ e, Bin.main inp e = Thrown m)
  ∨ (∃ id props, ∀ e,
       Bin.main inp e = Complete.McpgwCompleteInfrastructureStack id props e)
  ∨ (∃ id props, ∀ e,
       Bin.main inp e
       = Microservices.McpgwMicroservicesCdkStack id props (Bin.environ inp) e).
Proof.
  unfold Bin.main.
  destruct (Bin.domainName inp) as [[|a d]|]; [left; by eexists | | left; by eexists].
  destruct (Bin.adminPassword inp) as [[|b p]|]; [left; by eexists | | left; by eexists].
  destruct (String.eqb (Bin.deploymentMode inp) "complete");
    [right; left; by do 2 eexists|].
  destruct (String.eqb (Bin.deploymentMode inp) "infrastructure-only");
    [right; left; by do 2 eexists|].
  destruct (String.eqb (Bin.deploymentMode inp) "application-only");
    [| left; by eexists].
  destruct (Bin.efsFileSystemId inp) as [[|c f]|]; [left; by eexists | | left; by eexists].
  right; right. by do 2 eexists.
Qed.

(** The workloads of the microservices stack differ between two runs in
    the secret key only. *)
Lemma microservices_applications_scrub props envv e1 e2 c :
  scrubDecl <$> Microservices.deployMicroservicesArchitecture props envv e1 c
  = scrubDecl <$> Microservices.deployMicroservicesArchitecture props envv e2 c.
Proof. reflexivity. Qed.

Lemma microservices_applications_skeleton props envv e1 e2 c :
  skeleton <$> Microservices.deployMicroservicesArchitecture props envv e1 c
  = skeleton <$> Microservices.deployMicroservicesArchitecture props envv e2 c.
Proof. reflexivity. Qed.

(** The complete stack reads the clock and the random generator in its
    applications only, and with them it throws. *)
Lemma complete_runs_agree id props e1 e2 :
  Complete.McpgwCompleteInfrastructureStack id props e1
  = Complete.McpgwCompleteInfrastructureStack id props e2.
Proof.
  destruct (Complete.deploysApplications props) eqn:Hd.
  - by rewrite !complete_with_applications_throws.
  - unfold Complete.McpgwCompleteInfrastructureStack. by rewrite Hd.
Qed.

Lemma microservices_runs_agree id props envv e1 e2 :
  scrubOutcome (Microservices.McpgwMicroservicesCdkStack id props envv e1)
  = scrubOutcome (Microservices.McpgwMicroservicesCdkStack id props envv e2)
  ∧ skeletons (Microservices.McpgwMicroservicesCdkStack id props envv e1)
    = skeletons (Microservices.McpgwMicroservicesCdkStack id props envv e2).
Proof.
  unfold Microservices.McpgwMicroservicesCdkStack, skeletons, addChildren.
  destruct (Microservices.setupCertificate props) as [m | [c l]] eqn:Hset; [done|].
  unfold mbind, Outcome_bind.
  rewrite (microservices_names_are_distinct props envv e1 c l Hset),
    (microservices_names_are_distinct props envv e2 c l Hset).
  unfold scrubOutcome, scrubStack, declarations.
  cbn [constructs stackId stackEnv stackDescription certificate].
  pose proof (microservices_applications_scrub props envv e1 e2 c) as Hs.
  pose proof (microservices_applications_skeleton props envv e1 e2 c) as Hk.
  set (X1 := Microservices.deployMicroservicesArchitecture props envv e1 c) in *.
  set (X2 := Microservices.deployMicroservicesArchitecture props envv e2 c) in *.
  clearbody X1 X2.
  rewrite !fmap_app, Hs, Hk. done.
Qed.

(** C1, as stated, fails: two runs on the same inputs one millisecond
    apart produce different graphs; the ConfigMap payloads differ. *)
Lemma runs_differ_in_generated_secret :
  configMapSecretKey
    (declarations (Bin.main Samples.applicationOnly Samples.entropyA))
  = Some "auto-generated-secret-key-cdk-1700000000000"
  ∧ configMapSecretKey
      (declarations (Bin.main Samples.applicationOnly Samples.entropyB))
    = Some "auto-generated-secret-key-cdk-1700000000001"
  ∧ Bin.main Samples.applicationOnly Samples.entropyA
    ≠ Bin.main Samples.applicationOnly Samples.entropyB.
Proof.
  split; [vm_compute; reflexivity|]. split; [vm_compute; reflexivity|].
  intros H.
  apply (f_equal (fun o => configMapSecretKey (declarations o))) in H.
  vm_compute in H. discriminate H.
Qed.

(** C1 (amended): for every fixed pair (mode, rawInputs), two runs agree
    on the outcome, on the stack, on every declaration's class, logical
    name and dependency edges, and on every configuration payload except
    the [SECRET_KEY] entries (of the ConfigMap and of the auth-server and
    registry workloads), which are read from the clock and the random
    generator at each run. *)
Theorem runs_agree_up_to_generated_secrets inp e1 e2 :
  scrubOutcome (Bin.main inp e1) = scrubOutcome (Bin.main inp e2)
  ∧ skeletons (Bin.main inp e1) = skeletons (Bin.main inp e2).
Proof.
  destruct (main_cases inp) as [(m & H) | [(id & props & H) | (id & props & H)]];
    rewrite !H.
  - done.
  - by rewrite (complete_runs_agree id props e1 e2).
  - apply microservices_runs_agree.
Qed.

(* ===================================================================== *)
(** ** Infrastructure-only against complete (C2) *)
(* ===================================================================== *)










(* ===================================================================== *)
(** ** References between manifests *)
(* ===================================================================== *)

(** X2. Every backend of the Ingress names a Service that the same graph
    declares in the Ingress's namespace, on a port that Service exposes;
    in a stack composed in application-only mode these are the six
    services. *)
Theorem ingress_backends_resolve inp e :
  accepted inp = true →
  ingressResolved (declarations (Bin.main inp e)) = true
  ∧ (∀ s, Bin.main inp e = Returned s →
          Bin.deploymentMode inp = "application-only" →
          flat_map ingressBackends (manifestsOf "Ingress" (constructs s))
          = [("registry", 7860); ("auth-server", 8888); ("mcpgw-server", 8003);
             ("currenttime-server", 8000); ("fininfo-server", 8001);
             ("faketools-server", 8002)]).
Proof.
  intros Hacc. split.
  - evaluate_graph Hacc inp e.
  - intros s Hs Hmode. evaluate_returned Hs inp e.
Qed.

Lemma ingress_backends_resolve_witness :
  ingressResolved
    (declarations (Bin.main Samples.applicationOnly Samples.entropyA)) = true
  ∧ ∃ s, Bin.main Samples.applicationOnly Samples.entropyA = Returned s
         ∧ flat_map ingressBackends (manifestsOf "Ingress" (constructs s))
           = [("registry", 7860); ("auth-server", 8888); ("mcpgw-server", 8003);
              ("currenttime-server", 8000); ("fininfo-server", 8001);
              ("faketools-server", 8002)].
Proof.
  destruct (ingress_backends_resolve Samples.applicationOnly Samples.entropyA eq_refl)
    as [Hresolved Hsix].
  split; [exact Hresolved|].
  destruct (application_only_returns Samples.applicationOnly Samples.entropyA
              eq_refl eq_refl) as [s Hs].
  exists s. split; [exact Hs | exact (Hsix s Hs eq_refl)].
Defined.

(** X3. Every Service selects, with a selector that is not empty, the pods of a
    Deployment of its namespace that opens every port the Service targets. *)
Theorem services_are_backed inp e :
  accepted inp = true →
  servicesBacked (declarations (Bin.main inp e)) = true.
Proof. intros Hacc. evaluate_graph Hacc inp e. Qed.

Lemma services_are_backed_witness :
  servicesBacked (declarations (Bin.main Samples.applicationOnly Samples.entropyA))
  = true.
Proof.
  apply (services_are_backed Samples.applicationOnly Samples.entropyA). reflexivity.
Defined.

(** X4. Every autoscaler scales a manifest of its own namespace that has the
    kind and the name it asks for. *)
Theorem autoscalers_resolve inp e :
  accepted inp = true →
  autoscalersResolved (declarations (Bin.main inp e)) = true.
Proof. intros Hacc. evaluate_graph Hacc inp e. Qed.

Lemma autoscalers_resolve_witness :
  autoscalersResolved
    (declarations (Bin.main Samples.applicationOnly Samples.entropyA)) = true.
Proof.
  apply (autoscalers_resolve Samples.applicationOnly Samples.entropyA). reflexivity.
Defined.

(** X5. Every environment variable read from a ConfigMap or a Secret names an
    object of the workload's namespace that the graph declares, and a key
    that object defines; in a stack composed in application-only mode
    there are three such variables. *)
Theorem configuration_references_resolve inp e :
  accepted inp = true →
  envReferencesResolved (declarations (Bin.main inp e)) = true
  ∧ (∀ s, Bin.main inp e = Returned s →
          Bin.deploymentMode inp = "application-only" →
          allEnvReferences (constructs s)
          = [("secretKeyRef", "mcp-gateway-secrets", "polygon-api-key");
             ("configMapKeyRef", "mcp-gateway-config", "AUTH_SERVER_URL");
             ("configMapKeyRef", "mcp-gateway-config", "REGISTRY_URL")]).
Proof.
  intros Hacc. split.
  - evaluate_graph Hacc inp e.
  - intros s Hs Hmode. evaluate_returned Hs inp e.
Qed.

Lemma configuration_references_resolve_witness :
  envReferencesResolved
    (declarations (Bin.main Samples.applicationOnly Samples.entropyA)) = true
  ∧ ∃ s, Bin.main Samples.applicationOnly Samples.entropyA = Returned s
         ∧ allEnvReferences (constructs s)
           = [("secretKeyRef", "mcp-gateway-secrets", "polygon-api-key");
              ("configMapKeyRef", "mcp-gateway-config", "AUTH_SERVER_URL");
              ("configMapKeyRef", "mcp-gateway-config", "REGISTRY_URL")].
Proof.
  destruct (configuration_references_resolve Samples.applicationOnly
              Samples.entropyA eq_refl) as [Hresolved Hthree].
  split; [exact Hresolved|].
  destruct (application_only_returns Samples.applicationOnly Samples.entropyA
              eq_refl eq_refl) as [s Hs].
  exists s. split; [exact Hs | exact (Hthree s Hs eq_refl)].
Defined.

(** X6. In the order of declaration, the Namespace manifest of a namespace
    comes before every manifest placed in that namespace. *)
Theorem namespaces_are_declared_before_use inp e :
  accepted inp = true →
  namespacesPrecede [] (declarations (Bin.main inp e)) = true.
Proof. intros Hacc. evaluate_graph Hacc inp e. Qed.

Lemma namespaces_are_declared_before_use_witness :
  namespacesPrecede []
    (declarations (Bin.main Samples.applicationOnly Samples.entropyA)) = true.
Proof.
  apply (namespaces_are_declared_before_use Samples.applicationOnly Samples.entropyA).
  reflexivity.
Defined.

(** X7. No manifest is given a dependency on another manifest: a workload is
    ordered after its cluster only, not after the Namespace, the ConfigMap,
    the Secret or the claim it uses. *)
Theorem manifests_do_not_depend_on_manifests inp e :
  accepted inp = true →
  noManifestEdges (declarations (Bin.main inp e)) = true.
Proof. intros Hacc. evaluate_graph Hacc inp e. Qed.

Lemma manifests_do_not_depend_on_manifests_witness :
  noManifestEdges
    (declarations (Bin.main Samples.applicationOnly Samples.entropyA)) = true.
Proof.
  apply (manifests_do_not_depend_on_manifests Samples.applicationOnly
           Samples.entropyA).
  reflexivity.
Defined.

(** X8. Every storage class named by a volume or a claim is declared by the
    same graph, and every stack that is composed names at least one. *)
Theorem storage_classes_resolve inp e :
  accepted inp = true →
  storageClassesResolved (declarations (Bin.main inp e)) = true
  ∧ (∀ s, Bin.main inp e = Returned s →
          storageClassReferences (constructs s) ≠ []).
Proof.
  intros Hacc. split.
  - evaluate_graph Hacc inp e.
  - intros s Hs. evaluate_returned Hs inp e.
Qed.

Lemma storage_classes_resolve_witness :
  storageClassesResolved
    (declarations (Bin.main Samples.infrastructureOnly Samples.entropyA)) = true
  ∧ ∃ s, Bin.main Samples.infrastructureOnly Samples.entropyA = Returned s
         ∧ storageClassReferences (constructs s) ≠ [].
Proof.
  destruct (storage_classes_resolve Samples.infrastructureOnly Samples.entropyA
              eq_refl) as [Hresolved Hnamed].
  split; [exact Hresolved|].
  destruct (infrastructure_only_returns Samples.infrastructureOnly Samples.entropyA
              eq_refl eq_refl) as [s Hs]; [by vm_compute|].
  exists s. split; [exact Hs | exact (Hnamed s Hs)].
Defined.

(* ===================================================================== *)
(** ** Workloads *)
(* ===================================================================== *)

(** X9. Every Deployment selects its own pods, every probe asks a port its
    container opens, and every volume a container mounts is a volume of
    its pod. *)
Theorem workloads_are_consistent inp e :
  accepted inp = true →
  selectorsMatchPods (declarations (Bin.main inp e)) = true
  ∧ probesResolved (declarations (Bin.main inp e)) = true
  ∧ mountsResolved (declarations (Bin.main inp e)) = true.
Proof.
  intros Hacc.
  by_mode Hacc inp e; evaluate_in_mode inp.
Qed.

Lemma workloads_are_consistent_witness :
  selectorsMatchPods
    (declarations (Bin.main Samples.applicationOnly Samples.entropyA)) = true
  ∧ probesResolved
      (declarations (Bin.main Samples.applicationOnly Samples.entropyA)) = true
  ∧ mountsResolved
      (declarations (Bin.main Samples.applicationOnly Samples.entropyA)) = true.
Proof.
  apply (workloads_are_consistent Samples.applicationOnly Samples.entropyA).
  reflexivity.
Defined.

(** X10. A container that is handed [PORT] opens exactly the port that text
    reads as; in a stack composed in application-only mode these are the
    four tool servers. *)
Theorem port_variable_is_the_container_port inp e :
  accepted inp = true →
  portVariablesAgree (declarations (Bin.main inp e)) = true
  ∧ (∀ s, Bin.main inp e = Returned s →
          Bin.deploymentMode inp = "application-only" →
          portVariables (constructs s) = ["8000"; "8001"; "8002"; "8003"]).
Proof.
  intros Hacc. split.
  - evaluate_graph Hacc inp e.
  - intros s Hs Hmode. evaluate_returned Hs inp e.
Qed.

Lemma port_variable_is_the_container_port_witness :
  portVariablesAgree
    (declarations (Bin.main Samples.applicationOnly Samples.entropyA)) = true
  ∧ ∃ s, Bin.main Samples.applicationOnly Samples.entropyA = Returned s
         ∧ portVariables (constructs s) = ["8000"; "8001"; "8002"; "8003"].
Proof.
  destruct (port_variable_is_the_container_port Samples.applicationOnly
              Samples.entropyA eq_refl) as [Hagree Hfour].
  split; [exact Hagree|].
  destruct (application_only_returns Samples.applicationOnly Samples.entropyA
              eq_refl eq_refl) as [s Hs].
  exists s. split; [exact Hs | exact (Hfour s Hs eq_refl)].
Defined.

(** X11. Every in-cluster address held by the ConfigMap is the name of a
    declared Service with a port that Service exposes; in a stack composed
    in application-only mode there are six of them. *)
Theorem configured_addresses_resolve inp e :
  accepted inp = true →
  urlsResolved (declarations (Bin.main inp e)) = true
  ∧ (∀ s, Bin.main inp e = Returned s →
          Bin.deploymentMode inp = "application-only" →
          configuredUrls (constructs s)
          = ["http://auth-server:8888"; "http://registry:7860";
             "http://mcpgw-server:8003"; "http://currenttime-server:8000";
             "http://fininfo-server:8001"; "http://faketools-server:8002"]).
Proof.
  intros Hacc. split.
  - evaluate_graph Hacc inp e.
  - intros s Hs Hmode. evaluate_returned Hs inp e.
Qed.

Lemma configured_addresses_resolve_witness :
  urlsResolved (declarations (Bin.main Samples.applicationOnly Samples.entropyA))
  = true
  ∧ ∃ s, Bin.main Samples.applicationOnly Samples.entropyA = Returned s
         ∧ configuredUrls (constructs s)
           = ["http://auth-server:8888"; "http://registry:7860";
              "http://mcpgw-server:8003"; "http://currenttime-server:8000";
              "http://fininfo-server:8001"; "http://faketools-server:8002"].
Proof.
  destruct (configured_addresses_resolve Samples.applicationOnly Samples.entropyA
              eq_refl) as [Hresolved Hsix].
  split; [exact Hresolved|].
  destruct (application_only_returns Samples.applicationOnly Samples.entropyA
              eq_refl eq_refl) as [s Hs].
  exists s. split; [exact Hs | exact (Hsix s Hs eq_refl)].
Defined.



(** X13. A composed stack that creates the cluster selects, by a Fargate
    profile, every namespace in which it places a Deployment or a chart;
    what it places are the charts of [kube-system]. *)
Theorem workloads_have_a_fargate_profile inp e s :
  Bin.main inp e = Returned s →
  Bin.deploymentMode inp ≠ "application-only" →
  workloadsScheduled (constructs s) = true
  ∧ workloadNamespaces (constructs s) = ["kube-system"].
Proof.
  intros Hs Hmode. evaluate_returned Hs inp e.
Qed.

Lemma workloads_have_a_fargate_profile_witness :
  ∃ s, Bin.main Samples.infrastructureOnly Samples.entropyA = Returned s
       ∧ workloadsScheduled (constructs s) = true
       ∧ workloadNamespaces (constructs s) = ["kube-system"].
Proof.
  destruct (infrastructure_only_returns Samples.infrastructureOnly Samples.entropyA
              eq_refl eq_refl) as [s Hs]; [by vm_compute|].
  exists s. split; [exact Hs|].
  apply (workloads_have_a_fargate_profile Samples.infrastructureOnly
           Samples.entropyA s Hs).
  discriminate.
Defined.

(** X14. The stack that deploys the applications on an existing cluster declares
    no Fargate profile at all: the namespace of its workloads is left to
    the cluster it imports. *)
Theorem application_only_declares_no_fargate_profile inp e :
  accepted inp = true →
  Bin.deploymentMode inp = "application-only" →
  fargateNamespaces (declarations (Bin.main inp e)) = []
  ∧ workloadNamespaces (declarations (Bin.main inp e)) = ["mcp-registry"].
Proof.
  intros Hacc Hmode.
  by_mode Hacc inp e; try congruence; evaluate_in_mode inp.
Qed.

Lemma application_only_declares_no_fargate_profile_witness :
  fargateNamespaces
    (declarations (Bin.main Samples.applicationOnly Samples.entropyA)) = []
  ∧ workloadNamespaces
      (declarations (Bin.main Samples.applicationOnly Samples.entropyA))
    = ["mcp-registry"].
Proof.
  apply (application_only_declares_no_fargate_profile
           Samples.applicationOnly Samples.entropyA); reflexivity.
Defined.

(** X15. In a stack composed in application-only mode the administrator's
    password reaches the auth and registry servers as the literal value of
    an environment variable of their Deployments; the only key of a Secret
    that any workload reads is [polygon-api-key]. *)
Theorem password_is_handed_literally inp e s password :
  Bin.main inp e = Returned s →
  Bin.deploymentMode inp = "application-only" →
  Bin.adminPassword inp = Some password →
  literalValues "ADMIN_PASSWORD" (constructs s)
  = [("AuthServerDeployment", password); ("RegistryDeployment", password)]
  ∧ secretKeysRead (constructs s) = ["polygon-api-key"].
Proof.
  intros Hs Hmode Hpw. pose proof (returned_accepted _ _ _ Hs) as Hacc.
  of_the_outcome Hs.
  by_mode Hacc inp e; try (exfalso; congruence);
    match goal with
    | H : Bin.adminPassword inp = Some (String _ _) |- _ =>
        rewrite H in Hpw; injection Hpw as <-
    end;
    evaluate_in_mode_by settle_outcome inp.
Qed.

Lemma password_is_handed_literally_witness :
  ∃ s, Bin.main Samples.applicationOnly Samples.entropyA = Returned s
       ∧ literalValues "ADMIN_PASSWORD" (constructs s)
         = [("AuthServerDeployment", "p"); ("RegistryDeployment", "p")]
       ∧ secretKeysRead (constructs s) = ["polygon-api-key"].
Proof.
  destruct (application_only_returns Samples.applicationOnly Samples.entropyA
              eq_refl eq_refl) as [s Hs].
  exists s. split; [exact Hs|].
  apply (password_is_handed_literally Samples.applicationOnly Samples.entropyA s "p");
    [exact Hs | reflexivity | reflexivity].
Defined.

(* ===================================================================== *)
(** ** What the graph does not depend on *)
(* ===================================================================== *)

Lemma census_of_mode inp e s :
  Bin.main inp e = Returned s →
  census (constructs s)
  = census (declarations
              (Bin.main (sampleOf (Bin.deploymentMode inp)) Samples.entropyA)).
Proof.
  intros Hs. pose proof (returned_accepted _ _ _ Hs) as Hacc.
  of_the_outcome Hs.
  by_mode Hacc inp e; try exact I;
    match goal with H : Bin.deploymentMode inp = _ |- _ => rewrite H end;
    evaluate_in_mode_by settle_outcome inp.
Qed.

(** X16. Which manifests a composed stack adds to the cluster, under which
    ids, and with which kind, name and namespace, depends on the mode
    only: not on any other parameter, the clock or the random
    generator. *)
Theorem manifests_depend_on_the_mode_only inp1 e1 s1 inp2 e2 s2 :
  Bin.main inp1 e1 = Returned s1 →
  Bin.main inp2 e2 = Returned s2 →
  Bin.deploymentMode inp1 = Bin.deploymentMode inp2 →
  census (constructs s1) = census (constructs s2).
Proof.
  intros H1 H2 Hmode.
  rewrite (census_of_mode inp1 e1 s1 H1), (census_of_mode inp2 e2 s2 H2).
  by rewrite Hmode.
Qed.

Lemma manifests_depend_on_the_mode_only_witness :
  ∃ s1 s2,
    Bin.main Samples.applicationOnly Samples.entropyA = Returned s1
    ∧ Bin.main Samples.withCertificate Samples.entropyB = Returned s2
    ∧ census (constructs s1) = census (constructs s2).
Proof.
  destruct (application_only_returns Samples.applicationOnly Samples.entropyA
              eq_refl eq_refl) as [s1 H1].
  destruct (application_only_returns Samples.withCertificate Samples.entropyB
              eq_refl eq_refl) as [s2 H2].
  exists s1, s2. split; [exact H1|]. split; [exact H2|].
  apply (manifests_depend_on_the_mode_only
           Samples.applicationOnly Samples.entropyA s1
           Samples.withCertificate Samples.entropyB s2 H1 H2).
  reflexivity.
Defined.

(* ===================================================================== *)
(** ** Errors *)
(* ===================================================================== *)

(** X18. The complete mode never composes its stack: [installEfsCsiDriver]
    and, inside the applications, [EfsPvc] both add the manifest
    [EfsStorageClass] to the cluster, and the second addition throws.
    Every accepted input of that mode throws and declares nothing, and an
    error about a repeated name is raised in that mode only. *)
Theorem complete_mode_repeats_a_construct_name inp e :
  accepted inp = true →
  (Bin.deploymentMode inp = "complete" →
     (∃ m, Bin.main inp e = Thrown m)
     ∧ declarations (Bin.main inp e) = [])
  ∧ (∀ m, Bin.main inp e = Thrown m →
          String.prefix "There is already a Construct with name" m = true →
          Bin.deploymentMode inp = "complete" ∧ m = duplicateStorageClass)
  ∧ String.prefix
      "There is already a Construct with name 'manifest-EfsStorageClass'"
      duplicateStorageClass = true
  ∧ (∀ id namespace efs,
       childName
         <$> firstRepeated []
               (Complete.installEfsCsiDriver id
                ++ Manifests.EfsPvc "McpCluster" namespace efs)
       = Some "manifest-EfsStorageClass").
Proof.
  intros Hacc. split; [| split; [| split]].
  - intros Hmode. rewrite (complete_mode_throws inp e Hacc Hmode).
    split; [by eexists | reflexivity].
  - intros m Hm Hprefix.
    destruct (accepted_thrown inp e m Hacc Hm) as (_ & [[-> _] | (-> & _ & Hmode)]).
    + discriminate Hprefix.
    + by split.
  - reflexivity.
  - intros id namespace efs. vm_compute. reflexivity.
Qed.

Lemma complete_mode_repeats_a_construct_name_witness :
  (∃ m, Bin.main Samples.complete Samples.entropyA = Thrown m)
  ∧ declarations (Bin.main Samples.complete Samples.entropyA) = [].
Proof.
  exact (proj1 (complete_mode_repeats_a_construct_name
                  Samples.complete Samples.entropyA eq_refl) eq_refl).
Defined.

(** On the sample, the error is the one of the repeated manifest. *)
Remark complete_sample_repeats_the_storage_class :
  Bin.main Samples.complete Samples.entropyA = Thrown duplicateStorageClass.
Proof. vm_compute. reflexivity. Qed.

(** X19. The microservices stack checks one thing only: its constructor throws
    exactly when [certificateArn] and [createCertificate] are both falsy,
    whatever the other props are (an empty domain name, password or
    storage id is not an error). *)
Theorem microservices_stack_checks_the_certificate_only id props environ e m :
  Microservices.McpgwMicroservicesCdkStack id props environ e = Thrown m
  ↔ Js.truthy (Microservices.certificateArn props) = false
    ∧ flag_truthy (Microservices.createCertificate props) = false
    ∧ m = certificateRequired.
Proof.
  split.
  - intros H. apply microservices_thrown in H.
    unfold Microservices.setupCertificate in H.
    destruct (Microservices.certificateArn props) as [[|? ?]|];
      destruct (flag_truthy (Microservices.createCertificate props));
      try discriminate H; by injection H as <-.
  - intros (Harn & Hflag & ->).
    unfold Microservices.McpgwMicroservicesCdkStack, Microservices.setupCertificate.
    rewrite Hflag.
    by destruct (Microservices.certificateArn props) as [[|? ?]|].
Qed.

(** The errors of the constructors are none of the entry point's. *)
Lemma accepted_error_is_of_a_constructor inp e m :
  accepted inp = true →
  Bin.main inp e = Thrown m →
  (m ∉ entryPointErrors inp) ∧ m ≠ certificateRequired.
Proof.
  intros Hacc Hm.
  destruct (accepted_thrown inp e m Hacc Hm) as (Hmode & Hwhich).
  assert (Hm' : m = Complete.noPublicSubnetGroups ∨ m = duplicateStorageClass)
    by (destruct Hwhich as [[-> _] | (-> & _)]; auto).
  clear Hwhich Hm. unfold entryPointErrors.
  destruct Hmode as [-> | ->]; destruct Hm' as [-> | ->];
    (split; [| discriminate]);
    intros Hin;
    repeat (apply elem_of_cons in Hin as [Hin | Hin]; [discriminate Hin|]);
    by apply elem_of_nil in Hin.
Qed.

(** X20. The four errors of the entry point are those of the inputs it does
    not accept, and of them only: an input that fails one of its checks
    gets one of the four, and when an accepted input throws, the error is
    none of the four and is not the certificate check of the microservices
    stack. *)
Theorem entry_point_errors_are_of_its_own_checks inp e :
  (accepted inp = false →
     ∃ m, Bin.main inp e = Thrown m ∧ m ∈ entryPointErrors inp)
  ∧ (accepted inp = true →
     ∀ m, Bin.main inp e = Thrown m →
          (m ∉ entryPointErrors inp) ∧ m ≠ certificateRequired).
Proof.
  split.
  - apply not_accepted_throws.
  - intros Hacc m Hm. by apply accepted_error_is_of_a_constructor with e.
Qed.

Lemma entry_point_errors_are_of_its_own_checks_witness :
  (∃ m, Bin.main Samples.emptyStorage Samples.entropyA = Thrown m
        ∧ m ∈ entryPointErrors Samples.emptyStorage)
  ∧ duplicateStorageClass ∉ entryPointErrors Samples.complete.
Proof.
  split.
  - exact (proj1 (entry_point_errors_are_of_its_own_checks
                    Samples.emptyStorage Samples.entropyA) eq_refl).
  - exact (proj1 (proj2 (entry_point_errors_are_of_its_own_checks
                           Samples.complete Samples.entropyA) eq_refl
                    duplicateStorageClass eq_refl)).
Defined.

(* ===================================================================== *)
(** ** Parameters without effect, and defaults *)
(* ===================================================================== *)

Ltac unchanged_parameter :=
  unfold Bin.domainName, Bin.adminPassword, Bin.deploymentMode,
    Bin.efsFileSystemId, Bin.hostedZoneId, Bin.certificateArn, Bin.vpcCidr,
    Bin.maxAzs, Bin.maxAzsText, Bin.clusterName, Bin.kubernetesVersion,
    Bin.stackEnvOf, Bin.fromContextOrEnv, Bin.tryGetContext, Bin.processEnv,
    withCreateCertificate;
  cbn [Bin.context Bin.environ];
  rewrite ?lookup_partial_alter_ne by done; reflexivity.

Lemma completeProps_withCreateCertificate c v inp d p da desc f1 f2 :
  Complete.McpgwCompleteInfrastructureStack f1
    (Bin.completeProps (withCreateCertificate c v inp) d p da desc) f2
  = Complete.McpgwCompleteInfrastructureStack f1
      (Bin.completeProps inp d p da desc) f2.
Proof.
  unfold Bin.completeProps.
  replace (Bin.hostedZoneId (withCreateCertificate c v inp))
    with (Bin.hostedZoneId inp) by unchanged_parameter.
  replace (Bin.certificateArn (withCreateCertificate c v inp))
    with (Bin.certificateArn inp) by unchanged_parameter.
  replace (Bin.vpcCidr (withCreateCertificate c v inp))
    with (Bin.vpcCidr inp) by unchanged_parameter.
  replace (Bin.maxAzs (withCreateCertificate c v inp))
    with (Bin.maxAzs inp) by unchanged_parameter.
  replace (Bin.clusterName (withCreateCertificate c v inp))
    with (Bin.clusterName inp) by unchanged_parameter.
  replace (Bin.kubernetesVersion (withCreateCertificate c v inp))
    with (Bin.kubernetesVersion inp) by unchanged_parameter.
  replace (Bin.stackEnvOf (withCreateCertificate c v inp))
    with (Bin.stackEnvOf inp) by unchanged_parameter.
  generalize (Bin.createCertificateProp (withCreateCertificate c v inp)).
  generalize (Bin.createCertificateProp inp).
  intros x y. reflexivity.
Qed.

Lemma microservices_withCreateCertificate c v inp d p f id e :
  Microservices.McpgwMicroservicesCdkStack id
    (Bin.microservicesProps (withCreateCertificate c v inp) d p f)
    (Bin.environ (withCreateCertificate c v inp)) e
  = Microservices.McpgwMicroservicesCdkStack id
      (Bin.microservicesProps inp d p f) (Bin.environ inp) e.
Proof.
  assert (Hf : ∀ i, Js.truthy (Bin.certificateArn i) = false →
                flag_truthy (Some (Bin.createCertificateProp i)) = true)
    by exact createCertificateProp_forced.
  assert (Hc : Bin.certificateArn (withCreateCertificate c v inp)
               = Bin.certificateArn inp) by unchanged_parameter.
  specialize (Hf (withCreateCertificate c v inp)) as Hw. rewrite Hc in Hw.
  specialize (Hf inp) as Hi.
  unfold Bin.microservicesProps.
  replace (Bin.hostedZoneId (withCreateCertificate c v inp))
    with (Bin.hostedZoneId inp) by unchanged_parameter.
  rewrite Hc.
  replace (Bin.clusterName (withCreateCertificate c v inp))
    with (Bin.clusterName inp) by unchanged_parameter.
  replace (Bin.stackEnvOf (withCreateCertificate c v inp))
    with (Bin.stackEnvOf inp) by unchanged_parameter.
  unfold Microservices.McpgwMicroservicesCdkStack, Microservices.setupCertificate,
    Microservices.deployMicroservicesArchitecture, Microservices.createOutputs.
  cbn [Microservices.certificateArn Microservices.createCertificate
       Microservices.hostedZoneId Microservices.domainName
       Microservices.clusterName Microservices.adminUser
       Microservices.efsFileSystemId Microservices.env
       Microservices.adminPassword Microservices.description
       Microservices.cognitoClientId Microservices.cognitoClientSecret
       Microservices.cognitoUserPoolId].
  set (fw := Bin.createCertificateProp (withCreateCertificate c v inp)) in *.
  unfold withCreateCertificate. cbn [Bin.environ].
  rewrite !lookup_partial_alter_ne by done.
  destruct (Bin.certificateArn inp) as [[|? ?]|];
    [ rewrite Hw, Hi by reflexivity | | rewrite Hw, Hi by reflexivity ];
    reflexivity.
Qed.

(** X21. The [createCertificate] parameter has no effect: whatever the context
    entry and the [CREATE_CERTIFICATE] variable are set to (or when they
    are unset), the entry point raises the same error or composes the same
    stack.  In particular no setting prevents a certificate from being
    created when [certificateArn] is not given. *)
Theorem createCertificate_has_no_effect c v inp e :
  Bin.main (withCreateCertificate c v inp) e = Bin.main inp e.
Proof.
  unfold Bin.main.
  replace (Bin.domainName (withCreateCertificate c v inp))
    with (Bin.domainName inp) by unchanged_parameter.
  replace (Bin.adminPassword (withCreateCertificate c v inp))
    with (Bin.adminPassword inp) by unchanged_parameter.
  replace (Bin.deploymentMode (withCreateCertificate c v inp))
    with (Bin.deploymentMode inp) by unchanged_parameter.
  replace (Bin.efsFileSystemId (withCreateCertificate c v inp))
    with (Bin.efsFileSystemId inp) by unchanged_parameter.
  destruct (Bin.domainName inp) as [[|a d]|]; try reflexivity.
  destruct (Bin.adminPassword inp) as [[|b p]|]; try reflexivity.
  destruct (String.eqb (Bin.deploymentMode inp) "complete");
    [ by rewrite completeProps_withCreateCertificate |].
  destruct (String.eqb (Bin.deploymentMode inp) "infrastructure-only");
    [ by rewrite completeProps_withCreateCertificate |].
  destruct (String.eqb (Bin.deploymentMode inp) "application-only");
    [| reflexivity].
  destruct (Bin.efsFileSystemId inp) as [[|f g]|]; try reflexivity.
  apply microservices_withCreateCertificate.
Qed.

(** X22. The EFS modes, the user-pool name and the callback and logout URLs
    that the entry point passes are the values the stack falls back to by
    itself: leaving them (and [createCertificate]) out of the props gives
    the same stack. *)
Theorem entry_point_passes_the_defaults inp d p da desc id e :
  Complete.McpgwCompleteInfrastructureStack id
    (withStackDefaults (Bin.completeProps inp d p da desc)) e
  = Complete.McpgwCompleteInfrastructureStack id
      (Bin.completeProps inp d p da desc) e.
Proof.
  unfold withStackDefaults, Bin.completeProps.
  cbn [Complete.Props.domainName Complete.Props.adminPassword
       Complete.Props.adminUser Complete.Props.hostedZoneId
       Complete.Props.certificateArn Complete.Props.vpcCidr
       Complete.Props.maxAzs Complete.Props.clusterName
       Complete.Props.kubernetesVersion Complete.Props.deployApplications
       Complete.Props.env Complete.Props.description].
  generalize (Bin.createCertificateProp inp).
  generalize (Bin.hostedZoneId inp) (Bin.certificateArn inp) (Bin.vpcCidr inp)
    (Bin.maxAzs inp) (Bin.clusterName inp) (Bin.kubernetesVersion inp)
    (Bin.stackEnvOf inp).
  intros. reflexivity.
Qed.

(* ===================================================================== *)
(** ** The network and the cluster version *)
(* ===================================================================== *)

Lemma maxAzsOrDefault_cases (n : Js.number) :
  Js.number_truthy (Complete.maxAzsOrDefault (Some n)) = true
  ∧ (n = Complete.maxAzsOrDefault (Some n)
     ∨ Complete.maxAzsOrDefault (Some n) = Js.Num 3 ∧ (n = Js.NaN ∨ n = Js.Num 0)).
Proof.
  destruct n as [|z|negative]; cbn.
  - split; [reflexivity | right; auto].
  - destruct (Z.eqb_spec z 0) as [-> | Hz]; cbn.
    + split; [reflexivity | right; auto].
    + split; [| left; reflexivity]. by apply negb_true_iff, Z.eqb_neq.
  - split; [reflexivity | left; reflexivity].
Qed.

Lemma sliceLength_nonnegative (len : nat) (last : Js.number) :
  0 ≤ Js.sliceLength (Z.of_nat len) last.
Proof.
  destruct last as [|z|[]]; cbn; try lia.
  destruct (z <? 0) eqn:Hz; [lia|]. apply Z.ltb_ge in Hz. lia.
Qed.

(** A run that returns a stack with a VPC has a zone for it. *)
Lemma returned_spans_a_zone inp e s :
  Bin.main inp e = Returned s →
  Bin.deploymentMode inp ≠ "application-only" →
  0 < spannedZones inp.
Proof.
  intros Hs Hmode. pose proof (returned_accepted _ _ _ Hs) as Hacc.
  assert (Hz : spannedZones inp ≠ 0).
  { intros Hz.
    destruct (accepted_cases inp e Hacc)
      as (a & d & b & p & _ & _ & [[_ H] | [[_ H] | (? & _)]]); [| | congruence];
      rewrite H, complete_no_zone in Hs; done. }
  pose proof (sliceLength_nonnegative (Bin.availabilityZones inp)
                (Complete.maxAzsOrDefault (Some (Bin.maxAzs inp)))) as Hn.
  unfold spannedZones in *. lia.
Qed.

(** X23. A composed stack that creates the network declares one VPC, and
    never with zero availability zones: [maxAzs] is what the text of the
    parameter reads as, except that [0] and a text that does not read as a
    number both give 3, and the VPC spans at least one of the zones of the
    stack.  A negative number that leaves a zone is passed on as it is. *)
Theorem vpc_never_gets_zero_zones inp e s :
  Bin.main inp e = Returned s →
  Bin.deploymentMode inp ≠ "application-only" →
  ∃ m, vpcMaxAzs (constructs s) = [VDouble m]
       ∧ Js.number_truthy m = true
       ∧ (Bin.maxAzs inp = m
          ∨ m = Js.Num 3 ∧ (Bin.maxAzs inp = Js.NaN ∨ Bin.maxAzs inp = Js.Num 0))
       ∧ 0 < Js.sliceLength (Z.of_nat (Bin.availabilityZones inp)) m.
Proof.
  intros Hs Hmode.
  exists (Complete.maxAzsOrDefault (Some (Bin.maxAzs inp))).
  split; [| split; [| split]].
  - evaluate_returned Hs inp e.
  - apply maxAzsOrDefault_cases.
  - apply maxAzsOrDefault_cases.
  - by apply returned_spans_a_zone with e s.
Qed.

Lemma vpc_never_gets_zero_zones_witness :
  ∃ s, Bin.main Samples.badMaxAzs Samples.entropyA = Returned s
       ∧ vpcMaxAzs (constructs s) = [VDouble (Js.Num 3)].
Proof.
  destruct (infrastructure_only_returns Samples.badMaxAzs Samples.entropyA
              eq_refl eq_refl) as [s Hs]; [by vm_compute|].
  exists s. split; [exact Hs|].
  destruct (vpc_never_gets_zero_zones Samples.badMaxAzs Samples.entropyA s Hs)
    as (m & Hvpc & Htruthy & [Hm | [Hm _]] & _); [discriminate | |].
  - rewrite <- Hm in Htruthy. vm_compute in Htruthy. discriminate Htruthy.
  - by rewrite Hvpc, Hm.
Defined.

(** A VPC that would span no zone: the run throws. *)
Remark more_zones_taken_away_than_there_are :
  Bin.maxAzs Samples.negativeMaxAzs = Js.Num (-5)
  ∧ spannedZones Samples.negativeMaxAzs = 0
  ∧ Bin.main Samples.negativeMaxAzs Samples.entropyA
    = Thrown Complete.noPublicSubnetGroups.
Proof. repeat split; vm_compute; reflexivity. Qed.

(** X24. A composed stack that creates the cluster gives it version 1.27
    exactly when the [kubernetesVersion] parameter is the text [1.27];
    every other text, and not only [1.28], gives version 1.28. *)
Theorem cluster_version_is_1_27_or_1_28 inp e s :
  Bin.main inp e = Returned s →
  Bin.deploymentMode inp ≠ "application-only" →
  clusterVersion (constructs s)
  = [VEnum (if String.eqb (Bin.kubernetesVersion inp) "1.27"
            then "KubernetesVersion.V1_27" else "KubernetesVersion.V1_28")].
Proof.
  intros Hs Hmode. pose proof (returned_accepted _ _ _ Hs) as Hacc.
  of_the_outcome Hs.
  by_mode Hacc inp e; try (exfalso; congruence); try exact I;
    unfold Bin.completeProps;
    destruct (String.eqb_spec (Bin.kubernetesVersion inp) "1.28") as [E28 | _];
    destruct (String.eqb_spec (Bin.kubernetesVersion inp) "1.27") as [E27 | _];
    try (rewrite E28 in E27; discriminate E27);
    evaluate_in_mode_by settle_outcome inp.
Qed.

Lemma cluster_version_is_1_27_or_1_28_witness :
  ∃ s, Bin.main Samples.infrastructureOnly Samples.entropyA = Returned s
       ∧ clusterVersion (constructs s) = [VEnum "KubernetesVersion.V1_28"].
Proof.
  destruct (infrastructure_only_returns Samples.infrastructureOnly Samples.entropyA
              eq_refl eq_refl) as [s Hs]; [by vm_compute|].
  exists s. split; [exact Hs|].
  apply (cluster_version_is_1_27_or_1_28 Samples.infrastructureOnly
           Samples.entropyA s Hs).
  discriminate.
Defined.

(* ===================================================================== *)
(** ** deploy.sh *)
(* ===================================================================== *)

Lemma parseArgument_consumes sh sh' :
  DeployScript.parseArgument sh = DeployScript.Goes sh' →
  parameters_shorter sh' sh.
Proof.
  unfold DeployScript.parseArgument, DeployScript.shift, parameters_shorter.
  intros H.
  repeat match type of H with
         | context [if ?b then _ else _] => destruct b eqn:?
         end;
    try discriminate H; injection H as <-; cbn [DeployScript.parameters] in *;
    match goal with
    | E : (_ <=? _)%nat = true |- _ => apply Nat.leb_le in E
    end;
    rewrite length_drop; lia.
Qed.

Lemma parseArguments_ends fuel sh :
  (List.length (DeployScript.parameters sh) ≤ fuel)%nat →
  DeployScript.parseArguments fuel sh = DeployScript.Exit 1
  ∨ ∃ sh', DeployScript.parseArguments fuel sh = DeployScript.Goes sh'
           ∧ DeployScript.parameters sh' = [].
Proof.
  revert sh. induction fuel as [|fuel IH]; intros sh Hlen.
  - destruct (DeployScript.parameters sh) as [|a l] eqn:E; [| cbn in Hlen; lia].
    right. exists sh. cbn. by rewrite E.
  - cbn. destruct (DeployScript.parameters sh) as [|a l] eqn:E.
    + right. by exists sh.
    + destruct (DeployScript.parseArgument sh) as [n | sh' |] eqn:Hp.
      * left. unfold DeployScript.parseArgument in Hp.
        destruct (if String.eqb _ _ then _ else _); [discriminate Hp|].
        by injection Hp as <-.
      * apply IH. apply parseArgument_consumes in Hp.
        unfold parameters_shorter in Hp. rewrite E in Hp. cbn in Hp, Hlen. lia.
      * unfold DeployScript.parseArgument in Hp.
        destruct (if String.eqb _ _ then _ else _); discriminate Hp.
Qed.

Lemma parseArguments_without_profile fuel sh :
  (List.length (DeployScript.parameters sh) ≤ fuel)%nat →
  "--profile" ∉ DeployScript.parameters sh →
  ∃ sh', DeployScript.parseArguments fuel sh = DeployScript.Goes sh'
         ∧ DeployScript.parameters sh' = [].
Proof.
  revert sh. induction fuel as [|fuel IH]; intros sh Hlen Hno.
  - destruct (DeployScript.parameters sh) as [|a l] eqn:E; [| cbn in Hlen; lia].
    exists sh. cbn. by rewrite E.
  - cbn. destruct (DeployScript.parameters sh) as [|a l] eqn:E.
    + by exists sh.
    + assert (Ha : String.eqb a "--profile" = false).
      { apply String.eqb_neq. intros ->. apply Hno. by left. }
      unfold DeployScript.parseArgument, DeployScript.positional, DeployScript.shift.
      rewrite E. cbn [lookup list_lookup default from_option id].
      rewrite Ha.
      destruct (bool_decide (a ∈ DeployScript.commandWords));
        cbn [DeployScript.parameters List.length Nat.leb drop];
        (apply IH; simpl; rewrite drop_0;
         [ simpl in Hlen; lia | intros Hin; apply Hno; by right ]).
Qed.

(** X25. Whatever its arguments, the script ends in one of two ways: it exits
    with status 1 (a [--profile] with nothing after it), or it prints the
    usage text.  It never runs a command: the argument loop has shifted
    every parameter away by the time [main "$@"] is reached, so [main]
    falls back to [help], whatever [COMMAND] holds.  Without [--profile]
    among the arguments it is always the usage text. *)
Theorem the_script_never_runs_a_command fuel argv :
  (List.length argv ≤ fuel)%nat →
  (DeployScript.script fuel argv = DeployScript.Exit 1
   ∨ ∃ sh, DeployScript.script fuel argv
           = DeployScript.Goes (sh, [DeployScript.usage]))
  ∧ ("--profile" ∉ argv →
     ∃ sh, DeployScript.script fuel argv
           = DeployScript.Goes (sh, [DeployScript.usage])).
Proof.
  intros Hlen. unfold DeployScript.script. split.
  - destruct (parseArguments_ends fuel (DeployScript.start argv) Hlen)
      as [-> | (sh & -> & Hsh)]; [by left|].
    right. cbn [DeployScript.parameters]. rewrite Hsh. by eexists.
  - intros Hno.
    destruct (parseArguments_without_profile fuel (DeployScript.start argv) Hlen Hno)
      as (sh & -> & Hsh).
    cbn [DeployScript.parameters]. rewrite Hsh. by eexists.
Qed.

Lemma the_script_never_runs_a_command_witness :
  (DeployScript.script 3 ["deploy"; "--profile"; "production"] = DeployScript.Exit 1
   ∨ ∃ sh, DeployScript.script 3 ["deploy"; "--profile"; "production"]
           = DeployScript.Goes (sh, [DeployScript.usage]))
  ∧ ("--profile" ∉ ["deploy"; "--profile"; "production"] →
     ∃ sh, DeployScript.script 3 ["deploy"; "--profile"; "production"]
           = DeployScript.Goes (sh, [DeployScript.usage])).
Proof.
  apply (the_script_never_runs_a_command 3 ["deploy"; "--profile"; "production"]).
  cbn. lia.
Defined.

(** The command asked for is recorded and then not used: [deploy] with a
    profile sets [COMMAND] and [CDK_PROFILE_ARG], and the usage text is all
    that follows; [main], given the word itself, would deploy. *)
Remark deploy_is_recorded_and_not_run :
  DeployScript.script 3 ["deploy"; "--profile"; "production"]
  = DeployScript.Goes
      ({| DeployScript.parameters := [];
          DeployScript.COMMAND := "deploy";
          DeployScript.AWS_PROFILE := "production";
          DeployScript.CDK_PROFILE_ARG := "--profile production" |},
       [DeployScript.usage])
  ∧ DeployScript.deploy_stack ∈ DeployScript.main ["deploy"]
  ∧ DeployScript.script 2 ["deploy"; "--profile"] = DeployScript.Exit 1.
Proof. split; [reflexivity|]. split; [set_solver | reflexivity]. Qed.

Lemma mode_of_environment inp :
  Js.truthy (Bin.tryGetContext inp "deploymentMode") = false →
  DeployScript.mode (Bin.environ inp) = Bin.deploymentMode inp.
Proof.
  unfold DeployScript.mode, DeployScript.variable, Bin.deploymentMode,
    Bin.fromContextOrEnv, Bin.processEnv, Js.or.
  intros ->. by destruct (Bin.environ inp !! "DEPLOYMENT_MODE") as [[|? ?]|].
Qed.

(** X26. The script and the entry point do not agree on the modes: with the
    mode taken from the environment, [load_config] lets through exactly
    [complete] and [application-only], and so it exits on
    [infrastructure-only], which the entry point accepts. *)
Theorem the_script_rejects_infrastructure_only inp :
  Js.truthy (Bin.tryGetContext inp "deploymentMode") = false →
  (DeployScript.load_config (Bin.environ inp) = DeployScript.Goes ()
   ↔ Bin.deploymentMode inp = "complete"
     ∨ Bin.deploymentMode inp = "application-only")
  ∧ (Bin.deploymentMode inp = "infrastructure-only" →
     DeployScript.load_config (Bin.environ inp) = DeployScript.Exit 1
     ∧ validMode (Bin.deploymentMode inp) = true).
Proof.
  intros Hctx. unfold DeployScript.load_config.
  rewrite (mode_of_environment inp Hctx).
  split.
  - destruct (String.eqb_spec (Bin.deploymentMode inp) "complete") as [-> | Hc];
      [ split; [by left | done] |].
    destruct (String.eqb_spec (Bin.deploymentMode inp) "application-only")
      as [-> | Ha]; [ split; [by right | done] |].
    split; [discriminate | by intros [? | ?]].
  - intros ->. by split.
Qed.

Lemma the_script_rejects_infrastructure_only_witness :
  (DeployScript.load_config
     (Bin.environ (Samples.inputs [] [("DEPLOYMENT_MODE", "infrastructure-only")]))
   = DeployScript.Goes ()
   ↔ Bin.deploymentMode (Samples.inputs [] [("DEPLOYMENT_MODE", "infrastructure-only")])
     = "complete"
     ∨ Bin.deploymentMode (Samples.inputs [] [("DEPLOYMENT_MODE", "infrastructure-only")])
       = "application-only")
  ∧ (Bin.deploymentMode (Samples.inputs [] [("DEPLOYMENT_MODE", "infrastructure-only")])
     = "infrastructure-only" →
     DeployScript.load_config
       (Bin.environ (Samples.inputs [] [("DEPLOYMENT_MODE", "infrastructure-only")]))
     = DeployScript.Exit 1
     ∧ validMode
         (Bin.deploymentMode
            (Samples.inputs [] [("DEPLOYMENT_MODE", "infrastructure-only")]))
       = true).
Proof.
  apply (the_script_rejects_infrastructure_only
           (Samples.inputs [] [("DEPLOYMENT_MODE", "infrastructure-only")])).
  reflexivity.
Defined.

Lemma chomp_nonempty s :
  DeployScript.isEmpty (DeployScript.chomp s) = false →
  DeployScript.isEmpty s = false.
Proof. by destruct s. Qed.

Lemma not_missing_is_truthy inp name key :
  DeployScript.isMissing (Bin.environ inp) (Bin.context inp) name key = false →
  Js.truthy (Bin.fromContextOrEnv inp key name) = true.
Proof.
  unfold DeployScript.isMissing, DeployScript.variable, DeployScript.contextEntry,
    Bin.fromContextOrEnv, Bin.tryGetContext, Bin.processEnv, Js.or.
  intros H.
  destruct (Bin.context inp !! key) as [[|? ?]|]; [| reflexivity |];
    destruct (Bin.environ inp !! name) as [[|? ?]|]; done.
Qed.

(** X27. A configuration that [load_config] and [validate_config] let through
    passes the four checks of the entry point, when the app runs on the
    same environment and on the context of [cdk.context.json], and the
    mode is not set in that context: none of the four errors of the entry
    point is raised.  In complete mode, one of the two modes the script
    lets through, the constructor of the stack throws all the same. *)
Theorem a_validated_configuration_is_accepted inp e :
  Js.truthy (Bin.tryGetContext inp "deploymentMode") = false →
  DeployScript.load_config (Bin.environ inp) = DeployScript.Goes () →
  DeployScript.validate_config (Bin.environ inp) (Bin.context inp)
  = DeployScript.Goes () →
  accepted inp = true
  ∧ (∀ m, Bin.main inp e = Thrown m → m ∉ entryPointErrors inp)
  ∧ (Bin.deploymentMode inp = "complete" → ∃ m, Bin.main inp e = Thrown m).
Proof.
  intros Hctx Hload Hvalid.
  assert (Hacc : accepted inp = true).
  { unfold DeployScript.validate_config in Hvalid.
    destruct (DeployScript.missing_vars (Bin.environ inp) (Bin.context inp)) eqn:Hm;
      [clear Hvalid | discriminate Hvalid].
    unfold DeployScript.missing_vars in Hm.
    apply app_eq_nil in Hm as [Hd Hm]. apply app_eq_nil in Hm as [Hp Hf].
    unfold DeployScript.load_config in Hload.
    rewrite (mode_of_environment inp Hctx) in Hload, Hf.
    unfold accepted, Bin.domainName, Bin.adminPassword, Bin.efsFileSystemId.
    rewrite (not_missing_is_truthy inp "DOMAIN_NAME" "domainName")
      by (by destruct (DeployScript.isMissing _ _ "DOMAIN_NAME" _)).
    rewrite (not_missing_is_truthy inp "ADMIN_PASSWORD" "adminPassword")
      by (by destruct (DeployScript.isMissing _ _ "ADMIN_PASSWORD" _)).
    cbn [andb].
    destruct (String.eqb (Bin.deploymentMode inp) "complete"); [reflexivity|].
    destruct (String.eqb (Bin.deploymentMode inp) "application-only");
      [| discriminate Hload].
    rewrite (not_missing_is_truthy inp "EFS_FILE_SYSTEM_ID" "efsFileSystemId")
      by (cbn [andb] in Hf;
          by destruct (DeployScript.isMissing _ _ "EFS_FILE_SYSTEM_ID" _)).
    by rewrite orb_true_r. }
  split; [exact Hacc|]. split.
  - intros m Hm. by apply (accepted_error_is_of_a_constructor inp e m Hacc Hm).
  - intros Hmode. eexists. by apply complete_mode_throws.
Qed.

Lemma a_validated_configuration_is_accepted_witness :
  accepted
    (Samples.inputs [("domainName", "x.example.com")]
                    [("DEPLOYMENT_MODE", "application-only");
                     ("ADMIN_PASSWORD", "p");
                     ("EFS_FILE_SYSTEM_ID", "fs-0123456789abcdef0")])
  = true.
Proof.
  destruct (a_validated_configuration_is_accepted
              (Samples.inputs [("domainName", "x.example.com")]
                              [("DEPLOYMENT_MODE", "application-only");
                               ("ADMIN_PASSWORD", "p");
                               ("EFS_FILE_SYSTEM_ID", "fs-0123456789abcdef0")])
              Samples.entropyA eq_refl eq_refl eq_refl)
    as (Hacc & _).
  exact Hacc.
Defined.

(** The converse fails: a context entry that is a line feed is something
    to the entry point and nothing to the script. *)
Remark an_accepted_configuration_may_not_validate :
  let inp := Samples.inputs [("domainName", String (ascii_of_nat 10) EmptyString);
                             ("adminPassword", "p")] [] in
  accepted inp = true
  ∧ DeployScript.validate_config (Bin.environ inp) (Bin.context inp)
    = DeployScript.Exit 1.
Proof. split; reflexivity. Qed.

(** X28. Nothing is ever placed in the namespace that [check_status],
    [monitor_deployment] and [show_logs] look into: in a stack composed in
    application-only mode the Ingress and the Deployment that the script
    asks for by name are declared in [mcp-registry]. *)
Theorem the_script_inspects_an_empty_namespace inp e :
  accepted inp = true →
  placedIn DeployScript.inspectedNamespace (declarations (Bin.main inp e)) = []
  ∧ (∀ s, Bin.main inp e = Returned s →
          Bin.deploymentMode inp = "application-only" →
          namespacesOf "Ingress" DeployScript.inspectedIngress (constructs s)
          = ["mcp-registry"]
          ∧ namespacesOf "Deployment" DeployScript.inspectedDeployment
              (constructs s) = ["mcp-registry"]).
Proof.
  intros Hacc. split.
  - evaluate_graph Hacc inp e.
  - intros s Hs Hmode. evaluate_returned Hs inp e.
Qed.

Lemma the_script_inspects_an_empty_namespace_witness :
  placedIn DeployScript.inspectedNamespace
    (declarations (Bin.main Samples.applicationOnly Samples.entropyA)) = []
  ∧ ∃ s, Bin.main Samples.applicationOnly Samples.entropyA = Returned s
         ∧ namespacesOf "Ingress" DeployScript.inspectedIngress (constructs s)
           = ["mcp-registry"]
         ∧ namespacesOf "Deployment" DeployScript.inspectedDeployment
             (constructs s) = ["mcp-registry"].
Proof.
  destruct (the_script_inspects_an_empty_namespace Samples.applicationOnly
              Samples.entropyA eq_refl) as [Hempty Hplaced].
  split; [exact Hempty|].
  destruct (application_only_returns Samples.applicationOnly Samples.entropyA
              eq_refl eq_refl) as [s Hs].
  exists s. split; [exact Hs | exact (Hplaced s Hs eq_refl)].
Defined.

(* ===================================================================== *)
(** ** Names and numbers *)
(* ===================================================================== *)

Lemma lower_is_not_upper a : upper (Js.lower a) = false.
Proof. by destruct a as [[] [] [] [] [] [] [] []]. Qed.

Lemma noUpperCase_toLowerCase s : noUpperCase (Js.toLowerCase s) = true.
Proof.
  induction s as [|a s IH]; [reflexivity|].
  cbn [Js.toLowerCase noUpperCase]. by rewrite lower_is_not_upper, IH.
Qed.

Lemma noUpperCase_app s t :
  noUpperCase (s +:+ t) = noUpperCase s && noUpperCase t.
Proof.
  induction s as [|a s IH]; [reflexivity|].
  simpl. by rewrite IH, andb_assoc.
Qed.

(** X29. The name generated for a service account has no upper-case letter
    when the base name has none, whatever the name of the stack. *)
Theorem service_account_names_are_lower_case stackName baseName :
  noUpperCase baseName = true →
  noUpperCase (Complete.generateUniqueServiceAccountName stackName baseName) = true.
Proof.
  intros H. unfold Complete.generateUniqueServiceAccountName.
  by rewrite !noUpperCase_app, H, noUpperCase_toLowerCase.
Qed.

Lemma service_account_names_are_lower_case_witness :
  noUpperCase
    (Complete.generateUniqueServiceAccountName
       "McpgwCompleteInfrastructureStack" "aws-load-balancer-controller") = true.
Proof.
  apply (service_account_names_are_lower_case
           "McpgwCompleteInfrastructureStack" "aws-load-balancer-controller").
  reflexivity.
Defined.

Lemma digits_stop R s a t acc :
  Js.digit a = None →
  Js.digits R (s +:+ String a t) acc = Js.digits R s acc.
Proof.
  intros Ha. revert acc. induction s as [|b s IH]; intros acc.
  - change (EmptyString +:+ String a t) with (String a t).
    cbn [Js.digits]. by rewrite Ha.
  - change (String b s +:+ String a t) with (String b (s +:+ String a t)).
    cbn [Js.digits].
    destruct (Js.digit b) as [d|]; [| reflexivity].
    destruct (d <? R); [apply IH | reflexivity].
Qed.

Lemma decimal_digit_is_no_prefix c :
  decimalDigit c = true →
  Js.ws1 c = false ∧ (∀ b, Js.ws2 c b = false) ∧ (∀ b e, Js.ws3 c b e = false)
  ∧ (Js.code c =? 45)%N = false ∧ (Js.code c =? 43)%N = false.
Proof.
  destruct c as [[] [] [] [] [] [] [] []]; intros H; try discriminate H;
    (split; [reflexivity|]); (split; [intros b; reflexivity|]);
    (split; [intros b e; reflexivity|]); split; reflexivity.
Qed.

Lemma no_digit_is_no_x a :
  Js.digit a = None →
  ((Js.code a =? 120) || (Js.code a =? 88))%N = false.
Proof. by destruct a as [[] [] [] [] [] [] [] []]. Qed.

(** X30. [parseInt] reads the digits a text starts with and ignores what
    follows them: a text that starts with a decimal digit reads the same
    with anything appended that starts with a character that is neither a
    digit nor a letter. *)
Theorem parseInt_ignores_what_follows c s a t :
  decimalDigit c = true →
  Js.digit a = None →
  Js.parseInt (String c s +:+ String a t) = Js.parseInt (String c s).
Proof.
  intros Hc Ha.
  destruct (decimal_digit_is_no_prefix c Hc) as (W1 & W2 & W3 & Hm & Hp).
  assert (Htrim : ∀ r, Js.trimStart (String c r) = String c r).
  { intros r. cbn [Js.trimStart]. rewrite W1.
    destruct r as [|b r]; [reflexivity|]. rewrite W2.
    destruct r as [|e r]; [reflexivity|]. by rewrite W3. }
  change (String c s +:+ String a t) with (String c (s +:+ String a t)).
  unfold Js.parseInt. rewrite !Htrim.
  unfold Js.strip_sign. rewrite Hm, Hp.
  destruct s as [|b s].
  - change (EmptyString +:+ String a t) with (String a t).
    cbn [Js.strip_hex].
    rewrite (no_digit_is_no_x a Ha), andb_false_r.
    change (String c (String a t)) with (String c EmptyString +:+ String a t).
    by rewrite digits_stop.
  - change (String b s +:+ String a t) with (String b (s +:+ String a t)).
    cbn [Js.strip_hex].
    destruct ((Js.code c =? 48)%N && ((Js.code b =? 120)%N || (Js.code b =? 88)%N)).
    + by rewrite digits_stop.
    + change (String c (String b (s +:+ String a t)))
        with (String c (String b s) +:+ String a t).
      by rewrite digits_stop.
Qed.

Lemma parseInt_ignores_what_follows_witness :
  Js.parseInt ("2" +:+ " zones") = Js.parseInt "2".
Proof.
  apply (parseInt_ignores_what_follows "2" "" " " "zones"); reflexivity.
Defined.
